(** * Shape and layout lowerings of the ONNX to Keras converter

    A shallow embedding of [onnx2kerastl/reshape_layers.py]: the lowering
    routines [convert_transpose], [convert_shape], [convert_gather],
    [convert_concat], [convert_reshape], [convert_unsqueeze],
    [convert_flatten], [convert_slice], [convert_squeeze], [convert_resize],
    [convert_expand] and [convert_tile], over

    - a model of the host-side arrays the routines compute on ([ndarray],
      module [np]),
    - a model of the target-graph tensors they emit ([tensor], module [tf]),
    - a state-and-exception monad [M] for the dictionaries the routines
      mutate ([layers], [lambda_func], [params]) and the log they write. *)

From Stdlib Require Import ZArith List String Lia Bool.
From stdpp Require Import base gmap strings list.

Local Open Scope string_scope.
Local Open Scope list_scope.
Local Open Scope Z_scope.

(** ** Python exceptions and fallible host computations *)

Inductive exn :=
| AttributeError (msg : string)
| TypeError (msg : string)
| ValueError (msg : string)
| KeyError (key : string)
| IndexError (msg : string)
| NotImplementedError (msg : string)
| UnboundLocalError (var : string)
| PyException (msg : string)
| Unmodelled (what : string).
(* [PyException] is a plain [Exception], or [AssertionError].  [Unmodelled]
   is no Python exception: it marks the few runs that leave the model (the
   host value of a tensor the framework computed, the rows of an array of
   rank 2 or more where a vector of numbers is expected); the properties
   below do not speak about what the source does on such a run. *)

Inductive result (A : Type) :=
| Ok (a : A)
| Raise (e : exn).
Arguments Ok {A} a.
Arguments Raise {A} e.

Definition rbind {A B} (r : result A) (f : A → result B) : result B :=
  match r with
  | Ok a => f a
  | Raise e => Raise e
  end.

Declare Scope result_scope.
Delimit Scope result_scope with res.
Notation "'let?' x ':=' r 'in' k" := (rbind r (fun x => k))
  (at level 10, x pattern, r at level 100, k at level 200) : result_scope.

(** [for x in l: acc = f(acc, x)] with a body that may raise. *)
Fixpoint rfold {A B} (f : A → B → result A) (l : list B) (acc : A) : result A :=
  match l with
  | [] => Ok acc
  | x :: l' => rbind (f acc x) (rfold f l')
  end.

(** [[f(x) for x in l]] with a body that may raise. *)
Fixpoint rmap {A B} (f : A → result B) (l : list A) : result (list B) :=
  match l with
  | [] => Ok []
  | x :: l' => rbind (f x) (fun y => rbind (rmap f l') (fun ys => Ok (y :: ys)))
  end.

(** ** Scalars

    The payload of an array cell or of a Python number: an integer, a
    floating-point number [m * 2^e] (kept as its mantissa and exponent; the
    routines only compare floats with [1], scale a dimension by one and
    truncate), or Python's [None] (in an array of dtype [object]). *)

Inductive scalar :=
| SInt (z : Z)
| SFloat (m e : Z)
| SNone.

Definition scalar_eqb (a b : scalar) : bool :=
  match a, b with
  | SInt x, SInt y => x =? y
  | SNone, SNone => true
  | SFloat m e, SFloat m' e' =>
      if e <=? e' then m =? m' * 2 ^ (e' - e) else m * 2 ^ (e - e') =? m'
  | SInt x, SFloat m e | SFloat m e, SInt x =>
      if 0 <=? e then x =? m * 2 ^ e else x * 2 ^ (- e) =? m
  | _, _ => false
  end.

Definition is_none (a : scalar) : bool :=
  match a with SNone => true | _ => false end.

(** [int(x)]: truncation toward zero. *)
Definition scalar_int (a : scalar) : result Z :=
  match a with
  | SInt z => Ok z
  | SFloat m e => Ok (if 0 <=? e then m * 2 ^ e else Z.quot m (2 ^ (- e)))
  | SNone => Raise (TypeError "int() argument must be a number, not 'NoneType'")
  end.

(** [x < n] for a number [x]; [None < n] raises. *)
Definition scalar_ltb (a : scalar) (n : Z) : result bool :=
  match a with
  | SInt z => Ok (z <? n)
  | SFloat m e => Ok (if 0 <=? e then m * 2 ^ e <? n else m <? n * 2 ^ (- e))
  | SNone => Raise (TypeError "'<' not supported between 'NoneType' and 'int'")
  end.

(** [x * d] for a number [x] and an integer [d]. *)
Definition scalar_scale (a : scalar) (d : Z) : result scalar :=
  match a with
  | SInt z => Ok (SInt (z * d))
  | SFloat m e => Ok (SFloat (m * d) e)
  | SNone => Raise (TypeError "unsupported operand type(s) for *: 'NoneType' and 'int'")
  end.

Definition wrap32 (z : Z) : Z := (z + 2 ^ 31) mod 2 ^ 32 - 2 ^ 31.

(** [np.argmin] and [np.argmax] of a boolean vector: the first [False] (or
    [0] when there is none), the first [True] (or [0]). *)
Fixpoint first_index (b : bool) (l : list bool) : option nat :=
  match l with
  | [] => None
  | x :: l' => if Bool.eqb x b then Some O else S <$> first_index b l'
  end.

Definition argmin (l : list bool) : result nat :=
  match l with
  | [] => Raise (ValueError "attempt to get argmin of an empty sequence")
  | _ => Ok (default O (first_index false l))
  end.

Definition argmax (l : list bool) : result nat :=
  match l with
  | [] => Raise (ValueError "attempt to get argmax of an empty sequence")
  | _ => Ok (default O (first_index true l))
  end.

(** ** Python slices

    [slice(start, stop, step).indices(len)] unrolled into the positions it
    selects, as [PySlice_AdjustIndices] computes them. *)

Record slice := Slice { sl_start : option Z; sl_stop : option Z; sl_step : option Z }.

Definition full_slice : slice := Slice None None None.

Definition clamp_bound (len : Z) (backwards : bool) (b : Z) : Z :=
  if b <? 0 then
    (if b + len <? 0 then (if backwards then -1 else 0) else b + len)
  else if len <=? b then (if backwards then len - 1 else len)
  else b.

Definition slice_positions (len : nat) (s : slice) : result (list nat) :=
  let n := Z.of_nat len in
  let step := default 1 (sl_step s) in
  if step =? 0 then Raise (ValueError "slice step cannot be zero")
  else
    let back := step <? 0 in
    let start := match sl_start s with
                 | Some b => clamp_bound n back b
                 | None => if back then n - 1 else 0
                 end in
    let stop := match sl_stop s with
                | Some b => clamp_bound n back b
                | None => if back then -1 else n
                end in
    let count :=
      if back then (if stop <? start then (start - stop - 1) / (- step) + 1 else 0)
      else (if start <? stop then (stop - start - 1) / step + 1 else 0) in
    Ok (map (fun i => Z.to_nat (start + Z.of_nat i * step)) (seq 0 (Z.to_nat count))).

(** A slice bound given as a Python value: an integer, or [None]. *)
Definition slice_bound (a : scalar) : result (option Z) :=
  match a with
  | SInt z => Ok (Some z)
  | SNone => Ok None
  | SFloat _ _ =>
      Raise (TypeError "slice indices must be integers or None or have an __index__ method")
  end.

Definition mk_slice (start stop step : scalar) : result slice :=
  (let? a := slice_bound start in
   let? b := slice_bound stop in
   let? c := slice_bound step in
   Ok (Slice a b c))%res.

(** ** Host-side arrays

    A NumPy array: its dtype, its shape and its cells in row-major order. *)

Inductive dtype := int32 | int64 | float32 | float64 | object_.

Record ndarray := NDArray {
  nd_dtype : dtype;
  nd_shape : list nat;
  nd_data : list scalar
}.

Definition is_float (a : scalar) : bool :=
  match a with SFloat _ _ => true | _ => false end.

Definition dtype_is_int (d : dtype) : bool :=
  match d with int32 | int64 => true | _ => false end.

Definition dtype_is_object (d : dtype) : bool :=
  match d with object_ => true | _ => false end.

(** The common dtype of the operands of [np.concatenate]. *)
Definition dtype_join (a b : dtype) : dtype :=
  match a, b with
  | object_, _ | _, object_ => object_
  | float64, _ | _, float64 => float64
  | float32, int32 | int32, float32 => float64
  | float32, int64 | int64, float32 => float64
  | float32, float32 => float32
  | int64, _ | _, int64 => int64
  | int32, int32 => int32
  end.

Module np.

(** Number of cells of an array of the given shape. *)
Definition size (shape : list nat) : nat := fold_right Nat.mul 1%nat shape.

Definition ndim (a : ndarray) : nat := length (nd_shape a).

(** Row-major strides, in cells. *)
Fixpoint strides (shape : list nat) : list nat :=
  match shape with
  | [] => []
  | _ :: rest => size rest :: strides rest
  end.

(** The flat offsets selected by choosing, along each axis, the listed
    positions; in row-major order of the result. *)
Fixpoint offsets (axes : list (list nat * nat)) : list nat :=
  match axes with
  | [] => [O]
  | (pos, stride) :: rest =>
      flat_map (fun i => map (fun o => (i * stride + o)%nat) (offsets rest)) pos
  end.

Definition pick (data : list scalar) (offs : list nat) : list scalar :=
  map (fun o => default SNone (data !! o)) offs.

Definition full_axes (shape : list nat) : list (list nat * nat) :=
  zip (map (seq 0) shape) (strides shape).

(** An axis number checked against a rank; negative numbers count from the
    last axis. *)
Definition normalize_axis (rank : nat) (axis : Z) : result nat :=
  let n := Z.of_nat rank in
  if (0 <=? axis) && (axis <? n) then Ok (Z.to_nat axis)
  else if (- n <=? axis) && (axis <? 0) then Ok (Z.to_nat (axis + n))
  else Raise (ValueError "axis is out of bounds for array").

(** [np.array(l)] of a Python list of numbers and [None]s. *)
Definition array (l : list scalar) : ndarray :=
  let dt := match l with
            | [] => float64
            | _ => if existsb is_none l then object_
                   else if existsb is_float l then float64 else int64
            end in
  NDArray dt [length l] l.

(** [np.transpose(a, axes=perm)]. *)
Definition transpose (a : ndarray) (perm : list Z) : result ndarray :=
  (if negb (length perm =? ndim a)%nat then Raise (ValueError "axes don't match array")
   else
     let? p := rmap (normalize_axis (ndim a)) perm in
     if negb (bool_decide (NoDup p)) then Raise (ValueError "repeated axis in transpose")
     else
       let st := strides (nd_shape a) in
       let dims := map (fun k => default O (nd_shape a !! k)) p in
       let axes := zip (map (seq 0) dims) (map (fun k => default O (st !! k)) p) in
       Ok (NDArray (nd_dtype a) dims (pick (nd_data a) (offsets axes))))%res.

(** [int(i)] of an index cell, checked against the length of the axis. *)
Definition index_cell (len : nat) (c : scalar) : result nat :=
  match c with
  | SInt i =>
      let n := Z.of_nat len in
      if (0 <=? i) && (i <? n) then Ok (Z.to_nat i)
      else if (- n <=? i) && (i <? 0) then Ok (Z.to_nat (i + n))
      else Raise (IndexError "index is out of bounds for axis 0")
  | _ => Raise (IndexError "arrays used as indices must be of integer (or boolean) type")
  end.

(** [a[idx]] for an index array [idx]: the rows of [a] at the positions
    [idx] lists, along axis 0. *)
Definition take0 (a idx : ndarray) : result ndarray :=
  (if negb (dtype_is_int (nd_dtype idx)) then
     Raise (IndexError "arrays used as indices must be of integer (or boolean) type")
   else
     match nd_shape a with
     | [] => Raise (IndexError "too many indices for array")
     | d0 :: rest =>
         let? rows := rmap (index_cell d0) (nd_data idx) in
         Ok (NDArray (nd_dtype a) (nd_shape idx ++ rest)
               (pick (nd_data a) (offsets ((rows, size rest) :: full_axes rest))))
     end)%res.

(** [np.array(x)] of the result [x] of an indexing.  Indexing an array of
    objects down to a single cell gives the object itself, not an array, and
    [np.array] infers the dtype anew from it: [int64] for an integer of 64
    bits, [float64] for a float, [object] for [None].  Every other result is
    an array (or a NumPy scalar) already and keeps its dtype.  An integer
    beyond 64 bits is outside the model. *)
Definition array_of_indexed (x : ndarray) : result ndarray :=
  match nd_dtype x, nd_shape x, nd_data x with
  | object_, [], [SInt z] =>
      if (- 2 ^ 63 <=? z) && (z <? 2 ^ 63) then Ok (NDArray int64 [] [SInt z])
      else Raise (Unmodelled "an integer beyond 64 bits as an array")
  | object_, [], [SFloat m e] => Ok (NDArray float64 [] [SFloat m e])
  | _, _, _ => Ok x
  end.

(** The cell of [np.int32(x)]: C conversion to a 32-bit integer. *)
Definition int32_cell (c : scalar) : result scalar :=
  match c with
  | SInt z => Ok (SInt (wrap32 z))
  | SFloat m e => Ok (SInt (wrap32 (if 0 <=? e then m * 2 ^ e else Z.quot m (2 ^ (- e)))))
  | SNone => Raise (TypeError "int() argument must be a number, not 'NoneType'")
  end.

(** [np.int32(a)] and [a.astype(np.int32)]. *)
Definition as_int32 (a : ndarray) : result ndarray :=
  (let? d := rmap int32_cell (nd_data a) in
   Ok (NDArray int32 (nd_shape a) d))%res.

(** [np.reshape(a, newshape)]; one entry of [newshape] may be negative
    (usually [-1]) and stands for the dimension left to be inferred. *)
Definition resolve_shape (total : nat) (newshape : list Z) : result (list nat) :=
  let wild := length (filter (fun d => d < 0) newshape) in
  let known := fold_right Z.mul 1 (filter (fun d => 0 ≤ d) newshape) in
  if (1 <? wild)%nat then Raise (ValueError "can only specify one unknown dimension")
  else if (wild =? 1)%nat then
    if (known =? 0) || negb (Z.of_nat total mod known =? 0) then
      Raise (ValueError "cannot reshape array into shape")
    else Ok (map (fun d => if d <? 0 then Z.to_nat (Z.of_nat total / known) else Z.to_nat d)
               newshape)
  else if known =? Z.of_nat total then Ok (map Z.to_nat newshape)
  else Raise (ValueError "cannot reshape array into shape").

Definition reshape (a : ndarray) (newshape : list Z) : result ndarray :=
  (let? s := resolve_shape (size (nd_shape a)) newshape in
   Ok (NDArray (nd_dtype a) s (nd_data a)))%res.

(** [np.expand_dims(a, axis)]. *)
Definition expand_dims (a : ndarray) (axis : Z) : result ndarray :=
  (let? k := normalize_axis (S (ndim a)) axis in
   Ok (NDArray (nd_dtype a) (take k (nd_shape a) ++ 1%nat :: drop k (nd_shape a))
         (nd_data a)))%res.

(** [np.concatenate(arrays, axis=axis)]. *)
Definition concatenate (arrays : list ndarray) (axis : Z) : result ndarray :=
  match arrays with
  | [] => Raise (ValueError "need at least one array to concatenate")
  | a0 :: _ =>
      if existsb (fun a => (ndim a =? 0)%nat) arrays then
        Raise (ValueError "zero-dimensional arrays cannot be concatenated")
      else if negb (forallb (fun a => (ndim a =? ndim a0)%nat) arrays) then
        Raise (ValueError "all the input arrays must have same number of dimensions")
      else
        (let? k := normalize_axis (ndim a0) axis in
         let off_axis (a : ndarray) := (take k (nd_shape a), drop (S k) (nd_shape a)) in
         if negb (forallb (fun a => bool_decide (off_axis a = off_axis a0)) arrays) then
           Raise (ValueError "all the input array dimensions except for the concatenation axis must match exactly")
         else
           let outer := size (take k (nd_shape a0)) in
           let chunk (a : ndarray) := size (drop k (nd_shape a)) in
           let total := fold_right Nat.add O
                          (map (fun a => default O (nd_shape a !! k)) arrays) in
           Ok (NDArray (fold_right dtype_join (nd_dtype a0) (map nd_dtype arrays))
                 (take k (nd_shape a0) ++ total :: drop (S k) (nd_shape a0))
                 (flat_map (fun o =>
                    flat_map (fun a => take (chunk a) (drop (o * chunk a) (nd_data a)))
                      arrays) (seq 0 outer))))%res
  end.

(** [a[s0, s1, ...]] for slices [s0, s1, ...]; axes beyond the listed ones
    are taken whole. *)
Definition getitem (a : ndarray) (spec : list slice) : result ndarray :=
  (if (ndim a <? length spec)%nat then Raise (IndexError "too many indices for array")
   else
     let spec' := spec ++ replicate (ndim a - length spec) full_slice in
     let? pos := rmap (fun '(d, s) => slice_positions d s) (zip (nd_shape a) spec') in
     Ok (NDArray (nd_dtype a) (map length pos)
           (pick (nd_data a) (offsets (zip pos (strides (nd_shape a)))))))%res.

(** [list(a)] and [for x in a] for an array of cells.  Iterating a
    0-dimensional array raises; the rows of an array of rank 2 or more are
    arrays again, which the routines below never expect where they iterate:
    that case is left out of the model. *)
Definition cells (a : ndarray) : result (list scalar) :=
  match nd_shape a with
  | [] => Raise (TypeError "iteration over a 0-d array")
  | [_] => Ok (nd_data a)
  | _ => Raise (Unmodelled "iterating the rows of an array of rank 2 or more")
  end.

End np.

(** ** Target-graph tensors

    What a lowering routine emits is a node of the target graph.  The model
    keeps, for every tensor, the term that built it, the static shape the
    framework infers for it ([None] for a TensorShape of unknown rank, and
    [None] entries for unknown dimensions), and whether it is a symbolic Keras
    tensor (the alternative being an eager tensor, computed on the spot from
    host data). *)

Inductive closure :=
| TransposeToCHW.     (* [target_layer]: [tf.transpose(x, [0, 3, 1, 2])] *)

Inductive resize_method := NEAREST_NEIGHBOR | BICUBIC | BILINEAR.

Inductive prim :=
| KPermute (dims : list Z) (name : option string)
| TfTranspose (perm : list Z)
| KEmbedding (input_dim output_dim : nat) (name : string)
| TfGather (axis : Z)
| TfConcat (axis : Z) (name : string)
| KConcatenate (axis : Z) (name : string)
| KLambda (f : closure) (name : string)
| KReshape (target : list Z) (name : string)
| KFlatten (name : string)
| TfReshape (target : list Z) (name : string)
| TfReshapeRun (keep_front : nat) (keep_from : nat)
    (* [tf.reshape(x, [*tf.shape(x)[:keep_front], -1, *tf.shape(x)[keep_from:]])] *)
| TfExpandDims (axis : Z)
| TfGetitem (spec : list slice)
| TfSqueeze (axis : option Z)
| TfImageResize (size : list Z) (method : resize_method)
| TfOnes (shape : list Z)
| TfMul
| TfTile.

#[warnings="-register-all"]
Inductive graph :=
| GInput (name : string)                (* an input of the target graph *)
| GConst (name : string) (a : ndarray)  (* a constant built from host data *)
| GHost (a : ndarray)                   (* host data passed as an argument *)
| GHostOf (g : graph)                   (* [g.numpy()]: the host value of an eager tensor *)
| GNode (p : prim) (args : list graph).

Record tensor := Tensor {
  t_graph : graph;
  t_shape : option (list (option nat));
  t_keras : bool
}.

(** ** Values: what the Environment maps a node identifier to *)

Inductive Value :=
| Constant (a : ndarray)
| Symbolic (t : tensor).

Definition known (s : list nat) : list (option nat) := map Some s.

(** The product of the dimensions, when all are known. *)
Definition known_size (s : list (option nat)) : option nat :=
  foldr (fun d acc => match d, acc with
                      | Some x, Some y => Some (x * y)%nat
                      | _, _ => None
                      end) (Some 1%nat) s.

Module tf.

(** [len(t.shape)], [t.shape[i]], [for d in t.shape]: they raise on a shape
    of unknown rank. *)
Definition dims (t : tensor) : result (list (option nat)) :=
  match t_shape t with
  | Some s => Ok s
  | None => Raise (ValueError "Cannot take the length of shape with unknown rank.")
  end.

(** A host array handed to a TensorFlow or Keras call is converted to an eager
    tensor. *)
Definition convert_to_tensor (v : Value) : tensor :=
  match v with
  | Constant a => Tensor (GHost a) (Some (known (nd_shape a))) false
  | Symbolic t => t
  end.

Definition node (p : prim) (args : list tensor) (s : option (list (option nat))) : tensor :=
  Tensor (GNode p (map t_graph args)) s (existsb t_keras args).

Definition is_permutation (base : nat) (p : list Z) : bool :=
  bool_decide (Permutation (map Z.to_nat p) (seq base (length p)))
  && forallb (fun k => 0 <=? k) p.

(** [keras.layers.Permute(dims, name=name)(x)]: [dims] permutes the axes
    [1 .. n] of a tensor of rank [n + 1]. *)
Definition Permute (dims_ : list Z) (name : option string) (x : tensor) : result tensor :=
  (if negb (is_permutation 1 dims_) then
     Raise (ValueError "Invalid permutation argument `dims` for Permute Layer.")
   else
     let? s := dims x in
     if negb (length s =? S (length dims_))%nat then
       Raise (ValueError "Input is incompatible with layer permute: wrong ndim")
     else
       Ok (node (KPermute dims_ name) [x]
             (Some (default None (s !! O)
                      :: map (fun d => default None (s !! Z.to_nat d)) dims_))))%res.

(** [tf.transpose(x, perm=perm)]. *)
Definition transpose (x : tensor) (perm : list Z) : result tensor :=
  (let? s := dims x in
   if negb ((length s =? length perm)%nat && is_permutation 0 perm) then
     Raise (ValueError "perm is not a permutation of the axes of the input")
   else
     Ok (node (TfTranspose perm) [x]
           (Some (map (fun d => default None (s !! Z.to_nat d)) perm))))%res.

(** [tf.keras.layers.Embedding(input_dim, output_dim, weights=[w], name=name)(indices)]. *)
Definition Embedding (input_dim output_dim : option nat) (w : Value) (name : string)
    (indices : tensor) : result tensor :=
  match input_dim, output_dim with
  | Some n, Some m =>
      if (n =? 0)%nat || (m =? 0)%nat then
        Raise (ValueError "Both `input_dim` and `output_dim` should be positive")
      else
        Ok (node (KEmbedding n m name) [convert_to_tensor w; indices]
              ((fun s => s ++ [Some m]) <$> t_shape indices))
  | _, _ => Raise (ValueError "Both `input_dim` and `output_dim` should be positive")
  end.

(** [tf.gather(x, indices, axis=axis)]. *)
Definition gather (x indices : tensor) (axis : Z) : result tensor :=
  (let? s := dims x in
   let? k := np.normalize_axis (length s) axis in
   Ok (node (TfGather axis) [x; indices]
         ((fun si => take k s ++ si ++ drop (S k) s) <$> t_shape indices)))%res.

(** Two static dimensions that have to agree. *)
Definition dim_agree (a b : option nat) : bool :=
  match a, b with
  | Some x, Some y => (x =? y)%nat
  | _, _ => true
  end.

Definition dim_add (a b : option nat) : option nat :=
  match a, b with
  | Some x, Some y => Some (x + y)%nat
  | _, _ => None
  end.

(** The static shape of a concatenation along [axis]. *)
Definition concat_shape (shapes : list (list (option nat))) (axis : Z)
    : result (list (option nat)) :=
  match shapes with
  | [] => Raise (ValueError "concat requires at least one input")
  | s0 :: _ =>
      (let? k := np.normalize_axis (length s0) axis in
       if negb (forallb (fun s => (length s =? length s0)%nat) shapes) then
         Raise (ValueError "concat inputs must have the same rank")
       else if negb (forallb (fun s =>
                   forallb (fun '(a, b) => dim_agree a b)
                     (zip (take k s ++ drop (S k) s) (take k s0 ++ drop (S k) s0)))
                   shapes) then
         Raise (ValueError "concat inputs must match in all dimensions except the axis")
       else
         Ok (take k s0
               ++ foldr dim_add (Some O) (map (fun s => default None (s !! k)) shapes)
               :: drop (S k) s0))%res
  end.

(** [tf.concat(values, axis=axis, name=name)]. *)
Definition concat (values : list Value) (axis : Z) (name : string) : result tensor :=
  (let ts := map convert_to_tensor values in
   let? ss := rmap dims ts in
   let? s := concat_shape ss axis in
   Ok (node (TfConcat axis name) ts (Some s)))%res.

(** [keras.layers.concatenate(inputs=values, axis=axis, name=name)]. *)
Definition concatenate (values : list Value) (axis : Z) (name : string) : result tensor :=
  (let ts := map convert_to_tensor values in
   let? ss := rmap dims ts in
   let? s := concat_shape ss axis in
   Ok (node (KConcatenate axis name) ts (Some s)))%res.

(** [keras.layers.Lambda(target_layer, name=name)(x)] for the closure
    [target_layer] of [convert_reshape]. *)
Definition Lambda (f : closure) (name : string) (x : tensor) : result tensor :=
  match f with
  | TransposeToCHW =>
      (let? s := dims x in
       if negb (length s =? 4)%nat then
         Raise (ValueError "Dimension must be 4 but is not, for transpose with perm [0, 3, 1, 2]")
       else
         Ok (node (KLambda f name) [x]
               (Some (map (fun k => default None (s !! k)) [0; 3; 1; 2]%nat))))%res
  end.

(** The entries of a reshape target against the dimensions they replace: a
    single [-1] stands for what is left of the size, when that is known. *)
Definition resolve_target (source : list (option nat)) (target : list Z)
    : result (list (option nat)) :=
  let wild := length (filter (fun d => d = -1) target) in
  let fixed := fold_right Z.mul 1 (filter (fun d => d ≠ -1) target) in
  if existsb (fun d => d <? -1) target then
    Raise (ValueError "negative dimensions are not allowed in a target shape")
  else if (1 <? wild)%nat then
    Raise (ValueError "Can only specify one unknown dimension.")
  else
    match known_size source with
    | Some total =>
        if (wild =? 1)%nat then
          if (fixed =? 0) || negb (Z.of_nat total mod fixed =? 0) then
            Raise (ValueError "total size of new array must be unchanged")
          else Ok (map (fun d => Some (if d =? -1 then Z.to_nat (Z.of_nat total / fixed)
                                       else Z.to_nat d)) target)
        else if fixed =? Z.of_nat total then Ok (map (fun d => Some (Z.to_nat d)) target)
        else Raise (ValueError "total size of new array must be unchanged")
    | None => Ok (map (fun d => if d =? -1 then None else Some (Z.to_nat d)) target)
    end.

(** [keras.layers.Reshape(target, name=name)(x)]: the batch axis stays. *)
Definition Reshape (target : list Z) (name : string) (x : tensor) : result tensor :=
  (let? s := dims x in
   match s with
   | [] => Raise (ValueError "Reshape needs an input with a batch axis")
   | b :: rest =>
       let? r := resolve_target rest target in
       Ok (node (KReshape target name) [x] (Some (b :: r)))
   end)%res.

(** [keras.layers.Flatten(name=name)(x)]. *)
Definition Flatten (name : string) (x : tensor) : result tensor :=
  (let? s := dims x in
   match s with
   | [] => Raise (ValueError "Flatten needs an input with a batch axis")
   | b :: rest => Ok (node (KFlatten name) [x] (Some [b; known_size rest]))
   end)%res.

(** [tf.reshape(x, target, name=name)] for a host array [target]; a
    [None] cell cannot be converted to a tensor. *)
Definition reshape (x : tensor) (target : ndarray) (name : string) : result tensor :=
  (let? s := dims x in
   let? tz := rmap (fun c => match c with
                             | SInt z => Ok z
                             | SFloat _ _ => Raise (TypeError "the shape of a reshape must be integer")
                             | SNone => Raise (ValueError "Failed to convert a NumPy array to a Tensor (Unsupported object type NoneType).")
                             end) (nd_data target) in
   if negb (length (nd_shape target) =? 1)%nat then
     Raise (ValueError "the shape of a reshape must be a vector")
   else
     let? r := resolve_target s tz in
     Ok (node (TfReshape tz name) [x] (Some r)))%res.

(** The shape of [tf.reshape(x, [*tf.shape(x)[:i], -1, *tf.shape(x)[j:]])] for
    an input of shape [s]: the axes before [i] and from [j] on are kept, the
    ones between are folded into one. *)
Definition reshape_run_shape (s : list (option nat)) (i j : nat) : result (list (option nat)) :=
  match known_size s, known_size (take i s ++ drop j s) with
  | Some total, Some kept =>
      if (kept =? 0)%nat || negb (total mod kept =? 0)%nat then
        Raise (ValueError "the input size is not a multiple of the kept dimensions")
      else Ok (take i s ++ Some (total / kept)%nat :: drop j s)
  | _, _ => Ok (take i s ++ None :: drop j s)
  end.

Definition reshape_run (x : tensor) (i j : nat) : result tensor :=
  (let? s := dims x in
   let? r := reshape_run_shape s i j in
   Ok (node (TfReshapeRun i j) [x] (Some r)))%res.

(** [tf.expand_dims(x, axis)]. *)
Definition expand_dims (x : tensor) (axis : Z) : result tensor :=
  (let? s := dims x in
   let? k := np.normalize_axis (S (length s)) axis in
   Ok (node (TfExpandDims axis) [x] (Some (take k s ++ Some 1%nat :: drop k s))))%res.

(** The static shape of [x[s0, s1, ...]]: an axis of known length keeps the
    positions its slice selects. *)
Definition getitem_shape (s : list (option nat)) (spec : list slice)
    : result (list (option nat)) :=
  (if (length s <? length spec)%nat then Raise (IndexError "too many indices for tensor")
   else
     let spec' := spec ++ replicate (length s - length spec) full_slice in
     rmap (fun '(d, sl) =>
             match d with
             | Some n => let? pos := slice_positions n sl in Ok (Some (length pos))
             | None => let? _ := slice_positions O sl in Ok None
             end) (zip s spec'))%res.

(** [SlicingOpLambda(tf.__operators__.getitem)(x, slice_spec=spec)].  On an
    eager constant the slice is computed on the spot. *)
Definition getitem (x : tensor) (spec : list slice) : result tensor :=
  match t_graph x with
  | GConst name a =>
      (let? r := np.getitem a spec in
       Ok (Tensor (GConst name r) (Some (known (nd_shape r))) false))%res
  | _ =>
      (let? s := dims x in
       let? r := getitem_shape s spec in
       Ok (node (TfGetitem spec) [x] (Some r)))%res
  end.

(** [t.numpy()]: the host value of an eager constant.  A symbolic Keras
    tensor has none. *)
Definition numpy (x : tensor) : result ndarray :=
  match t_graph x with
  | GConst _ a => Ok a
  | _ =>
      if t_keras x then Raise (AttributeError "'KerasTensor' object has no attribute 'numpy'")
      else Raise (Unmodelled "the host value of an eager tensor computed by the framework")
  end.

(** [tf.squeeze(x, axis=axis)].  Without an axis every dimension known to be
    [1] goes; when a dimension is unknown, so is the rank of the result. *)
Definition squeeze (x : tensor) (axis : option Z) : result tensor :=
  match axis with
  | None =>
      Ok (node (TfSqueeze None) [x]
            (s ← t_shape x;
             if forallb (fun d => bool_decide (is_Some d)) s
             then Some (filter (fun d => d ≠ Some 1%nat) s) else None))
  | Some ax =>
      (let? s := dims x in
       let? k := np.normalize_axis (length s) ax in
       if negb (dim_agree (default None (s !! k)) (Some 1%nat)) then
         Raise (ValueError "Can not squeeze a dimension that is not 1")
       else Ok (node (TfSqueeze axis) [x] (Some (take k s ++ drop (S k) s))))%res
  end.

(** [tf.image.resize(x, size=size, method=method)] on a channel-last image
    batch. *)
Definition image_resize (x : tensor) (size : list Z) (method : resize_method)
    : result tensor :=
  (let? s := dims x in
   match s, size with
   | [b; _; _; c], [h; w] =>
       Ok (node (TfImageResize size method) [x]
             (Some [b; Some (Z.to_nat h); Some (Z.to_nat w); c]))
   | _, _ => Raise (ValueError "'images' must have either 3 or 4 dimensions.")
   end)%res.

(** [tf.ones(shape, dtype=dtype)]. *)
Definition ones (shape : ndarray) : result tensor :=
  (let? tz := rmap scalar_int (nd_data shape) in
   if existsb (fun d => d <? 0) tz then Raise (ValueError "Dimension must be >= 0")
   else if negb (length (nd_shape shape) <=? 1)%nat then
     Raise (ValueError "Shape must be at most rank 1")
   else Ok (Tensor (GNode (TfOnes tz) []) (Some (map (fun d => Some (Z.to_nat d)) tz)) false))%res.

(** Broadcasting of two static shapes, aligned on their last axes. *)
Fixpoint broadcast_rev (a b : list (option nat)) : result (list (option nat)) :=
  match a, b with
  | [], r | r, [] => Ok r
  | x :: a', y :: b' =>
      (let? r := broadcast_rev a' b' in
       match x, y with
       | Some 1%nat, d | d, Some 1%nat => Ok (d :: r)
       | Some n, Some m =>
           if (n =? m)%nat then Ok (Some n :: r)
           else Raise (ValueError "Dimensions must be equal")
       | Some n, None | None, Some n => Ok (Some n :: r)
       | None, None => Ok (None :: r)
       end)%res
  end.

(** [x * y]. *)
Definition multiply (x y : tensor) : result tensor :=
  match t_shape x, t_shape y with
  | Some sx, Some sy =>
      (let? r := broadcast_rev (rev sx) (rev sy) in
       Ok (node TfMul [x; y] (Some (rev r))))%res
  | _, _ => Ok (node TfMul [x; y] None)
  end.

(** [tf.tile(x, multiples)]. *)
Definition tile (x : Value) (multiples : Value) : result tensor :=
  (let tx := convert_to_tensor x in
   let? s := dims tx in
   match multiples with
   | Constant m =>
       let? mz := rmap scalar_int (nd_data m) in
       if negb (bool_decide (nd_shape m = [length s])) then
         Raise (ValueError "multiples must be a vector with one entry per axis of the input")
       else if existsb (fun d => d <? 0) mz then
         Raise (ValueError "multiples must be non-negative")
       else
         Ok (node TfTile [tx; convert_to_tensor multiples]
               (Some (map (fun '(d, k) => (fun n => n * Z.to_nat k)%nat <$> d) (zip s mz))))
   | Symbolic tm =>
       let? sm := dims tm in
       if negb (dim_agree (default None (sm !! O)) (Some (length s)) && (length sm =? 1)%nat)
       then Raise (ValueError "multiples must be a vector with one entry per axis of the input")
       else Ok (node TfTile [tx; tm] (Some (map (fun _ => None) s)))
   end)%res.

End tf.

(** ** The converter's state

    A lowering routine is called as
    [convert_x(node, params, layers, lambda_func, node_name, keras_name)]: it
    reads the node's input names, reads and (in [convert_unsqueeze]) writes
    the attribute dictionary [params], reads and writes the Environment
    [layers], may record a closure in [lambda_func], and logs.  The
    dictionaries are shared with the caller, so what a routine wrote before it
    raised stays written: the monad returns the state in both cases. *)

Record node := Node { input : list string }.

Inductive attr :=
| AInt (z : Z)
| AInts (l : list Z)
| ABytes (s : string)
| ABool (b : bool)
| AValue (v : Value).

Inductive level := DEBUG | WARNING.

Inductive message :=
| Text (s : string)
| Shown (a : ndarray).

Record log_record := LogRecord {
  lr_logger : string;
  lr_level : level;
  lr_msg : message
}.

Record state := State {
  layers : gmap string Value;
  lambda_func : gmap string closure;
  params : gmap string attr;
  log : list log_record
}.

Definition M (A : Type) : Type := state → state * result A.

Global Instance M_ret : MRet M := λ A a st, (st, Ok a).
Global Instance M_bind : MBind M := λ A B f m st,
  match m st with
  | (st', Ok a) => f a st'
  | (st', Raise e) => (st', Raise e)
  end.

Definition raise {A} (e : exn) : M A := λ st, (st, Raise e).

Definition lift {A} (r : result A) : M A := λ st, (st, r).

(** [layers[name]] *)
Definition get_layer (name : string) : M Value := λ st,
  match layers st !! name with
  | Some v => (st, Ok v)
  | None => (st, Raise (KeyError name))
  end.

(** [layers[name] = v] *)
Definition set_layer (name : string) (v : Value) : M unit := λ st,
  (State (<[name := v]> (layers st)) (lambda_func st) (params st) (log st), Ok tt).

(** [lambda_func[name] = f] *)
Definition set_lambda (name : string) (f : closure) : M unit := λ st,
  (State (layers st) (<[name := f]> (lambda_func st)) (params st) (log st), Ok tt).

(** [params[key]] *)
Definition get_param (key : string) : M attr := λ st,
  match params st !! key with
  | Some a => (st, Ok a)
  | None => (st, Raise (KeyError key))
  end.

(** [key in params] *)
Definition has_param (key : string) : M bool := λ st,
  (st, Ok (bool_decide (is_Some (params st !! key)))).

(** [params[key] = a] *)
Definition set_param (key : string) (a : attr) : M unit := λ st,
  (State (layers st) (lambda_func st) (<[key := a]> (params st)) (log st), Ok tt).

Definition emit (logger : string) (lv : level) (m : message) : M unit := λ st,
  (State (layers st) (lambda_func st) (params st) (log st ++ [LogRecord logger lv m]), Ok tt).

Definition debug (logger : string) (s : string) : M unit := emit logger DEBUG (Text s).
Definition warning (logger : string) (s : string) : M unit := emit logger WARNING (Text s).

(** [node.input[i]] *)
Definition node_input (n : node) (i : nat) : M string :=
  match input n !! i with
  | Some name => mret name
  | None => raise (IndexError "list index out of range")
  end.

(** [try: body except IndexError: handler] *)
Definition except_IndexError {A} (body handler : M A) : M A := λ st,
  match body st with
  | (st', Raise (IndexError _)) => handler st'
  | r => r
  end.

(** [assert x]: raises only when [x] is falsy. *)
Definition py_assert (truth : bool) : M unit :=
  if truth then mret tt else raise (PyException "AssertionError").

(** The truth value of an exception object: like every object that defines
    neither [__bool__] nor [__len__], it is true. *)
Definition exception_truth (e : exn) : bool := true.

(** ** Attribute values as the routines use them *)

(** [a[i]], [a[1:]], [list(a)] of an attribute that holds a list of integers. *)
Definition attr_ints (a : attr) : result (list Z) :=
  match a with
  | AInts l => Ok l
  | _ => Raise (TypeError "the attribute is not a list of integers")
  end.

Definition attr_int (a : attr) : result Z :=
  match a with
  | AInt z => Ok z
  | _ => Raise (TypeError "the attribute is not an integer")
  end.

(** [a == n] for an attribute and an integer literal. *)
Definition attr_eq_int (a : attr) (n : Z) : bool :=
  match a with
  | AInt z => z =? n
  | ABool b => (if b then 1 else 0) =? n
  | _ => false
  end.

(** [a == b'...'] for an attribute and a bytes literal. *)
Definition attr_eq_bytes (a : attr) (s : string) : bool :=
  match a with
  | ABytes s' => bool_decide (s' = s)
  | _ => false
  end.

Definition scalar_truth (c : scalar) : bool :=
  match c with
  | SInt z => negb (z =? 0)
  | SFloat m _ => negb (m =? 0)
  | SNone => false
  end.

(** [bool(v)] of an Environment value. *)
Definition value_truth (v : Value) : result bool :=
  match v with
  | Constant a =>
      match nd_data a with
      | [] => Ok false
      | [c] => Ok (scalar_truth c)
      | _ => Raise (ValueError "The truth value of an array with more than one element is ambiguous.")
      end
  | Symbolic t =>
      if t_keras t then Raise (TypeError "a symbolic Keras tensor cannot be used as a Python bool")
      else Raise (Unmodelled "the host value of an eager tensor computed by the framework")
  end.

(** [if a:] for an attribute. *)
Definition attr_truth (a : attr) : result bool :=
  match a with
  | AInt z => Ok (negb (z =? 0))
  | AInts l => Ok (negb (bool_decide (l = [])))
  | ABytes s => Ok (negb (bool_decide (s = "")))
  | ABool b => Ok b
  | AValue v => value_truth v
  end.

Definition index_error {A} (o : option A) : result A :=
  match o with
  | Some a => Ok a
  | None => Raise (IndexError "index out of range")
  end.

(** ** The helpers of [onnx2kerastl/utils.py] *)

(** Modelled from the spec: [is_numpy] of [utils.py], which is not among the
    sources.  The spec's Value is either a compile-time array or a tensor
    bound to the target graph; [is_numpy] tells the first from the second. *)
Definition is_numpy (v : Value) : bool :=
  match v with
  | Constant _ => true
  | Symbolic _ => false
  end.

(** Modelled from the spec: [ensure_tf_type] of [utils.py], which is not among
    the sources.  It materializes the operand as a target-graph tensor: an
    array becomes a constant of the same shape under the given name, a
    tensor is returned as it is. *)
Definition ensure_tf_type (v : Value) (name : string) : tensor :=
  match v with
  | Constant a => Tensor (GConst name a) (Some (known (nd_shape a))) false
  | Symbolic t => t
  end.

(** Modelled from the spec: [ensure_numpy_type] of [utils.py], which is not
    among the sources.  Slice and expand operands taken from graph inputs are
    resolved to concrete host values: an array is returned as it is, an eager
    constant gives its host value, and a symbolic tensor has none. *)
Definition ensure_numpy_type (v : Value) : result ndarray :=
  match v with
  | Constant a => Ok a
  | Symbolic t =>
      if t_keras t then Raise (AttributeError "Not a numpy type.") else tf.numpy t
  end.

(** [K.is_keras_tensor(v)], guarded in the source so that it only sees
    tensors. *)
Definition is_keras_tensor (v : Value) : bool :=
  match v with
  | Constant _ => false
  | Symbolic t => t_keras t
  end.

(** [v.shape] as a static shape. *)
Definition value_shape (v : Value) : result (list (option nat)) :=
  match v with
  | Constant a => Ok (known (nd_shape a))
  | Symbolic t => tf.dims t
  end.

Definition dim_scalar (d : option nat) : scalar :=
  match d with
  | Some n => SInt (Z.of_nat n)
  | None => SNone
  end.

(** ** The lowering routines *)

Definition convert_transpose (n : node) (node_name keras_name : string) : M unit :=
  let logger := "onnx2keras.transpose" in
  input_name ← node_input n 0;
  perm ← get_param "perm";
  p0 ← lift (let? l := attr_ints perm in index_error (l !! O))%res;
  if negb (p0 =? 0) then
    warning logger "Can't permute batch dimension. Result may be wrong.";;
    v ← get_layer input_name;
    match v with
    | Constant a =>
        warning logger "Transposing numpy array.";;
        perm ← get_param "perm";
        r ← lift (let? l := attr_ints perm in np.transpose a l)%res;
        set_layer node_name (Constant r)
    | Symbolic t =>
        perm ← get_param "perm";
        r ← lift (let? l := attr_ints perm in tf.transpose t l)%res;
        set_layer node_name (Symbolic r)
    end
  else
    perm ← get_param "perm";
    dims_ ← lift (let? l := attr_ints perm in Ok (tail l))%res;
    (* the layer is built, and its [dims] checked, before the input is read *)
    _ ← lift (if tf.is_permutation 1 dims_ then Ok tt
              else Raise (ValueError "Invalid permutation argument `dims` for Permute Layer."));
    v ← get_layer input_name;
    r ← lift (tf.Permute dims_ (Some keras_name) (tf.convert_to_tensor v));
    set_layer node_name (Symbolic r).

Definition convert_shape (n : node) (node_name keras_name : string) : M unit :=
  let logger := "onnx2keras.shape" in
  name0 ← node_input n 0;
  v ← get_layer name0;
  let input_0 := ensure_tf_type v (keras_name +:+ "_const") in
  debug logger "Actual shape:";;
  s ← lift (tf.dims input_0);
  emit logger DEBUG (Shown (np.array (map dim_scalar s)));;
  let shapes := foldl (fun shapes i =>
                         match i with
                         | Some d => shapes ++ [SInt (Z.of_nat d)]
                         | None => shapes ++ [SNone]
                         end) [] s in
  set_layer node_name (Constant (np.array shapes)).

(** [layers[:, ..., name]]: the dictionary is subscripted with a tuple that
    holds slice objects, and a slice cannot be hashed. *)
Definition get_layer_sliced (colons : nat) (name : string) : M Value :=
  raise (TypeError "unhashable type: 'slice'").

(** The index operand of the graph path of [convert_gather]: a symbolic
    tensor is passed on; anything else is turned into a Python list, an eager
    tensor through its host value. *)
Definition gather_indices (v : Value) : tensor :=
  match v with
  | Symbolic t =>
      if t_keras t then t else Tensor (GHostOf (t_graph t)) (t_shape t) false
  | Constant a => Tensor (GHost a) (Some (known (nd_shape a))) false
  end.

(** [np.array(data[idx])] where both operands are arrays. *)
Definition index_by (data idx : Value) : M ndarray :=
  match data, idx with
  | Constant d, Constant i => lift (let? x := np.take0 d i in np.array_of_indexed x)%res
  | _, _ => raise (Unmodelled "not reached: both operands are arrays")
  end.

Definition convert_gather (n : node) (node_name keras_name : string) : M unit :=
  let logger := "onnx2keras.gather" in
  name0 ← node_input n 0;
  v0 ← get_layer name0;
  fold ←
    (if is_numpy v0 then
       name1 ← node_input n 1;
       v1 ← get_layer name1;
       if is_numpy v1 then
         emb ← has_param "is_embedding";
         mret (negb emb)
       else mret false
     else mret false);
  if (fold : bool) then
    debug logger "Gather from numpy array";;
    axis ← get_param "axis";
    gathered ←
      (if attr_eq_int axis 0 then
         data ← get_layer name0;
         name1 ← node_input n 1;
         idx ← get_layer name1;
         index_by data idx
       else if attr_eq_int axis 1 then
         data ← get_layer_sliced 1 name0;
         name1 ← node_input n 1;
         idx ← get_layer name1;
         index_by data idx
       else if attr_eq_int axis 2 then
         data ← get_layer_sliced 2 name0;
         name1 ← node_input n 1;
         idx ← get_layer name1;
         index_by data idx
       else if attr_eq_int axis 3 then
         data ← get_layer_sliced 3 name0;
         name1 ← node_input n 1;
         idx ← get_layer name1;
         index_by data idx
       else raise (AttributeError "Can't gather by axis more than 3."));
    gathered ←
      (if dtype_is_object (nd_dtype gathered) then
         match np.as_int32 gathered with
         | Ok g => mret g
         | Raise (TypeError _) => mret gathered
         | Raise e => raise e
         end
       else mret gathered);
    set_layer node_name (Constant gathered)
  else
    let input_0 := ensure_tf_type v0 (keras_name +:+ "_const") in
    name1 ← node_input n 1;
    v1 ← get_layer name1;
    let indices := gather_indices v1 in
    emb ← has_param "is_embedding";
    if (emb : bool) then
      s ← lift (tf.dims input_0);
      if (length s =? 2)%nat then
        w ← get_layer name0;
        r ← lift (tf.Embedding (default None (s !! 0%nat)) (default None (s !! 1%nat)) w
                    keras_name indices);
        set_layer node_name (Symbolic r)
      else raise (AttributeError "Cannot transform gather into embedding with non 2D array")
    else
      axis ← get_param "axis";
      r ← lift (let? ax := attr_int axis in tf.gather input_0 indices ax)%res;
      set_layer node_name (Symbolic r).

(** [[layers[node.input[i]] for i in range(len(node.input))]] *)
Fixpoint get_layers (names : list string) : M (list Value) :=
  match names with
  | [] => mret []
  | name :: rest =>
      v ← get_layer name;
      vs ← get_layers rest;
      mret (v :: vs)
  end.

Definition constant_array (v : Value) : option ndarray :=
  match v with
  | Constant a => Some a
  | Symbolic _ => None
  end.

Definition convert_concat (n : node) (node_name keras_name : string) : M unit :=
  let logger := "onnx2keras.concat" in
  layer_input ← get_layers (input n);
  flags ← get_layers (input n);
  if forallb is_numpy flags then
    debug logger "Concat numpy arrays.";;
    axis ← get_param "axis";
    r ← lift (let? ax := attr_int axis in
              np.concatenate (omap constant_array layer_input) ax)%res;
    set_layer node_name (Constant r)
  else
    debug logger "Concat Keras layers.";;
    if (1 <? length layer_input)%nat then
      if negb (forallb is_keras_tensor layer_input) then
        axis ← get_param "axis";
        r ← lift (let? ax := attr_int axis in tf.concat layer_input ax keras_name)%res;
        set_layer node_name (Symbolic r)
      else
        axis ← get_param "axis";
        r ← lift (let? ax := attr_int axis in tf.concatenate layer_input ax keras_name)%res;
        set_layer node_name (Symbolic r)
    else
      v ← lift (index_error (layer_input !! O));
      set_layer node_name v.

(** The cells of an array used as a shape or as a list of axes: [a[i]],
    [a[1:]], [len(a)].  A 0-dimensional array has no length and cannot be
    subscripted ([unsized] is what the first use raises); rows of arrays of
    higher rank are outside the model. *)
Definition vector (unsized : exn) (a : ndarray) : result (list scalar) :=
  match nd_shape a with
  | [] => Raise unsized
  | [_] => Ok (nd_data a)
  | _ => Raise (Unmodelled "an array of rank 2 or more used as a shape")
  end.

(** [np.array(l1) == a2] for a Python list [l1] and a vector with cells
    [l2]: cell by cell when the lengths agree or one of them is [1]
    (broadcasting); on any other pair of lengths the comparison as a whole
    is [False] (NumPy before 1.25), which [argmin] and [any] treat as a
    one-cell vector. *)
Definition array_eq (l1 l2 : list scalar) : list bool :=
  if (length l1 =? length l2)%nat then map (fun '(x, y) => scalar_eqb x y) (zip l1 l2)
  else match l1, l2 with
       | [x], _ => map (scalar_eqb x) l2
       | _, [y] => map (fun x => scalar_eqb x y) l1
       | _, _ => [false]
       end.

(** [np.int32(a[1:])] as the target of a Keras [Reshape]. *)
Definition int32_tail (cells : list scalar) : result (list Z) :=
  (let? c := rmap np.int32_cell (tail cells) in rmap scalar_int c)%res.

(** [s[-k:]] *)
Definition last_dims {A} (k : nat) (s : list A) : list A :=
  if (k =? 0)%nat then s else drop (length s - k) s.

Definition convert_reshape (n : node) (node_name keras_name : string) : M unit :=
  let logger := "onnx2keras.reshape" in
  name0 ← node_input n 0;
  input_0 ← get_layer name0;
  name1 ← node_input n 1;
  input_1 ← get_layer name1;
  match input_1 with
  | Constant a1 =>
      debug logger "The second argument is numpy array.";;
      match input_0 with
      | Constant a0 =>
          debug logger "The first argument is numpy array. Apply np.reshape.";;
          r ← lift (let? t := np.as_int32 a1 in
                    let? tz := rmap scalar_int (nd_data t) in
                    if (1 <? np.ndim t)%nat then
                      Raise (TypeError "only integer scalar arrays can be converted to a scalar index")
                    else np.reshape a0 tz)%res;
          set_layer node_name (Constant r)
      | Symbolic _ =>
          co ← get_param "change_ordering";
          ordering ← lift (attr_truth co);
          if (ordering : bool) then
            v0 ← get_layer name0;
            let input_0 := ensure_tf_type v0 (keras_name +:+ "_const") in
            cells ← lift (vector (IndexError "too many indices for array") a1);
            c0 ← lift (index_error (cells !! 0%nat));
            flat ← (if is_none c0 then
                      c1 ← lift (index_error (cells !! 1%nat));
                      mret (scalar_eqb c1 (SInt (-1)))
                    else mret false);
            (if (flat : bool) then
               warning logger "!!! IMPORTANT INFORMATION !!!";;
               warning logger "The target shape if [None, -1] that means flatten.";;
               warning logger "But the target ordering is NHWC, so we cant simply perform flatten";;
               warning logger "The layer will be converted as lambda with tf.transpose";;
               warning logger "---";;
               r ← lift (tf.Lambda TransposeToCHW (keras_name +:+ "_CHW") input_0);
               set_layer node_name (Symbolic r);;
               set_lambda keras_name TransposeToCHW
             else set_layer node_name (Symbolic input_0));;
            target ← lift (int32_tail cells);
            cur ← get_layer node_name;
            r ← lift (tf.Reshape target keras_name (tf.convert_to_tensor cur));
            set_layer node_name (Symbolic r)
          else
            v0 ← get_layer name0;
            let input_0 := ensure_tf_type v0 (keras_name +:+ "_const") in
            input_0_shape ← lift (tf.dims input_0);
            cells ← lift (vector (TypeError "len() of unsized object") a1);
            let shape_cells := map dim_scalar input_0_shape in
            first_mismatch ← lift (argmin (array_eq (take (length cells) shape_cells) cells));
            run ← (if existsb is_none cells && existsb is_none shape_cells
                      && (length cells <? length input_0_shape)%nat then
                     c ← lift (index_error (cells !! first_mismatch));
                     mret (scalar_eqb c (SInt (-1)))
                   else mret false);
            if (run : bool) then
              let end_match_arr := array_eq (last_dims (length cells) shape_cells) cells in
              end_idx_match ← lift (argmax end_match_arr);
              hit ← (if (first_mismatch <? end_idx_match)%nat
                     then lift (index_error (end_match_arr !! end_idx_match))
                     else mret false);
              let end_idx_match :=
                if (hit : bool)
                then (end_idx_match + length input_0_shape - length cells)%nat
                else (length input_0_shape + 1)%nat in
              r ← lift (tf.reshape_run input_0 first_mismatch end_idx_match);
              set_layer node_name (Symbolic r)
            else
              debug logger "The first argument is Keras/tf layer. Apply keras.Reshape.";;
              debug logger "Target shape :";;
              target ← lift (int32_tail cells);
              emit logger DEBUG (Shown (NDArray int32 [length target] (map SInt target)));;
              if (length target =? 1)%nat && bool_decide (target !! 0%nat = Some (-1)) then
                debug logger "The first argument is Keras/tf layer. Apply keras.Flatten.";;
                r ← lift (tf.Flatten keras_name input_0);
                set_layer node_name (Symbolic r)
              else
                d0 ← lift (index_error (input_0_shape !! 0%nat));
                c0 ← lift (index_error (cells !! 0%nat));
                if negb (scalar_eqb (dim_scalar d0) c0) then
                  r ← lift (tf.reshape input_0 a1 keras_name);
                  set_layer node_name (Symbolic r)
                else
                  r ← lift (tf.Reshape target keras_name input_0);
                  set_layer node_name (Symbolic r)
      end
  | Symbolic _ => raise (AttributeError "Can't reshape dynamic size.")
  end.

(** [for axis in params['axes']], [len(params['axes'])] and
    [params['axes'][0]]: the attribute is a list of integers, or, once
    [convert_unsqueeze] has replaced it, an Environment value.  The cells of a
    tensor are not known to the model. *)
Definition axes_cells (a : attr) : result (list scalar) :=
  match a with
  | AInts l => Ok (map SInt l)
  | AValue (Constant v) => vector (TypeError "len() of unsized object") v
  | AValue (Symbolic t) =>
      if t_keras t then Raise (TypeError "a symbolic Keras tensor has no length")
      else Raise (Unmodelled "the host value of an eager tensor computed by the framework")
  | _ => Raise (TypeError "the attribute is not a sequence")
  end.

(** An axis number taken from a cell. *)
Definition axis_of (c : scalar) : result Z :=
  match c with
  | SInt z => Ok z
  | _ => Raise (TypeError "an integer is required for the axis")
  end.

Definition convert_unsqueeze (n : node) (node_name keras_name : string) : M unit :=
  let logger := "onnx2keras.unsqueeze" in
  (if negb (length (input n) =? 1)%nat then
     if (length (input n) =? 2)%nat then
       name1 ← node_input n 1;
       v1 ← get_layer name1;
       set_param "axes" (AValue v1)
     else raise (AttributeError "Number of inputs is not equal 1 for unsqueeze layer")
   else mret tt);;
  name0 ← node_input n 0;
  v0 ← get_layer name0;
  if is_numpy v0 then
    debug logger "Work with numpy types.";;
    v ← get_layer name0;
    set_layer node_name v;;
    axes ← get_param "axes";
    cells ← lift (axes_cells axes);
    foldr (fun axis rest =>
             cur ← get_layer node_name;
             r ← lift (match cur with
                       | Constant a => (let? ax := axis_of axis in np.expand_dims a ax)%res
                       | Symbolic _ => Raise (Unmodelled "not reached: the entry is an array")
                       end);
             set_layer node_name (Constant r);;
             rest) (mret tt) cells
  else
    axes ← get_param "axes";
    cells ← lift (axes_cells axes);
    if negb (length cells =? 1)%nat then
      raise (AttributeError "Number of axes is not equal 1. Cannot unsqueeze")
    else
      v ← get_layer name0;
      axes ← get_param "axes";
      r ← lift (let? cells := axes_cells axes in
                let? c := index_error (cells !! 0%nat) in
                let? ax := axis_of c in
                tf.expand_dims (tf.convert_to_tensor v) ax)%res;
      set_layer node_name (Symbolic r).

Definition convert_flatten (n : node) (node_name keras_name : string) : M unit :=
  let logger := "onnx2keras.flatten" in
  if negb (length (input n) =? 1)%nat then
    raise (AttributeError "Number of inputs is not equal 1 for flatten layer")
  else
    debug logger "Convert inputs to Keras/TF layers if needed.";;
    name0 ← node_input n 0;
    v0 ← get_layer name0;
    let input_0 := ensure_tf_type v0 (keras_name +:+ "_const") in
    tensor_chw ← lift (tf.Permute [3; 1; 2] None input_0);
    r ← lift (tf.Flatten keras_name tensor_chw);
    set_layer node_name (Symbolic r).

(** One entry of [slice_spec_param]: the dictionary
    [{'start': .., 'step': .., 'stop': ..}]. *)
Record slice_dict := SliceDict { start : scalar; step : scalar; stop : scalar }.

Definition slice_of_dict (d : slice_dict) : result slice :=
  mk_slice (start d) (stop d) (step d).

(** [list(params[key])] *)
Definition param_list (key : string) : M (list scalar) :=
  a ← get_param key;
  lift (let? l := attr_ints a in Ok (map SInt l))%res.

(** [list(params.get("steps", [None] * len(axes)))] *)
Definition param_steps (axes : list scalar) : M (list scalar) := λ st,
  match params st !! "steps" with
  | Some a => (st, (let? l := attr_ints a in Ok (map SInt l))%res)
  | None => (st, Ok (replicate (length axes) SNone))
  end.

(** [list(ensure_numpy_type(layers[node.input[i]]))] *)
Definition input_list (n : node) (i : nat) : M (list scalar) :=
  name ← node_input n i;
  v ← get_layer name;
  lift (let? a := ensure_numpy_type v in np.cells a)%res.

(** [axis if axis >= 0 else input_shape_len + axis] *)
Definition axis_positive (input_shape_len : nat) (axis : scalar) : result scalar :=
  (let? neg := scalar_ltb axis 0 in
   if (neg : bool) then
     match axis with
     | SInt z => Ok (SInt (Z.of_nat input_shape_len + z))
     | SFloat m e =>
         Ok (if 0 <=? e then SFloat (Z.of_nat input_shape_len + m * 2 ^ e) 0
             else SFloat (Z.of_nat input_shape_len * 2 ^ (- e) + m) e)
     | SNone => Ok SNone
     end
   else Ok axis)%res.

(** [l.index(x)] and [x in l] for a list of cells. *)
Fixpoint cell_index (x : scalar) (l : list scalar) : option nat :=
  match l with
  | [] => None
  | y :: l' => if scalar_eqb y x then Some O else S <$> cell_index x l'
  end.

(** The body of the loop [for axis in range(input_shape_len)] of
    [convert_slice].  The loop variables [start], [end] and [step] stay bound
    after the loop: they are carried along with the list. *)
Definition slice_step (axes_positives starts ends steps : list scalar)
    (acc : list slice_dict * option (scalar * scalar * scalar)) (axis : nat)
    : result (list slice_dict * option (scalar * scalar * scalar)) :=
  let '(slice_spec_param, bound) := acc in
  match cell_index (SInt (Z.of_nat axis)) axes_positives with
  | Some axis_index =>
      (let? start := index_error (starts !! axis_index) in
       let? e := index_error (ends !! axis_index) in
       let? below := scalar_ltb e 2147483647 in
       let? end_ := (if (below : bool) then index_error (ends !! axis_index) else Ok SNone) in
       let? step := index_error (steps !! axis_index) in
       Ok (slice_spec_param ++ [SliceDict start step end_], Some (start, end_, step)))%res
  | None =>
      Ok (slice_spec_param ++ [SliceDict SNone SNone SNone], bound)
  end.

Definition slice_loop (input_shape_len : nat) (axes_positives starts ends steps : list scalar)
    : result (list slice_dict * option (scalar * scalar * scalar)) :=
  rfold (slice_step axes_positives starts ends steps) (seq 0 input_shape_len) ([], None).

(** [np.array([_shape is None for _shape in a]).any()] *)
Definition any_is_none (a : ndarray) : result bool :=
  match nd_shape a with
  | [] => Raise (TypeError "iteration over a 0-d array")
  | [_] => Ok (existsb is_none (nd_data a))
  | _ => Ok false
  end.

Definition convert_slice (n : node) (node_name keras_name : string) : M unit :=
  let logger := "onnx2keras.slice" in
  co ← get_param "change_ordering";
  ordering ← lift (attr_truth co);
  if (ordering : bool) then
    raise (NotImplementedError "change_ordering for Slice is not implemented")
  else
    has_axes ← has_param "axes";
    '(axes, ends, starts, steps) ←
      (if (has_axes : bool) then
         axes ← param_list "axes";
         ends ← param_list "ends";
         starts ← param_list "starts";
         steps ← param_steps axes;
         mret (axes, ends, starts, steps)
       else
         starts ← input_list n 1;
         ends ← input_list n 2;
         axes ← input_list n 3;
         steps ← except_IndexError (input_list n 4) (param_steps axes);
         mret (axes, ends, starts, steps));
    name0 ← node_input n 0;
    v0 ← get_layer name0;
    s ← lift (value_shape v0);
    let input_shape_len := length s in
    axes_positives ← lift (rmap (axis_positive input_shape_len) axes);
    '(slice_spec_param, bound) ←
      lift (slice_loop input_shape_len axes_positives starts ends steps);
    shape_array ←
      match v0 with
      | Constant a =>
          holes ← lift (any_is_none a);
          mret (holes && (np.ndim a =? 1)%nat)
      | Symbolic _ => mret false
      end;
    sliced ←
      (if (shape_array : bool) then
         match v0, bound with
         | Constant a, Some (start, end_, step) =>
             r ← lift (let? sl := mk_slice start end_ step in np.getitem a [sl])%res;
             mret (Constant r)
         | _, _ => raise (UnboundLocalError "start")
         end
       else
         let input_0 := ensure_tf_type v0 (keras_name +:+ "_const") in
         sliced ← lift (let? spec := rmap slice_of_dict slice_spec_param in
                        tf.getitem input_0 spec)%res;
         if is_numpy v0 then
           r ← lift (tf.numpy sliced);
           mret (Constant r)
         else mret (Symbolic sliced));
    set_layer node_name sliced.

Definition convert_squeeze (n : node) (node_name keras_name : string) : M unit :=
  (if negb (length (input n) =? 1)%nat then
     py_assert (exception_truth (AttributeError "More than 1 input for squeeze layer."))
   else mret tt);;
  name0 ← node_input n 0;
  v0 ← get_layer name0;
  let input_0 := ensure_tf_type v0 (keras_name +:+ "_const") in
  has_axes ← has_param "axes";
  axis ← (if (has_axes : bool) then
            axes ← get_param "axes";
            lift (let? l := attr_ints axes in
                  let? ax := index_error (l !! 0%nat) in Ok (Some ax))%res
          else mret None);
  r ← lift (tf.squeeze input_0 axis);
  set_layer node_name (Symbolic r).

(** [len(v)] and [v[i]] for an Environment value used as a list of numbers. *)
Definition value_cells (v : Value) : result (list scalar) := axes_cells (AValue v).

(** [layers[name]] when the input is named, the given default when the name
    is empty. *)
Definition optional_layer {A} (name : string) (absent : A) (present : Value → A) : M A :=
  if (String.length name =? 0)%nat then mret absent
  else v ← get_layer name; mret (present v).

Definition convert_resize (n : node) (node_name keras_name : string) : M unit :=
  name0 ← node_input n 0;
  input_tensor ← get_layer name0;
  name1 ← node_input n 1;
  roi ← optional_layer name1 None Some;
  name2 ← node_input n 2;
  scales ← optional_layer name2 None Some;
  sizes ← (if (length (input n) =? 4)%nat then
             name3 ← node_input n 3;
             v ← get_layer name3;
             mret (Some v)
           else mret None);
  has_roi ← lift (match roi with Some v => value_truth v | None => Ok false end);
  if (has_roi : bool) then raise (PyException "Resize with roi not supported")
  else
    mode ← get_param "mode";
    resize_method ←
      (if attr_eq_bytes mode "nearest" then mret NEAREST_NEIGHBOR
       else
         mode ← get_param "mode";
         if attr_eq_bytes mode "cubic" then mret BICUBIC
         else
           mode ← get_param "mode";
           if attr_eq_bytes mode "linear" then mret BILINEAR
           else raise (PyException "unsupported resize method"));
    to_channel_last ← lift (tf.Permute [2; 3; 1] None (tf.convert_to_tensor input_tensor));
    scale_cells ← lift (match scales with Some v => value_cells v | None => Ok [] end);
    tf_resize_shapes ←
      (if (0 <? length scale_cells)%nat then
         s0 ← lift (index_error (scale_cells !! 0%nat));
         moved ← (if negb (scalar_eqb s0 (SInt 1)) then mret true
                  else
                    s1 ← lift (index_error (scale_cells !! 1%nat));
                    mret (negb (scalar_eqb s1 (SInt 1))));
         if (moved : bool) then raise (PyException "Resize of channels or batch dim not suppported")
         else
           lift (let? s := tf.dims to_channel_last in
                 let scaled (i j : nat) :=
                   (let? c := index_error (scale_cells !! i) in
                    let? d := index_error (s !! j) in
                    match d with
                    | Some k => let? x := scalar_scale c (Z.of_nat k) in scalar_int x
                    | None => Raise (TypeError "unsupported operand type(s) for *: 'float' and 'NoneType'")
                    end) in
                 let? h := scaled 2%nat 1%nat in
                 let? w := scaled 3%nat 2%nat in
                 Ok [h; w])%res
       else
         match sizes with
         | None => raise (TypeError "'NoneType' object is not subscriptable")
         | Some sz =>
             size_cells ← lift (value_cells sz);
             s ← lift (value_shape input_tensor);
             z0 ← lift (index_error (size_cells !! 0%nat));
             d0 ← lift (index_error (s !! 0%nat));
             moved ← (if negb (scalar_eqb z0 (dim_scalar d0)) then mret true
                      else
                        z1 ← lift (index_error (size_cells !! 1%nat));
                        d1 ← lift (index_error (s !! 1%nat));
                        mret (negb (scalar_eqb z1 (dim_scalar d1))));
             if (moved : bool) then
               raise (PyException "Resize of channels or batch dim not suppported")
             else
               lift (let? z2 := index_error (size_cells !! 2%nat) in
                     let? h := scalar_int z2 in
                     let? z3 := index_error (size_cells !! 3%nat) in
                     let? w := scalar_int z3 in
                     Ok [h; w])%res
         end);
    resized ← lift (tf.image_resize to_channel_last tf_resize_shapes resize_method);
    to_channel_first ← lift (tf.Permute [3; 1; 2] None resized);
    set_layer node_name (Symbolic to_channel_first).

Definition convert_expand (n : node) (node_name keras_name : string) : M unit :=
  (if negb (length (input n) =? 2)%nat then
     py_assert (exception_truth (AttributeError "More than 2 input for expand layer."))
   else mret tt);;
  name0 ← node_input n 0;
  v0 ← get_layer name0;
  let input_0 := ensure_tf_type v0 (keras_name +:+ "_const") in
  name1 ← node_input n 1;
  v1 ← get_layer name1;
  input_1 ← lift (let? a := ensure_numpy_type v1 in np.as_int32 a)%res;
  r ← lift (let? o := tf.ones input_1 in tf.multiply input_0 o)%res;
  set_layer node_name (Symbolic r).

Definition convert_tile (n : node) (node_name keras_name : string) : M unit :=
  name0 ← node_input n 0;
  v0 ← get_layer name0;
  name1 ← node_input n 1;
  v1 ← get_layer name1;
  r ← lift (tf.tile v0 v1);
  set_layer node_name (Symbolic r).

(** The operator lowering table of this module. *)
Inductive operator :=
| Transpose | Shape | Gather | Concat | Reshape | Unsqueeze
| Flatten | Slice_ | Squeeze | Resize | Expand | Tile.

Definition lowering (op : operator) : node → string → string → M unit :=
  match op with
  | Transpose => convert_transpose
  | Shape => convert_shape
  | Gather => convert_gather
  | Concat => convert_concat
  | Reshape => convert_reshape
  | Unsqueeze => convert_unsqueeze
  | Flatten => convert_flatten
  | Slice_ => convert_slice
  | Squeeze => convert_squeeze
  | Resize => convert_resize
  | Expand => convert_expand
  | Tile => convert_tile
  end.

(** ** Observations on a run *)

(** The primitive of the node a value was emitted by, if it is a node. *)
Definition emitted_prim (v : Value) : option prim :=
  match v with
  | Symbolic t => match t_graph t with GNode p _ => Some p | _ => None end
  | Constant _ => None
  end.

Definition initial (l : gmap string Value) (p : gmap string attr) : state :=
  State l ∅ p [].

(** A vector of 64-bit integers. *)
Definition int_vector (l : list Z) : ndarray := NDArray int64 [length l] (map SInt l).

(** A symbolic input of the target graph with the given static shape. *)
Definition graph_input (name : string) (s : list (option nat)) : tensor :=
  Tensor (GInput name) (Some s) true.

(** *** A reshape of a feature map [(None, 3, 4, 4)] to [(None, -1)] *)

Definition feature_map : tensor :=
  graph_input "x" [None; Some 3; Some 4; Some 4]%nat.

Definition flatten_target : ndarray := NDArray object_ [2%nat] [SNone; SInt (-1)].

Definition reshape_state : state :=
  initial (<["x" := Symbolic feature_map]> (<["shape" := Constant flatten_target]> ∅))
          (<["change_ordering" := ABool false]> ∅).

Definition reshape_node : node := Node ["x"; "shape"].

(** *** Gather nodes *)

Definition matrix_2x2 : ndarray := NDArray int64 [2; 2]%nat (map SInt [1; 2; 3; 4]).

(** Both operands are arrays; the attribute [axis] is as given. *)
Definition gather_arrays_state (axis : Z) : state :=
  initial (<["data" := Constant matrix_2x2]> (<["indices" := Constant (int_vector [0])]> ∅))
          (<["axis" := AInt axis]> ∅).

(** The data operand is a symbolic tensor of rank 5. *)
Definition gather_tensor_state : state :=
  initial (<["data" := Symbolic (graph_input "x" [None; Some 2; Some 3; Some 4; Some 5]%nat)]>
             (<["indices" := Constant (int_vector [0; 1])]> ∅))
          (<["axis" := AInt 4]> ∅).

Definition gather_node : node := Node ["data"; "indices"].

(** *** A squeeze node with two inputs *)

Definition squeeze_state : state :=
  initial (<["x" := Symbolic (graph_input "x" [None; Some 1; Some 3]%nat)]> ∅) ∅.

Definition squeeze_node : node := Node ["x"; "axes"].

(** *** A shape node over a partly known shape *)

Definition shape_state : state :=
  initial (<["x" := Symbolic feature_map]> ∅) ∅.

(** *** An unsqueeze node with its axes as second input *)

Definition unsqueeze_state : state :=
  initial (<["x" := Constant matrix_2x2]> (<["axes" := Constant (int_vector [0])]> ∅))
          (<["axes" := AInts [2]]> ∅).


(** ** What a routine leaves alone

    [preserves proj m]: running [m], to completion or to an exception, does
    not change the part [proj] of the state. *)
Definition preserves {P A} (proj : state → P) (m : M A) : Prop :=
  ∀ st, proj (fst (m st)) = proj st.

(** [writes name m]: when [m] completes, the Environment has an entry under
    [name]. *)
Definition writes {A} (name : string) (m : M A) : Prop :=
  ∀ st st' a, m st = (st', Ok a) → is_Some (layers st' !! name).

(** *** Transpose nodes *)



(** *** Slice nodes *)





(** [keeps name m]: when [m] completes from a state with an entry under
    [name], the entry is still there. *)
Definition keeps {A} (name : string) (m : M A) : Prop :=
  ∀ st st' a, is_Some (layers st !! name) → m st = (st', Ok a) → is_Some (layers st' !! name).

(** [pure m]: [m] reads the state and leaves it as it is. *)
Definition pure {A} (m : M A) : Prop := ∀ st, fst (m st) = st.

(** ** Further observations *)

(** [atomic m]: when [m] raises, the Environment is as it was before. *)
Definition atomic {A} (m : M A) : Prop :=
  ∀ st st' e, m st = (st', Raise e) → layers st' = layers st.

(** The routines that write the Environment only as their last statement. *)
Definition writes_last (op : operator) : bool :=
  match op with
  | Reshape | Unsqueeze => false
  | _ => true
  end.

(** *** An unsqueeze node without the attribute [axes] *)

Definition unsqueeze_no_axes_state : state :=
  initial (<["x" := Constant matrix_2x2]> ∅) ∅.

(** *** A reshape under layout reordering whose target cannot be converted *)

Definition reordered_reshape_state : state :=
  initial (<["x" := Symbolic feature_map]>
             (<["shape" := Constant (NDArray object_ [3%nat] [SInt 1; SNone; SInt 4])]> ∅))
          (<["change_ordering" := ABool true]> ∅).

(** A vector of dimensions as the target of a reshape. *)
Definition shape_vector (s : list nat) : ndarray := int_vector (map Z.of_nat s).

(** The cells of a target fit the 32-bit integers [np.int32] converts to. *)
Definition fits_int32 (t : list Z) : Prop := Forall (fun z => - 2 ^ 31 ≤ z < 2 ^ 31) t.

(** *** Reshapes of a compile-time array *)

Definition cube_2x3x4 : ndarray :=
  NDArray int64 [2; 3; 4]%nat (map SInt (map Z.of_nat (seq 0 24))).

Definition round_trip_state : state :=
  initial (<["x" := Constant cube_2x3x4]>
             (<["there" := Constant (int_vector [2; 12])]>
                (<["back" := Constant (shape_vector [2; 3; 4]%nat)]> ∅)))
          ∅.

(** *** Reshapes of a graph tensor *)

Definition image_batch : tensor := graph_input "x" [Some 2; Some 3; Some 4]%nat.

(** The target [(6, -1)] for a tensor of shape [(2, 3, 4)]. *)
Definition flatten_state : state :=
  initial (<["x" := Symbolic image_batch]> (<["shape" := Constant (int_vector [6; -1])]> ∅))
          (<["change_ordering" := ABool false]> ∅).

(** The target [(6, 4)] for a tensor of shape [(2, 3, 4)]: the batch sizes
    differ. *)
Definition rebatch_state : state :=
  initial (<["x" := Symbolic image_batch]> (<["shape" := Constant (int_vector [6; 4])]> ∅))
          (<["change_ordering" := ABool false]> ∅).

(** The primitive [convert_reshape] hands a graph tensor to, for a target of
    numbers that is not of the form [(c, -1)]. *)
Definition reshape_primitive (x : tensor) (d0 : option nat) (t0 : Z) (tail_ : list Z)
    (keras_name : string) : result tensor :=
  if scalar_eqb (dim_scalar d0) (SInt t0)
  then tf.Reshape tail_ keras_name x
  else tf.reshape x (int_vector (t0 :: tail_)) keras_name.

(** *** Reshapes under layout reordering *)

(** A channel-last feature map [(None, 4, 4, 3)] to be flattened. *)
Definition channel_last_map : tensor :=
  graph_input "x" [None; Some 4; Some 4; Some 3]%nat.

Definition reordered_flatten_state : state :=
  initial (<["x" := Symbolic channel_last_map]> (<["shape" := Constant flatten_target]> ∅))
          (<["change_ordering" := ABool true]> ∅).

(** The five warnings of the reordered flatten. *)
Definition reorder_warnings : list log_record :=
  map (fun s => LogRecord "onnx2keras.reshape" WARNING (Text s))
    ["!!! IMPORTANT INFORMATION !!!";
     "The target shape if [None, -1] that means flatten.";
     "But the target ordering is NHWC, so we cant simply perform flatten";
     "The layer will be converted as lambda with tf.transpose";
     "---"].

(** *** Concat nodes *)


(** The names are bound, in order, to the values. *)
Definition bound (st : state) (names : list string) (vs : list Value) : Prop :=
  Forall2 (fun name v => layers st !! name = Some v) names vs.

Definition concat_state : state :=
  initial (<["a" := Constant (int_vector [1; 2])]>
             (<["c" := Constant (int_vector [5; 6; 7])]>
                (<["t" := Symbolic (graph_input "t" [Some 4%nat])]> ∅)))
          (<["axis" := AInt 0]> ∅).

(** The primitive [convert_concat] hands two or more values to when one of
    them is not an array. *)
Definition concat_primitive (vs : list Value) (axis : Z) (keras_name : string)
    : result tensor :=
  if forallb is_keras_tensor vs then tf.concatenate vs axis keras_name
  else tf.concat vs axis keras_name.

(** *** Gather nodes flagged as embeddings *)

Definition embedding_state : state :=
  initial (<["data" := Constant matrix_2x2]> (<["indices" := Constant (int_vector [0])]> ∅))
          (<["is_embedding" := AInt 1]> ∅).

Definition embedding_vector_state : state :=
  initial (<["data" := Constant (int_vector [5; 6; 7])]>
             (<["indices" := Constant (int_vector [0])]> ∅))
          (<["is_embedding" := AInt 1]> ∅).

(** *** A shape node read by a gather node *)

Definition scalar_index (i : Z) : ndarray := NDArray int64 [] [SInt i].

Definition shape_gather_state : state :=
  initial (<["x" := Symbolic feature_map]> (<["index" := Constant (scalar_index (-1))]> ∅))
          (<["axis" := AInt 0]> ∅).

(** *** Squeeze nodes with the attribute [axes] *)

Definition singleton_axes : tensor := graph_input "x" [None; Some 1; Some 1; Some 3]%nat.

Definition squeeze_axes_state : state :=
  initial (<["x" := Symbolic singleton_axes]> ∅) (<["axes" := AInts [1; 2]]> ∅).

Definition squeeze_no_axis_state : state :=
  initial (<["x" := Symbolic singleton_axes]> ∅) (<["axes" := AInts []]> ∅).

(** *** An expand node whose target is the shape of its input *)


(** *** A slice of a shape array that names no axis *)

Definition slice_shape_state : state :=
  initial (<["dims" := Constant (NDArray object_ [3%nat] [SNone; SInt 3; SInt 4])]> ∅)
          (<["change_ordering" := ABool false]>
             (<["axes" := AInts []]> (<["starts" := AInts []]> (<["ends" := AInts []]> ∅)))).

(** *** An unsqueeze of a matrix along two axes *)


(** *** Resize nodes *)

(** A channel-first image batch [(None, 3, 4, 5)]. *)
Definition image_nchw : tensor := graph_input "x" [None; Some 3; Some 4; Some 5]%nat.

(** The scales [(1.0, 1.0, 2.0, 2.0)]. *)
Definition double_scales : ndarray :=
  NDArray float32 [4%nat] [SFloat 1 0; SFloat 1 0; SFloat 2 0; SFloat 2 0].

Definition resize_state : state :=
  initial (<["x" := Symbolic image_nchw]>
             (<["roi" := Constant (int_vector [0; 0; 0; 0; 1; 1; 1; 1])]>
                (<["scales" := Constant double_scales]>
                   (<["sizes" := Constant (int_vector [1; 3; 8; 10])]> ∅))))
          (<["mode" := ABytes "nearest"]> ∅).

Definition resize_area_state : state :=
  initial (<["x" := Symbolic image_nchw]> (<["scales" := Constant double_scales]> ∅))
          (<["mode" := ABytes "area"]> ∅).

(** * Properties *)

(** ** Running the monad *)

Lemma bind_run {A B} (m : M A) (f : A → M B) st :
  (m ≫= f) st
  = match m st with
    | (st', Ok a) => f a st'
    | (st', Raise e) => (st', Raise e)
    end.
Proof. reflexivity. Qed.

Lemma get_layer_run st name v :
  layers st !! name = Some v → get_layer name st = (st, Ok v).
Proof. intros H. unfold get_layer. by rewrite H. Qed.

Lemma get_param_run st key a :
  params st !! key = Some a → get_param key st = (st, Ok a).
Proof. intros H. unfold get_param. by rewrite H. Qed.

Lemma node_input_run n i name st :
  input n !! i = Some name → node_input n i st = (st, Ok name).
Proof. intros H. unfold node_input. by rewrite H. Qed.

(** One statement of a routine: the next [bind], and the dictionary or input
    lookup under it when a hypothesis gives its result. *)
Ltac step :=
  cbv beta iota;
  rewrite bind_run;
  try first
    [ erewrite node_input_run by eassumption
    | erewrite get_layer_run by (simpl; eassumption)
    | erewrite get_param_run by (simpl; eassumption) ];
  cbv beta iota.

(** ** Reshape *)

(** C1, as amended: for a reshape node with layout reordering disabled, a
    symbolic source of shape [(None, 3, 4, 4)] and the compile-time target
    [(None, -1)], the lowering takes the branch that folds a run of axes with
    a dynamic reshape: it emits
    [tf.reshape(x, [*tf.shape(x)[:1], -1, *tf.shape(x)[5:]])], whose result
    on an input of run-time shape [(1, 3, 4, 4)] has shape [(1, 48)]. *)
Theorem reshape_wildcard_folds_run :
  ∀ st n node_name keras_name name0 name1 x a1 co,
    input n !! 0%nat = Some name0 →
    input n !! 1%nat = Some name1 →
    layers st !! name0 = Some (Symbolic x) →
    t_shape x = Some [None; Some 3; Some 4; Some 4]%nat →
    layers st !! name1 = Some (Constant a1) →
    nd_shape a1 = [2%nat] →
    nd_data a1 = [SNone; SInt (-1)] →
    params st !! "change_ordering" = Some co →
    attr_truth co = Ok false →
    ∃ st',
      convert_reshape n node_name keras_name st = (st', Ok tt)
      ∧ layers st'
        = <[node_name := Symbolic (tf.node (TfReshapeRun 1 5) [x] (Some [None; None]))]>
            (layers st)
      ∧ tf.reshape_run_shape [Some 1; Some 3; Some 4; Some 4]%nat 1 5
        = Ok [Some 1; Some 48]%nat.
Proof.
  intros st n node_name keras_name name0 name1 x a1 co Hi0 Hi1 Hx Hs Ha Hsh Hd Hco Hf.
  eexists. split; [|split; [|reflexivity]].
  - unfold convert_reshape.
    do 4 step. step. cbn [debug emit].
    step. step. unfold lift at 1. rewrite Hf.
    step. unfold ensure_tf_type.
    step. unfold lift at 1, tf.dims. rewrite Hs.
    step. unfold lift at 1, vector. rewrite Hsh, Hd.
    simpl. unfold tf.reshape_run, tf.dims. rewrite Hs. simpl. reflexivity.
  - reflexivity.
Qed.

Lemma reshape_wildcard_folds_run_witness :
  ∃ st',
    convert_reshape reshape_node "out" "reshape_1" reshape_state = (st', Ok tt)
    ∧ layers st'
      = <["out" := Symbolic (tf.node (TfReshapeRun 1 5) [feature_map] (Some [None; None]))]>
          (layers reshape_state)
    ∧ tf.reshape_run_shape [Some 1; Some 3; Some 4; Some 4]%nat 1 5
      = Ok [Some 1; Some 48]%nat.
Proof.
  apply (reshape_wildcard_folds_run reshape_state reshape_node "out" "reshape_1"
           "x" "shape" feature_map flatten_target (ABool false));
    reflexivity.
Defined.

(** C1, as stated, fails: on the source [(None, 3, 4, 4)] and the target
    [(None, -1)] the routine completes, but the node it writes is not a
    flatten node. *)
Lemma reshape_wildcard_not_flatten :
  snd (convert_reshape reshape_node "out" "reshape_1" reshape_state) = Ok tt
  ∧ ¬ ∃ v name,
        layers (fst (convert_reshape reshape_node "out" "reshape_1" reshape_state)) !! "out"
        = Some v
        ∧ emitted_prim v = Some (KFlatten name).
Proof.
  split; [reflexivity|].
  intros (v & name & Hv & Hp).
  vm_compute in Hv. injection Hv as <-. discriminate Hp.
Qed.

(** C4: the reshape lowering fails whenever the target-shape operand is
    graph-bound, and leaves the state, and with it the Environment, as it
    was; when the source operand is bound as well, the error is the
    configuration error of the routine. *)
Theorem reshape_dynamic_target_fails :
  ∀ st n node_name keras_name name1 t,
    input n !! 1%nat = Some name1 →
    layers st !! name1 = Some (Symbolic t) →
    ∃ e,
      convert_reshape n node_name keras_name st = (st, Raise e)
      ∧ (∀ name0, input n !! 0%nat = Some name0 → is_Some (layers st !! name0) →
           e = AttributeError "Can't reshape dynamic size.").
Proof.
  intros st n node_name keras_name name1 t Hi1 Ht.
  destruct (input n !! 0%nat) as [name0|] eqn:Hi0.
  - destruct (layers st !! name0) as [v0|] eqn:Hv0.
    + exists (AttributeError "Can't reshape dynamic size."). split; [|done].
      unfold convert_reshape. do 4 step. reflexivity.
    + exists (KeyError name0). split.
      * unfold convert_reshape. step. rewrite bind_run.
        unfold get_layer at 1. rewrite Hv0. reflexivity.
      * intros ? [= <-] [? ?]. congruence.
  - destruct (input n) as [|? [|? ?]]; discriminate.
Qed.

Lemma reshape_dynamic_target_fails_witness :
  ∃ e,
    convert_reshape (Node ["shape"; "x"]) "out" "reshape_1" reshape_state
    = (reshape_state, Raise e)
    ∧ (∀ name0, input (Node ["shape"; "x"]) !! 0%nat = Some name0 →
         is_Some (layers reshape_state !! name0) →
         e = AttributeError "Can't reshape dynamic size.").
Proof.
  apply (reshape_dynamic_target_fails reshape_state (Node ["shape"; "x"]) "out" "reshape_1"
           "x" feature_map); reflexivity.
Defined.

(** ** Gather *)

(** C2, as amended: on the constant-fold path (both operands compile-time
    arrays, no embedding flag) an axis of 4 or more raises the configuration
    error, and the Environment is left as it was. *)
Theorem gather_axis_bound_constant_fold :
  ∀ st n node_name keras_name name0 name1 d i axis,
    input n !! 0%nat = Some name0 →
    input n !! 1%nat = Some name1 →
    layers st !! name0 = Some (Constant d) →
    layers st !! name1 = Some (Constant i) →
    params st !! "is_embedding" = None →
    params st !! "axis" = Some (AInt axis) →
    4 ≤ axis →
    snd (convert_gather n node_name keras_name st)
    = Raise (AttributeError "Can't gather by axis more than 3.")
    ∧ layers (fst (convert_gather n node_name keras_name st)) = layers st.
Proof.
  intros st n node_name keras_name name0 name1 d i axis Hi0 Hi1 Hd Hi He Hax Hge.
  assert (∃ lg, convert_gather n node_name keras_name st
                = (State (layers st) (lambda_func st) (params st) lg,
                   Raise (AttributeError "Can't gather by axis more than 3."))) as [lg ->].
  { eexists. unfold convert_gather.
    do 2 step. step. cbn [is_numpy].
    do 2 step. cbn [is_numpy]. step. unfold has_param at 1. rewrite He.
    rewrite bool_decide_eq_false_2 by (intros [? ?]; discriminate).
    cbv beta iota. unfold mret at 1, M_ret. cbn [negb].
    step. cbn [debug emit].
    step. step. unfold attr_eq_int.
    rewrite !(proj2 (Z.eqb_neq _ _)) by lia.
    reflexivity. }
  split; reflexivity.
Qed.

Lemma gather_axis_bound_constant_fold_witness :
  snd (convert_gather gather_node "out" "gather_1" (gather_arrays_state 4))
  = Raise (AttributeError "Can't gather by axis more than 3.")
  ∧ layers (fst (convert_gather gather_node "out" "gather_1" (gather_arrays_state 4)))
    = layers (gather_arrays_state 4).
Proof.
  apply (gather_axis_bound_constant_fold (gather_arrays_state 4) gather_node "out" "gather_1"
           "data" "indices" matrix_2x2 (int_vector [0]) 4); [reflexivity..|lia].
Defined.

(** C2, as stated, fails: with a graph tensor as the data operand, a gather
    along axis 4 raises nothing and writes the entry of the node. *)
Lemma gather_axis4_on_tensor_is_lowered :
  params gather_tensor_state !! "axis" = Some (AInt 4)
  ∧ snd (convert_gather gather_node "out" "gather_1" gather_tensor_state) = Ok tt
  ∧ emitted_prim
      <$> layers (fst (convert_gather gather_node "out" "gather_1" gather_tensor_state)) !! "out"
    = Some (Some (TfGather 4)).
Proof. repeat split; reflexivity. Qed.

(** On the constant-fold path an axis of 1, 2 or 3 never reaches the data
    array: the subscript on the dictionary raises first. *)
Lemma gather_constant_fold_off_axis_0 :
  ∀ st n node_name keras_name name0 name1 d i axis,
    input n !! 0%nat = Some name0 →
    input n !! 1%nat = Some name1 →
    layers st !! name0 = Some (Constant d) →
    layers st !! name1 = Some (Constant i) →
    params st !! "is_embedding" = None →
    params st !! "axis" = Some (AInt axis) →
    1 ≤ axis ≤ 3 →
    snd (convert_gather n node_name keras_name st) = Raise (TypeError "unhashable type: 'slice'")
    ∧ layers (fst (convert_gather n node_name keras_name st)) = layers st.
Proof.
  intros st n node_name keras_name name0 name1 d i axis Hi0 Hi1 Hd Hi He Hax Hrange.
  assert (∃ lg, convert_gather n node_name keras_name st
                = (State (layers st) (lambda_func st) (params st) lg,
                   Raise (TypeError "unhashable type: 'slice'"))) as [lg ->].
  { eexists. unfold convert_gather.
    do 2 step. step. cbn [is_numpy].
    do 2 step. cbn [is_numpy]. step. unfold has_param at 1. rewrite He.
    rewrite bool_decide_eq_false_2 by (intros [? ?]; discriminate).
    cbv beta iota. unfold mret at 1, M_ret. cbn [negb].
    step. cbn [debug emit].
    step. step. unfold attr_eq_int.
    assert (axis = 1 ∨ axis = 2 ∨ axis = 3) as [-> | [-> | ->]] by lia; reflexivity. }
  split; reflexivity.
Qed.

(** C3 fails on the code: for the axes 1, 2 and 3 the source subscripts the
    Environment dictionary itself, [layers[:, node.input[0]]], instead of the
    data array; the lowering raises and writes no entry, where the claim has
    it write the data indexed along the axis. *)
Theorem gather_off_axis_0_raises :
  Forall (fun axis =>
            snd (convert_gather gather_node "out" "gather_1" (gather_arrays_state axis))
            = Raise (TypeError "unhashable type: 'slice'")
            ∧ layers (fst (convert_gather gather_node "out" "gather_1"
                             (gather_arrays_state axis))) !! "out"
              = None)
         [1; 2; 3].
Proof. repeat constructor. Qed.

(** Along axis 0 the constant-fold path does index the data array. *)
Example gather_axis_0_folds :
  layers (fst (convert_gather gather_node "out" "gather_1" (gather_arrays_state 0))) !! "out"
  = Some (Constant (NDArray int64 [1; 2]%nat (map SInt [1; 2]))).
Proof. reflexivity. Qed.

(** ** Shape *)

Lemma dims_ensure_tf_type v name : tf.dims (ensure_tf_type v name) = value_shape v.
Proof. by destruct v. Qed.

Lemma shapes_loop (s : list (option nat)) (acc : list scalar) :
  foldl (fun shapes i =>
           match i with
           | Some d => shapes ++ [SInt (Z.of_nat d)]
           | None => shapes ++ [SNone]
           end) acc s
  = acc ++ map dim_scalar s.
Proof.
  revert acc. induction s as [|d s IH]; intros acc; simpl.
  - by rewrite app_nil_r.
  - rewrite IH. destruct d; simpl; by rewrite <- app_assoc.
Qed.

(** C9, as amended: the shape lowering constant-folds on every input value
    of known rank, a compile-time array or a graph tensor with a static
    shape: it writes an array with one cell per axis, holding the static
    dimension of the axis, or [None] where that is not known. *)
Theorem shape_constant_folds :
  ∀ st n node_name keras_name name0 v s,
    input n !! 0%nat = Some name0 →
    layers st !! name0 = Some v →
    value_shape v = Ok s →
    ∃ st' a,
      convert_shape n node_name keras_name st = (st', Ok tt)
      ∧ layers st' = <[node_name := Constant a]> (layers st)
      ∧ nd_shape a = [length s]
      ∧ nd_data a
        = map (fun d => match d with Some k => SInt (Z.of_nat k) | None => SNone end) s.
Proof.
  intros st n node_name keras_name name0 v s Hi0 Hv Hs.
  eexists _, _. split.
  - unfold convert_shape. do 2 step. step. cbn [debug emit].
    step. unfold lift at 1. rewrite dims_ensure_tf_type, Hs.
    step. cbn [emit]. reflexivity.
  - cbn [layers]. rewrite shapes_loop. split; [reflexivity|].
    unfold np.array. simpl. rewrite length_map. done.
Qed.

Lemma shape_constant_folds_witness :
  ∃ st' a,
    convert_shape (Node ["x"]) "out" "shape_1" shape_state = (st', Ok tt)
    ∧ layers st' = <["out" := Constant a]> (layers shape_state)
    ∧ nd_shape a = [length [None; Some 3; Some 4; Some 4]%nat]
    ∧ nd_data a
      = map (fun d => match d with Some k => SInt (Z.of_nat k) | None => SNone end)
          [None; Some 3; Some 4; Some 4]%nat.
Proof.
  apply (shape_constant_folds shape_state (Node ["x"]) "out" "shape_1" "x"
           (Symbolic feature_map)); reflexivity.
Defined.

(** C9, as stated, fails: a graph tensor need not have a rank.  The tensor
    [convert_squeeze] writes for an input of shape [(None, 1, 3)] and no axes
    has none, and the shape lowering of it raises and writes no entry. *)
Lemma shape_of_unknown_rank_raises :
  snd (convert_squeeze (Node ["x"]) "squeezed" "squeeze_1" squeeze_state) = Ok tt
  ∧ match layers (fst (convert_squeeze (Node ["x"]) "squeezed" "squeeze_1" squeeze_state))
            !! "squeezed" with
    | Some (Symbolic t) => t_shape t = None
    | _ => False
    end
  ∧ snd (convert_shape (Node ["squeezed"]) "out" "shape_1"
           (fst (convert_squeeze (Node ["x"]) "squeezed" "squeeze_1" squeeze_state)))
    = Raise (ValueError "Cannot take the length of shape with unknown rank.")
  ∧ layers (fst (convert_shape (Node ["squeezed"]) "out" "shape_1"
                   (fst (convert_squeeze (Node ["x"]) "squeezed" "squeeze_1" squeeze_state))))
      !! "out"
    = None.
Proof. repeat split; reflexivity. Qed.

(** ** Squeeze *)

(** C7 fails on the code: for a node with more than one input the routine
    evaluates [assert AttributeError(..)], which asserts a true object and
    raises nothing; it runs as it does on the first input alone, emits the
    squeeze and writes the entry. *)
Theorem squeeze_extra_inputs_are_lowered :
  (∀ st name0 rest node_name keras_name,
     convert_squeeze (Node (name0 :: rest)) node_name keras_name st
     = convert_squeeze (Node [name0]) node_name keras_name st)
  ∧ length (input squeeze_node) = 2%nat
  ∧ snd (convert_squeeze squeeze_node "out" "squeeze_1" squeeze_state) = Ok tt
  ∧ emitted_prim
      <$> layers (fst (convert_squeeze squeeze_node "out" "squeeze_1" squeeze_state)) !! "out"
    = Some (Some (TfSqueeze None)).
Proof.
  split; [|repeat split; reflexivity].
  intros st name0 rest node_name keras_name.
  destruct rest; reflexivity.
Qed.

(** ** Unsqueeze *)




(** The attribute says axis 2, the second input says axis 0: the new axis is
    inserted at position 0. *)
Example unsqueeze_second_input_wins :
  layers (fst (convert_unsqueeze (Node ["x"; "axes"]) "out" "unsqueeze_1" unsqueeze_state))
    !! "out"
  = Some (Constant (NDArray int64 [1; 2; 2]%nat (map SInt [1; 2; 3; 4]))).
Proof. reflexivity. Qed.

(** ** Transpose *)







(** ** Slice *)






Lemma param_list_run st key l :
  params st !! key = Some (AInts l) → param_list key st = (st, Ok (map SInt l)).
Proof. intros H. unfold param_list. rewrite bind_run, (get_param_run _ _ _ H). reflexivity. Qed.

Lemma param_steps_default_run st axes :
  params st !! "steps" = None → param_steps axes st = (st, Ok (replicate (length axes) SNone)).
Proof. intros H. unfold param_steps. by rewrite H. Qed.

Lemma has_param_run st key a :
  params st !! key = Some a → has_param key st = (st, Ok true).
Proof.
  intros H. unfold has_param. rewrite H. by rewrite bool_decide_eq_true_2.
Qed.





(** ** The Environment is only written under the node's own identifier *)

Section frame.
Context (node_name : string).

Lemma preserves_bind {P A B} (proj : state → P) (m : M A) (f : A → M B) :
  preserves proj m → (∀ a, preserves proj (f a)) → preserves proj (m ≫= f).
Proof.
  intros Hm Hf st. rewrite bind_run. specialize (Hm st).
  destruct (m st) as [st' [a|e]]; simpl in *; [|done].
  by rewrite Hf.
Qed.

Lemma pure_preserves {P A} (proj : state → P) (m : M A) : pure m → preserves proj m.
Proof. intros H st. by rewrite H. Qed.

Lemma pure_bind {A B} (m : M A) (f : A → M B) :
  pure m → (∀ a, pure (f a)) → pure (m ≫= f).
Proof. apply (preserves_bind id). Qed.

Lemma pure_ret {A} (a : A) : pure (mret a).
Proof. done. Qed.
Lemma pure_raise {A} e : pure (@raise A e).
Proof. done. Qed.
Lemma pure_lift {A} (r : result A) : pure (lift r).
Proof. done. Qed.
Lemma pure_get_layer name : pure (get_layer name).
Proof. intros st. unfold get_layer. by destruct (layers st !! name). Qed.
Lemma pure_get_layer_sliced k name : pure (get_layer_sliced k name).
Proof. done. Qed.
Lemma pure_get_param key : pure (get_param key).
Proof. intros st. unfold get_param. by destruct (params st !! key). Qed.
Lemma pure_has_param key : pure (has_param key).
Proof. done. Qed.
Lemma pure_param_steps axes : pure (param_steps axes).
Proof. intros st. unfold param_steps. by destruct (params st !! "steps"). Qed.
Lemma pure_node_input n i : pure (node_input n i).
Proof. unfold node_input. by destruct (input n !! i). Qed.
Lemma pure_py_assert b : pure (py_assert b).
Proof. by destruct b. Qed.

Lemma pure_except {A} (body handler : M A) :
  pure body → pure handler → pure (except_IndexError body handler).
Proof.
  intros Hb Hh st. unfold except_IndexError. specialize (Hb st).
  destruct (body st) as [st' [a|[]]]; simpl in *; try done.
  subst st'. apply Hh.
Qed.

Lemma pure_get_layers names : pure (get_layers names).
Proof.
  induction names as [|name names IH]; [done|]. simpl.
  apply pure_bind; [apply pure_get_layer|]. intros v.
  apply pure_bind; [done|]. intros vs. apply pure_ret.
Qed.

Lemma preserves_emit {P} (proj : gmap string Value → P) logger lv msg :
  preserves (fun st => proj (layers st)) (emit logger lv msg).
Proof. done. Qed.
Lemma preserves_set_lambda {P} (proj : gmap string Value → P) name f :
  preserves (fun st => proj (layers st)) (set_lambda name f).
Proof. done. Qed.
Lemma preserves_set_param {P} (proj : gmap string Value → P) key a :
  preserves (fun st => proj (layers st)) (set_param key a).
Proof. done. Qed.

Lemma preserves_set_layer key v :
  key ≠ node_name → preserves (fun st => layers st !! key) (set_layer node_name v).
Proof. intros Hne st. simpl. by rewrite lookup_insert_ne. Qed.

Lemma writes_bind {A B} (m : M A) (f : A → M B) :
  (∀ a, writes node_name (f a)) → writes node_name (m ≫= f).
Proof.
  intros Hf st st' b. rewrite bind_run.
  destruct (m st) as [st1 [a|e]]; [apply Hf|discriminate].
Qed.

Lemma writes_raise {A} e : writes node_name (@raise A e).
Proof. intros st st' a. discriminate. Qed.

Lemma writes_set_layer v : writes node_name (set_layer node_name v).
Proof. intros st st' a [= <- _]. simpl. rewrite lookup_insert_eq. by eexists. Qed.

Lemma writes_then {A B} (m : M A) (f : A → M B) :
  writes node_name m → (∀ a, keeps node_name (f a)) → writes node_name (m ≫= f).
Proof.
  intros Hm Hf st st' b. rewrite bind_run.
  destruct (m st) as [st1 [a|e]] eqn:E; [|discriminate].
  apply Hf. by eapply Hm.
Qed.

Lemma keeps_bind {A B} (m : M A) (f : A → M B) :
  keeps node_name m → (∀ a, keeps node_name (f a)) → keeps node_name (m ≫= f).
Proof.
  intros Hm Hf st st' b Hst. rewrite bind_run.
  destruct (m st) as [st1 [a|e]] eqn:E; [|discriminate].
  apply Hf. by eapply Hm.
Qed.

Lemma pure_keeps {A} (m : M A) : pure m → keeps node_name m.
Proof. intros H st st' a Hst E. specialize (H st). rewrite E in H. simpl in H. by subst. Qed.

Lemma writes_keeps {A} (m : M A) : writes node_name m → keeps node_name m.
Proof. intros H st st' a _. apply H. Qed.

End frame.

Create HintDb lowering discriminated.
#[export] Hint Resolve pure_ret pure_raise pure_lift pure_get_layer pure_get_layer_sliced
  pure_get_param pure_has_param pure_param_steps pure_node_input pure_py_assert
  pure_get_layers : lowering.
#[export] Hint Resolve preserves_emit preserves_set_lambda preserves_set_param
  writes_raise writes_set_layer : lowering.

(** Walk a routine statement by statement, splitting on every test, and close
    each statement with the lemmas above. *)
Ltac walk bind_lemma :=
  repeat first
    [ progress intros
    | apply bind_lemma
    | match goal with
      | |- _ _ (match ?x with _ => _ end) => destruct x
      | |- _ (match ?x with _ => _ end) => destruct x
      end
    | solve [eauto with lowering]
    | apply pure_preserves; solve [eauto with lowering]
    | apply pure_except ].

Lemma pure_param_list key : pure (param_list key).
Proof. unfold param_list. walk @pure_bind. Qed.

Lemma pure_input_list n i : pure (input_list n i).
Proof. unfold input_list. walk @pure_bind. Qed.

Lemma pure_index_by data idx : pure (index_by data idx).
Proof. unfold index_by. walk @pure_bind. Qed.

Lemma pure_optional_layer {A} name (absent : A) present :
  pure (optional_layer name absent present).
Proof. unfold optional_layer. walk @pure_bind. Qed.

#[export] Hint Resolve pure_param_list pure_input_list pure_index_by pure_optional_layer
  : lowering.

Section frame_routines.
Context (n : node) (node_name keras_name key : string) (Hkey : key ≠ node_name).

Local Abbreviation frame m := (preserves (fun st => layers st !! key) m).

Local Ltac frame_walk :=
  unfold debug, warning;
  repeat first
    [ progress intros
    | apply preserves_bind
    | apply preserves_set_layer; assumption
    | match goal with
      | |- preserves _ (match ?x with _ => _ end) => destruct x
      end
    | solve [eauto with lowering]
    | apply pure_preserves; solve [eauto with lowering]
    | apply pure_preserves, pure_except; solve [eauto with lowering] ].

Lemma convert_transpose_frame : frame (convert_transpose n node_name keras_name).
Proof. unfold convert_transpose. frame_walk. Qed.

Lemma convert_shape_frame : frame (convert_shape n node_name keras_name).
Proof. unfold convert_shape. frame_walk. Qed.

Lemma convert_gather_frame : frame (convert_gather n node_name keras_name).
Proof. unfold convert_gather. frame_walk. Qed.

Lemma convert_concat_frame : frame (convert_concat n node_name keras_name).
Proof. unfold convert_concat. frame_walk. Qed.

Lemma convert_reshape_frame : frame (convert_reshape n node_name keras_name).
Proof. unfold convert_reshape. frame_walk. Qed.

Lemma unsqueeze_loop_frame (cells : list scalar) :
  frame (foldr (fun axis rest =>
                  cur ← get_layer node_name;
                  r ← lift (match cur with
                            | Constant a => (let? ax := axis_of axis in np.expand_dims a ax)%res
                            | Symbolic _ => Raise (Unmodelled "not reached: the entry is an array")
                            end);
                  set_layer node_name (Constant r);;
                  rest) (mret tt) cells).
Proof. induction cells as [|c cells IH]; simpl; frame_walk. Qed.

Lemma convert_unsqueeze_frame : frame (convert_unsqueeze n node_name keras_name).
Proof.
  unfold convert_unsqueeze.
  pose proof unsqueeze_loop_frame. frame_walk.
Qed.

Lemma convert_flatten_frame : frame (convert_flatten n node_name keras_name).
Proof. unfold convert_flatten. frame_walk. Qed.

Lemma convert_slice_frame : frame (convert_slice n node_name keras_name).
Proof. unfold convert_slice. frame_walk. Qed.

Lemma convert_squeeze_frame : frame (convert_squeeze n node_name keras_name).
Proof. unfold convert_squeeze. frame_walk. Qed.

Lemma convert_resize_frame : frame (convert_resize n node_name keras_name).
Proof. unfold convert_resize. frame_walk. Qed.

Lemma convert_expand_frame : frame (convert_expand n node_name keras_name).
Proof. unfold convert_expand. frame_walk. Qed.

Lemma convert_tile_frame : frame (convert_tile n node_name keras_name).
Proof. unfold convert_tile. frame_walk. Qed.

End frame_routines.

Section writes_routines.
Context (n : node) (node_name keras_name : string).

Local Ltac writes_walk :=
  repeat first
    [ progress intros
    | solve [eauto with lowering]
    | apply writes_bind
    | match goal with
      | |- writes _ (match ?x with _ => _ end) => destruct x
      end ].

Lemma convert_transpose_writes : writes node_name (convert_transpose n node_name keras_name).
Proof. unfold convert_transpose. writes_walk. Qed.

Lemma convert_shape_writes : writes node_name (convert_shape n node_name keras_name).
Proof. unfold convert_shape. writes_walk. Qed.

Lemma convert_gather_writes : writes node_name (convert_gather n node_name keras_name).
Proof. unfold convert_gather. writes_walk. Qed.

Lemma convert_concat_writes : writes node_name (convert_concat n node_name keras_name).
Proof. unfold convert_concat. writes_walk. Qed.

Lemma convert_reshape_writes : writes node_name (convert_reshape n node_name keras_name).
Proof. unfold convert_reshape. writes_walk. Qed.

Lemma unsqueeze_loop_keeps (cells : list scalar) :
  keeps node_name
    (foldr (fun axis rest =>
              cur ← get_layer node_name;
              r ← lift (match cur with
                        | Constant a => (let? ax := axis_of axis in np.expand_dims a ax)%res
                        | Symbolic _ => Raise (Unmodelled "not reached: the entry is an array")
                        end);
              set_layer node_name (Constant r);;
              rest) (mret tt) cells).
Proof.
  induction cells as [|c cells IH]; simpl.
  - apply pure_keeps, pure_ret.
  - apply keeps_bind; [apply pure_keeps, pure_get_layer|]. intros cur.
    apply keeps_bind; [apply pure_keeps, pure_lift|]. intros r.
    apply keeps_bind; [apply writes_keeps, writes_set_layer|]. intros _. apply IH.
Qed.

Lemma convert_unsqueeze_writes : writes node_name (convert_unsqueeze n node_name keras_name).
Proof.
  unfold convert_unsqueeze.
  apply writes_bind. intros _. apply writes_bind. intros name0.
  apply writes_bind. intros v0. destruct (is_numpy v0).
  - apply writes_bind. intros _. apply writes_bind. intros v.
    apply writes_then; [apply writes_set_layer|]. intros _.
    apply keeps_bind; [apply pure_keeps, pure_get_param|]. intros axes.
    apply keeps_bind; [apply pure_keeps, pure_lift|]. intros cells.
    apply unsqueeze_loop_keeps.
  - writes_walk.
Qed.

Lemma convert_flatten_writes : writes node_name (convert_flatten n node_name keras_name).
Proof. unfold convert_flatten. writes_walk. Qed.

Lemma convert_slice_writes : writes node_name (convert_slice n node_name keras_name).
Proof. unfold convert_slice. writes_walk. Qed.

Lemma convert_squeeze_writes : writes node_name (convert_squeeze n node_name keras_name).
Proof. unfold convert_squeeze. writes_walk. Qed.

Lemma convert_resize_writes : writes node_name (convert_resize n node_name keras_name).
Proof. unfold convert_resize. writes_walk. Qed.

Lemma convert_expand_writes : writes node_name (convert_expand n node_name keras_name).
Proof. unfold convert_expand. writes_walk. Qed.

Lemma convert_tile_writes : writes node_name (convert_tile n node_name keras_name).
Proof. unfold convert_tile. writes_walk. Qed.

End writes_routines.

(** Whatever the outcome, a lowering routine leaves every entry but the
    node's own as it was. *)
Lemma lowering_frame_always op n node_name keras_name key :
  key ≠ node_name →
  preserves (fun st => layers st !! key) (lowering op n node_name keras_name).
Proof.
  intros Hkey. destruct op; simpl;
    eauto using convert_transpose_frame, convert_shape_frame, convert_gather_frame,
      convert_concat_frame, convert_reshape_frame, convert_unsqueeze_frame,
      convert_flatten_frame, convert_slice_frame, convert_squeeze_frame,
      convert_resize_frame, convert_expand_frame, convert_tile_frame.
Qed.

Lemma lowering_writes op n node_name keras_name :
  writes node_name (lowering op n node_name keras_name).
Proof.
  destruct op; simpl;
    eauto using convert_transpose_writes, convert_shape_writes, convert_gather_writes,
      convert_concat_writes, convert_reshape_writes, convert_unsqueeze_writes,
      convert_flatten_writes, convert_slice_writes, convert_squeeze_writes,
      convert_resize_writes, convert_expand_writes, convert_tile_writes.
Qed.

(** C8, as amended: when a lowering routine completes, every key other than
    the node's own identifier maps to what it mapped to before the call (so
    every such key that was present is still present, with the same value),
    and the node's identifier is bound. *)
Theorem lowering_writes_only_its_node :
  ∀ op n node_name keras_name st st',
    lowering op n node_name keras_name st = (st', Ok tt) →
    (∀ key, key ≠ node_name → layers st' !! key = layers st !! key)
    ∧ is_Some (layers st' !! node_name).
Proof.
  intros op n node_name keras_name st st' Hrun. split.
  - intros key Hkey.
    pose proof (lowering_frame_always op n node_name keras_name key Hkey st) as H.
    by rewrite Hrun in H.
  - by eapply lowering_writes.
Qed.

Lemma lowering_writes_only_its_node_witness :
  (∀ key, key ≠ "out" →
     layers (fst (lowering Shape (Node ["x"]) "out" "shape_1" shape_state)) !! key
     = layers shape_state !! key)
  ∧ is_Some (layers (fst (lowering Shape (Node ["x"]) "out" "shape_1" shape_state)) !! "out").
Proof.
  apply (lowering_writes_only_its_node Shape (Node ["x"]) "out" "shape_1" shape_state).
  reflexivity.
Defined.

(** C8, as stated, fails: a node whose identifier is already bound in the
    Environment has its entry replaced. *)
Lemma lowering_overwrites_its_node :
  snd (lowering Shape (Node ["x"]) "x" "shape_1" shape_state) = Ok tt
  ∧ ∃ v, layers shape_state !! "x" = Some v
         ∧ layers (fst (lowering Shape (Node ["x"]) "x" "shape_1" shape_state)) !! "x"
           ≠ Some v.
Proof.
  split; [reflexivity|].
  exists (Symbolic feature_map). split; [reflexivity|].
  vm_compute. discriminate.
Qed.

(** * Further properties of the routines *)

(** ** The side tables *)

Lemma preserves_layers_emit logger lv msg : preserves layers (emit logger lv msg).
Proof. done. Qed.
Lemma preserves_layers_set_lambda name f : preserves layers (set_lambda name f).
Proof. done. Qed.
Lemma preserves_layers_set_param key a : preserves layers (set_param key a).
Proof. done. Qed.

Lemma preserves_lambda_emit {P} (proj : gmap string closure → P) logger lv msg :
  preserves (fun st => proj (lambda_func st)) (emit logger lv msg).
Proof. done. Qed.
Lemma preserves_lambda_set_layer {P} (proj : gmap string closure → P) name v :
  preserves (fun st => proj (lambda_func st)) (set_layer name v).
Proof. done. Qed.
Lemma preserves_lambda_set_param {P} (proj : gmap string closure → P) key a :
  preserves (fun st => proj (lambda_func st)) (set_param key a).
Proof. done. Qed.
Lemma preserves_lambda_set_lambda key name f :
  key ≠ name → preserves (fun st => lambda_func st !! key) (set_lambda name f).
Proof. intros Hne st. simpl. by rewrite lookup_insert_ne. Qed.

Lemma preserves_params_emit {P} (proj : gmap string attr → P) logger lv msg :
  preserves (fun st => proj (params st)) (emit logger lv msg).
Proof. done. Qed.
Lemma preserves_params_set_layer {P} (proj : gmap string attr → P) name v :
  preserves (fun st => proj (params st)) (set_layer name v).
Proof. done. Qed.
Lemma preserves_params_set_lambda {P} (proj : gmap string attr → P) name f :
  preserves (fun st => proj (params st)) (set_lambda name f).
Proof. done. Qed.
Lemma preserves_params_set_param key name a :
  key ≠ name → preserves (fun st => params st !! key) (set_param name a).
Proof. intros Hne st. simpl. by rewrite lookup_insert_ne. Qed.

Create HintDb side_tables discriminated.
#[export] Hint Resolve preserves_layers_emit preserves_layers_set_lambda
  preserves_layers_set_param preserves_lambda_emit preserves_lambda_set_layer
  preserves_lambda_set_param preserves_params_emit preserves_params_set_layer
  preserves_params_set_lambda : side_tables.

(** Walk a routine as [walk] does, for a part of the state other than the
    Environment. *)
Ltac side_walk :=
  unfold debug, warning;
  repeat first
    [ progress intros
    | apply preserves_bind
    | match goal with
      | |- preserves _ (match ?x with _ => _ end) => destruct x
      end
    | solve [eauto with side_tables]
    | apply preserves_lambda_set_lambda; assumption
    | apply preserves_params_set_param; assumption
    | apply pure_preserves; solve [eauto with lowering]
    | apply pure_preserves, pure_except; solve [eauto with lowering] ].

Lemma unsqueeze_loop_side {P} (proj : state → P) node_name (cells : list scalar) :
  (∀ v, preserves proj (set_layer node_name v)) →
  preserves proj
    (foldr (fun axis rest =>
              cur ← get_layer node_name;
              r ← lift (match cur with
                        | Constant a => (let? ax := axis_of axis in np.expand_dims a ax)%res
                        | Symbolic _ => Raise (Unmodelled "not reached: the entry is an array")
                        end);
              set_layer node_name (Constant r);;
              rest) (mret tt) cells).
Proof.
  intros Hset. induction cells as [|c cells IH]; simpl.
  - apply pure_preserves, pure_ret.
  - apply preserves_bind; [apply pure_preserves, pure_get_layer|]. intros cur.
    apply preserves_bind; [apply pure_preserves, pure_lift|]. intros r.
    apply preserves_bind; [apply Hset|]. intros _. apply IH.
Qed.

(** Only [convert_reshape] records a closure, and only under the display
    name of its node: every other key of [lambda_func], and the whole table
    under every other routine, is as it was, whatever the outcome. *)
Theorem lambda_func_written_by_reshape_only :
  ∀ op n node_name keras_name key st,
    op ≠ Reshape ∨ key ≠ keras_name →
    lambda_func (fst (lowering op n node_name keras_name st)) !! key = lambda_func st !! key.
Proof.
  intros op n node_name keras_name key st Hcase.
  revert st.
  change (preserves (fun st => lambda_func st !! key) (lowering op n node_name keras_name)).
  pose proof (unsqueeze_loop_side (fun st => lambda_func st !! key) node_name) as Hloop.
  destruct op; simpl;
    try (unfold convert_transpose, convert_shape, convert_gather, convert_concat,
           convert_unsqueeze, convert_flatten, convert_slice, convert_squeeze,
           convert_resize, convert_expand, convert_tile; side_walk; fail).
  destruct Hcase as [?|Hkey]; [done|]. unfold convert_reshape. side_walk.
Qed.

Lemma lambda_func_written_by_reshape_only_witness :
  lambda_func (fst (lowering Reshape reshape_node "out" "reshape_1" reshape_state)) !! "other"
  = lambda_func reshape_state !! "other".
Proof.
  apply (lambda_func_written_by_reshape_only Reshape reshape_node "out" "reshape_1" "other"
           reshape_state).
  right. discriminate.
Defined.

(** Only [convert_unsqueeze] writes the attribute dictionary, and only its
    key [axes]: every other attribute, and the whole dictionary under every
    other routine, is as it was, whatever the outcome. *)
Theorem params_written_by_unsqueeze_only :
  ∀ op n node_name keras_name key st,
    op ≠ Unsqueeze ∨ key ≠ "axes" →
    params (fst (lowering op n node_name keras_name st)) !! key = params st !! key.
Proof.
  intros op n node_name keras_name key st Hcase.
  revert st.
  change (preserves (fun st => params st !! key) (lowering op n node_name keras_name)).
  pose proof (unsqueeze_loop_side (fun st => params st !! key) node_name) as Hloop.
  destruct op; simpl;
    try (unfold convert_transpose, convert_shape, convert_gather, convert_concat,
           convert_reshape, convert_flatten, convert_slice, convert_squeeze,
           convert_resize, convert_expand, convert_tile; side_walk; fail).
  destruct Hcase as [?|Hkey]; [done|].
  unfold convert_unsqueeze. side_walk.
Qed.

Lemma params_written_by_unsqueeze_only_witness :
  params (fst (lowering Unsqueeze (Node ["x"; "axes"]) "out" "unsqueeze_1" unsqueeze_state))
    !! "perm"
  = params unsqueeze_state !! "perm".
Proof.
  apply (params_written_by_unsqueeze_only Unsqueeze (Node ["x"; "axes"]) "out" "unsqueeze_1"
           "perm" unsqueeze_state).
  right. discriminate.
Defined.

(** ** Failure and the Environment *)

Lemma atomic_bind {A B} (m : M A) (f : A → M B) :
  preserves layers m → (∀ a, atomic (f a)) → atomic (m ≫= f).
Proof.
  intros Hm Hf st st' e. rewrite bind_run. specialize (Hm st).
  destruct (m st) as [st1 [a|e1]]; simpl in Hm.
  - intros Hrun. apply Hf in Hrun. congruence.
  - intros [= <- _]. done.
Qed.

Lemma atomic_raise {A} e : atomic (@raise A e).
Proof. by intros st st' e' [= <- _]. Qed.

Lemma atomic_set_layer name v : atomic (set_layer name v).
Proof. intros st st' e. discriminate. Qed.

Lemma pure_atomic {A} (m : M A) : pure m → atomic m.
Proof. intros H st st' e Hrun. specialize (H st). rewrite Hrun in H. simpl in H. by subst. Qed.

(** A statement that leaves the Environment alone. *)
Ltac quiet :=
  unfold debug, warning;
  repeat first
    [ progress intros
    | apply preserves_bind
    | match goal with
      | |- preserves _ (match ?x with _ => _ end) => destruct x
      end
    | solve [eauto with side_tables]
    | apply pure_preserves; solve [eauto with lowering]
    | apply pure_preserves, pure_except; solve [eauto with lowering] ].

(** A routine whose statements leave the Environment alone up to a last
    write. *)
Ltac atomic_walk :=
  unfold debug, warning;
  repeat first
    [ progress intros
    | apply atomic_raise
    | apply atomic_set_layer
    | apply atomic_bind; [solve [quiet]|]
    | match goal with
      | |- atomic (match ?x with _ => _ end) => destruct x
      end
    | apply pure_atomic; solve [eauto with lowering] ].

(** Apart from [convert_reshape] and [convert_unsqueeze], a routine that
    raises has written nothing: the Environment is as it was before the
    call. *)
Theorem failure_leaves_environment :
  ∀ op n node_name keras_name st st' e,
    writes_last op = true →
    lowering op n node_name keras_name st = (st', Raise e) →
    layers st' = layers st.
Proof.
  intros op n node_name keras_name st st' e Hop.
  revert st st' e. change (atomic (lowering op n node_name keras_name)).
  destruct op; try discriminate Hop; simpl;
    unfold convert_transpose, convert_shape, convert_gather, convert_concat,
      convert_flatten, convert_slice, convert_squeeze, convert_resize, convert_expand,
      convert_tile;
    atomic_walk.
Qed.

Lemma failure_leaves_environment_witness :
  layers (fst (lowering Gather gather_node "out" "gather_1" (gather_arrays_state 4)))
  = layers (gather_arrays_state 4).
Proof.
  apply (failure_leaves_environment Gather gather_node "out" "gather_1" (gather_arrays_state 4)
           _ (AttributeError "Can't gather by axis more than 3.")); reflexivity.
Defined.

(** [convert_unsqueeze] is not of that kind: on a compile-time array it binds
    the node to the array before it reads the attribute [axes], so that a
    node without the attribute raises [KeyError] and leaves the Environment
    with the node bound to the array it was to unsqueeze. *)
Theorem unsqueeze_without_axes_binds_the_input :
  ∀ st name0 node_name keras_name a,
    layers st !! name0 = Some (Constant a) →
    params st !! "axes" = None →
    ∃ st',
      convert_unsqueeze (Node [name0]) node_name keras_name st = (st', Raise (KeyError "axes"))
      ∧ layers st' = <[node_name := Constant a]> (layers st).
Proof.
  intros st name0 node_name keras_name a Ha Hax.
  eexists. unfold convert_unsqueeze. cbn [input length Nat.eqb negb].
  split.
  - step. unfold mret at 1, M_ret. cbv beta iota.
    step. unfold node_input at 1. cbn [input lookup list_lookup]. unfold mret at 1, M_ret.
    cbv beta iota. step. cbn [is_numpy].
    step. cbn [debug emit]. step. step. cbn [set_layer].
    rewrite bind_run. unfold get_param at 1. cbn [params]. rewrite Hax. reflexivity.
  - reflexivity.
Qed.

Lemma unsqueeze_without_axes_binds_the_input_witness :
  ∃ st',
    convert_unsqueeze (Node ["x"]) "out" "unsqueeze_1" unsqueeze_no_axes_state
    = (st', Raise (KeyError "axes"))
    ∧ layers st' = <["out" := Constant matrix_2x2]> (layers unsqueeze_no_axes_state).
Proof.
  apply (unsqueeze_without_axes_binds_the_input unsqueeze_no_axes_state "x" "out"
           "unsqueeze_1" matrix_2x2); reflexivity.
Defined.

(** ** Reshape of compile-time arrays *)

Lemma wrap32_id z : - 2 ^ 31 ≤ z < 2 ^ 31 → wrap32 z = z.
Proof. intros H. unfold wrap32. rewrite Z.mod_small; lia. Qed.

Lemma int32_cells_id (t : list Z) :
  fits_int32 t → rmap np.int32_cell (map SInt t) = Ok (map SInt t).
Proof.
  induction 1 as [|z t Hz _ IH]; [reflexivity|].
  simpl. rewrite IH. simpl. by rewrite wrap32_id.
Qed.

Lemma scalar_ints (t : list Z) : rmap scalar_int (map SInt t) = Ok t.
Proof. induction t as [|z t IH]; [reflexivity|]. simpl. by rewrite IH. Qed.

Lemma size_cons (d : nat) (s : list nat) : np.size (d :: s) = (d * np.size s)%nat.
Proof. reflexivity. Qed.


(** The dimensions [np.reshape] settles on hold as many cells as the array
    has. *)
Lemma resolve_shape_size total (t : list Z) (s : list nat) :
  np.resolve_shape total t = Ok s → np.size s = total.
Proof.
  unfold np.resolve_shape.
  destruct (Nat.ltb 1 (length (filter (fun d => d < 0) t))) eqn:Hmany; [discriminate|].
  apply Nat.ltb_ge in Hmany.
  set (known := fold_right Z.mul 1 (filter (fun d => 0 ≤ d) t)).
  (* the size of the resolved shape, for a stand-in [w] of the wildcard *)
  assert (∀ w : nat,
            Z.of_nat (np.size (map (fun d => if d <? 0 then w else Z.to_nat d) t))
            = known * Z.of_nat w ^ Z.of_nat (length (filter (fun d => d < 0) t))) as Hsize.
  { intros w. subst known. clear Hmany.
    induction t as [|d t IH]; [reflexivity|].
    cbn [map]. rewrite size_cons, !filter_cons.
    rewrite Nat2Z.inj_mul, IH.
    destruct (Z.ltb_spec d 0); repeat case_decide; try lia.
    - cbn [length]. rewrite Nat2Z.inj_succ, Z.pow_succ_r by lia. lia.
    - cbn [fold_right]. rewrite Z2Nat.id by lia. lia. }
  destruct (Nat.eqb (length (filter (fun d => d < 0) t)) 1) eqn:Hone.
  - apply Nat.eqb_eq in Hone.
    destruct ((known =? 0) || negb (Z.of_nat total mod known =? 0)) eqn:Hdiv; [discriminate|].
    apply orb_false_elim in Hdiv as [Hk Hm].
    apply Z.eqb_neq in Hk. apply negb_false_iff, Z.eqb_eq in Hm.
    intros [= <-]. apply Nat2Z.inj.
    assert (0 ≤ known) as Hpos.
    { subst known. clear. induction t as [|d t IH]; simpl; [lia|].
      rewrite filter_cons. destruct (decide (0 ≤ d)); simpl; [|done]. nia. }
    rewrite Hsize, Hone, Z.pow_1_r.
    rewrite Z2Nat.id by (apply Z.div_pos; lia).
    apply Z.div_exact in Hm; lia.
  - destruct (known =? Z.of_nat total) eqn:Hk; [|discriminate].
    apply Z.eqb_eq in Hk. intros [= <-]. apply Nat2Z.inj.
    apply Nat.eqb_neq in Hone.
    assert (length (filter (fun d => d < 0) t) = 0%nat) as Hnone by lia.
    specialize (Hsize 0%nat). rewrite Hnone, Z.pow_0_r, Z.mul_1_r in Hsize.
    rewrite <- Hk, <- Hsize. f_equal. f_equal.
    apply map_ext. intros d.
    destruct (Z.ltb_spec d 0); [|done]. by destruct d.
Qed.

(** A run of [convert_reshape] over two compile-time arrays. *)
Lemma reshape_fold_run :
  ∀ st n node_name keras_name name0 name1 a0 t r,
    input n !! 0%nat = Some name0 →
    input n !! 1%nat = Some name1 →
    layers st !! name0 = Some (Constant a0) →
    layers st !! name1 = Some (Constant (int_vector t)) →
    fits_int32 t →
    np.reshape a0 t = Ok r →
    ∃ st',
      convert_reshape n node_name keras_name st = (st', Ok tt)
      ∧ layers st' = <[node_name := Constant r]> (layers st)
      ∧ nd_data r = nd_data a0
      ∧ nd_dtype r = nd_dtype a0
      ∧ np.size (nd_shape r) = np.size (nd_shape a0).
Proof.
  intros st n node_name keras_name name0 name1 a0 t r Hi0 Hi1 H0 H1 Hfit Hr.
  eexists. split; [|split].
  - unfold convert_reshape. do 4 step. step. cbn [debug emit]. step. cbn [debug emit].
    step. unfold lift at 1, np.as_int32, int_vector. cbn [nd_data nd_shape rbind].
    rewrite (int32_cells_id _ Hfit). cbn [rbind nd_data np.ndim nd_shape length Nat.ltb Nat.leb].
    rewrite scalar_ints. cbn [rbind]. rewrite Hr. reflexivity.
  - reflexivity.
  - unfold np.reshape in Hr.
    destruct (np.resolve_shape _ t) as [s|] eqn:Hs; [|discriminate].
    injection Hr as <-. cbn [nd_data nd_dtype nd_shape].
    repeat split. by eapply resolve_shape_size.
Qed.

(** When both operands of a reshape are compile-time arrays the routine
    folds: for every target NumPy accepts it writes an array with the cells
    of the source, in their order, under the new shape, and the new shape
    holds as many cells as the old one. *)
Theorem reshape_constant_folds :
  ∀ st n node_name keras_name name0 name1 a0 t r,
    input n !! 0%nat = Some name0 →
    input n !! 1%nat = Some name1 →
    layers st !! name0 = Some (Constant a0) →
    layers st !! name1 = Some (Constant (int_vector t)) →
    fits_int32 t →
    np.reshape a0 t = Ok r →
    ∃ st',
      convert_reshape n node_name keras_name st = (st', Ok tt)
      ∧ layers st' = <[node_name := Constant r]> (layers st)
      ∧ nd_data r = nd_data a0
      ∧ nd_dtype r = nd_dtype a0
      ∧ np.size (nd_shape r) = np.size (nd_shape a0).
Proof. apply reshape_fold_run. Qed.

Lemma reshape_constant_folds_witness :
  ∃ st',
    convert_reshape (Node ["x"; "there"]) "y" "reshape_1" round_trip_state = (st', Ok tt)
    ∧ layers st'
      = <["y" := Constant (NDArray int64 [2; 12]%nat (nd_data cube_2x3x4))]>
          (layers round_trip_state)
    ∧ nd_data (NDArray int64 [2; 12]%nat (nd_data cube_2x3x4)) = nd_data cube_2x3x4
    ∧ nd_dtype (NDArray int64 [2; 12]%nat (nd_data cube_2x3x4)) = nd_dtype cube_2x3x4
    ∧ np.size (nd_shape (NDArray int64 [2; 12]%nat (nd_data cube_2x3x4)))
      = np.size (nd_shape cube_2x3x4).
Proof.
  apply (reshape_constant_folds round_trip_state (Node ["x"; "there"]) "y" "reshape_1"
           "x" "there" cube_2x3x4 [2; 12]); try reflexivity.
  repeat constructor; lia.
Defined.

Lemma filter_of_nat_wild (s : list nat) : filter (fun d => d < 0) (map Z.of_nat s) = [].
Proof.
  induction s as [|d s IH]; [done|]. cbn [map]. rewrite filter_cons.
  case_decide; [lia|done].
Qed.

Lemma filter_of_nat_fixed (s : list nat) :
  filter (fun d => 0 ≤ d) (map Z.of_nat s) = map Z.of_nat s.
Proof.
  induction s as [|d s IH]; [done|]. cbn [map]. rewrite filter_cons.
  case_decide; [by rewrite IH|lia].
Qed.

Lemma product_of_nat (s : list nat) :
  fold_right Z.mul 1 (map Z.of_nat s) = Z.of_nat (np.size s).
Proof. induction s as [|d s IH]; [done|]. cbn [map fold_right]. rewrite IH, size_cons. lia. Qed.

(** NumPy accepts an array's own shape as a target, and settles on it. *)
Lemma resolve_own_shape total (s : list nat) :
  total = np.size s → np.resolve_shape total (map Z.of_nat s) = Ok s.
Proof.
  intros ->. unfold np.resolve_shape.
  rewrite filter_of_nat_wild, filter_of_nat_fixed, product_of_nat.
  cbn [length Nat.ltb Nat.leb Nat.eqb]. rewrite Z.eqb_refl.
  f_equal. rewrite map_map. rewrite <- (map_id s) at 2.
  apply map_ext. intros k. apply Nat2Z.id.
Qed.

(** Reshaping a compile-time array to its own shape is the identity: the
    entry written is the array itself. *)
Theorem reshape_to_own_shape :
  ∀ st n node_name keras_name name0 name1 a0,
    input n !! 0%nat = Some name0 →
    input n !! 1%nat = Some name1 →
    layers st !! name0 = Some (Constant a0) →
    layers st !! name1 = Some (Constant (shape_vector (nd_shape a0))) →
    fits_int32 (map Z.of_nat (nd_shape a0)) →
    ∃ st',
      convert_reshape n node_name keras_name st = (st', Ok tt)
      ∧ layers st' = <[node_name := Constant a0]> (layers st).
Proof.
  intros st n node_name keras_name name0 name1 a0 Hi0 Hi1 H0 H1 Hfit.
  destruct (reshape_fold_run st n node_name keras_name name0 name1 a0
              (map Z.of_nat (nd_shape a0)) a0 Hi0 Hi1 H0 H1 Hfit) as (st' & Hrun & Hl & _).
  - unfold np.reshape. rewrite resolve_own_shape by done. by destruct a0.
  - by exists st'.
Qed.

Lemma reshape_to_own_shape_witness :
  ∃ st',
    convert_reshape (Node ["x"; "back"]) "y" "reshape_1" round_trip_state = (st', Ok tt)
    ∧ layers st' = <["y" := Constant cube_2x3x4]> (layers round_trip_state).
Proof.
  apply (reshape_to_own_shape round_trip_state (Node ["x"; "back"]) "y" "reshape_1"
           "x" "back" cube_2x3x4); try reflexivity.
  repeat constructor; lia.
Defined.

(** Round trip: a compile-time array reshaped to any target NumPy accepts
    and then reshaped back to its own shape is the array again, cell for
    cell. *)
Theorem reshape_round_trip :
  ∀ st x there back y z keras_1 keras_2 a0 t r,
    layers st !! x = Some (Constant a0) →
    layers st !! there = Some (Constant (int_vector t)) →
    layers st !! back = Some (Constant (shape_vector (nd_shape a0))) →
    y ≠ back →
    fits_int32 t →
    fits_int32 (map Z.of_nat (nd_shape a0)) →
    np.reshape a0 t = Ok r →
    ∃ st1 st2,
      convert_reshape (Node [x; there]) y keras_1 st = (st1, Ok tt)
      ∧ layers st1 !! y = Some (Constant r)
      ∧ convert_reshape (Node [y; back]) z keras_2 st1 = (st2, Ok tt)
      ∧ layers st2 !! z = Some (Constant a0).
Proof.
  intros st x there back y z keras_1 keras_2 a0 t r Hx Ht Hb Hne Hfit Hfit0 Hr.
  destruct (reshape_fold_run st (Node [x; there]) y keras_1 x there a0 t r)
    as (st1 & Hrun1 & Hl1 & Hdata & Hdtype & Hsize); try done.
  assert (layers st1 !! y = Some (Constant r)) as Hy
    by (rewrite Hl1; apply lookup_insert_eq).
  assert (layers st1 !! back = Some (Constant (shape_vector (nd_shape a0)))) as Hb1
    by (rewrite Hl1, lookup_insert_ne; done).
  destruct (reshape_fold_run st1 (Node [y; back]) z keras_2 y back r
              (map Z.of_nat (nd_shape a0)) a0) as (st2 & Hrun2 & Hl2 & _); try done.
  - unfold np.reshape. rewrite resolve_own_shape by done.
    rewrite Hdata, Hdtype. by destruct a0.
  - exists st1, st2. repeat split; try done.
    rewrite Hl2. apply lookup_insert_eq.
Qed.

Lemma reshape_round_trip_witness :
  ∃ st1 st2,
    convert_reshape (Node ["x"; "there"]) "y" "reshape_1" round_trip_state = (st1, Ok tt)
    ∧ layers st1 !! "y" = Some (Constant (NDArray int64 [2; 12]%nat (nd_data cube_2x3x4)))
    ∧ convert_reshape (Node ["y"; "back"]) "z" "reshape_2" st1 = (st2, Ok tt)
    ∧ layers st2 !! "z" = Some (Constant cube_2x3x4).
Proof.
  apply (reshape_round_trip round_trip_state "x" "there" "back" "y" "z"
           "reshape_1" "reshape_2" cube_2x3x4 [2; 12]); try reflexivity.
  - discriminate.
  - repeat constructor; lia.
  - repeat constructor; lia.
Defined.

(** ** Reshape of graph tensors *)

Lemma argmin_total (l : list bool) : l ≠ [] → ∃ k, argmin l = Ok k.
Proof. destruct l; [done|]. by eexists. Qed.

Lemma array_eq_nonempty (l1 l2 : list scalar) :
  l1 ≠ [] → l2 ≠ [] → array_eq l1 l2 ≠ [].
Proof.
  intros H1 H2. unfold array_eq.
  destruct (length l1 =? length l2)%nat eqn:Hlen.
  - destruct l1, l2; done.
  - destruct l1 as [|x [|? ?]], l2 as [|y [|? ?]]; done.
Qed.

Lemma no_none_dims (s : list (option nat)) :
  Forall (fun d => d ≠ None) s → existsb is_none (map dim_scalar s) = false.
Proof.
  induction 1 as [|d s Hd _ IH]; [done|]. simpl. rewrite IH. by destruct d.
Qed.

(** With layout reordering disabled, a target [(c, -1)] over a graph tensor
    is lowered to a Keras [Flatten] whenever the run-folding guard does not
    hold (the first target cell is a number, or the source shape is fully
    known).  The first target cell plays no part: the batch axis of the
    source is kept as it is and the other axes are folded. *)
Theorem reshape_wildcard_tail_flattens :
  ∀ st n node_name keras_name name0 name1 x d0 rest a1 c0 co,
    input n !! 0%nat = Some name0 →
    input n !! 1%nat = Some name1 →
    layers st !! name0 = Some (Symbolic x) →
    t_shape x = Some (d0 :: rest) →
    layers st !! name1 = Some (Constant a1) →
    nd_shape a1 = [2%nat] →
    nd_data a1 = [c0; SInt (-1)] →
    params st !! "change_ordering" = Some co →
    attr_truth co = Ok false →
    c0 ≠ SNone ∨ Forall (fun d => d ≠ None) (d0 :: rest) →
    ∃ st',
      convert_reshape n node_name keras_name st = (st', Ok tt)
      ∧ layers st'
        = <[node_name := Symbolic (tf.node (KFlatten keras_name) [x]
                                     (Some [d0; known_size rest]))]> (layers st).
Proof.
  intros st n node_name keras_name name0 name1 x d0 rest a1 c0 co
    Hi0 Hi1 Hx Hs Ha Hsh Hd Hco Hf Hguard.
  assert (tf.dims x = Ok (d0 :: rest)) as Hdims by (unfold tf.dims; by rewrite Hs).
  destruct (argmin_total
              (array_eq (take (length [c0; SInt (-1)]) (map dim_scalar (d0 :: rest)))
                 [c0; SInt (-1)])) as [k Hk].
  { apply array_eq_nonempty; done. }
  assert (existsb is_none [c0; SInt (-1)] && existsb is_none (map dim_scalar (d0 :: rest))
          = false) as Hcond.
  { destruct Hguard as [Hc|Hknown].
    - by destruct c0.
    - rewrite (no_none_dims _ Hknown). apply andb_false_r. }
  eexists. split.
  - unfold convert_reshape. do 4 step. step. cbn [debug emit].
    step. step. unfold lift at 1. rewrite Hf.
    step. unfold ensure_tf_type.
    step. unfold lift at 1. rewrite Hdims.
    step. unfold lift at 1, vector. rewrite Hsh, Hd. cbv beta iota.
    step. unfold lift at 1. rewrite Hk. cbv beta iota.
    rewrite Hcond. cbn [andb].
    step. unfold mret at 1, M_ret. cbv beta iota.
    step. cbn [debug emit]. step. cbn [debug emit].
    step. unfold lift at 1.
    change (int32_tail [c0; SInt (-1)]) with (Ok [-1] : result (list Z)). cbv beta iota.
    step. cbn [emit].
    change (Nat.eqb (length [-1]) 1 && bool_decide ([-1] !! 0%nat = Some (-1))) with true.
    cbv beta iota.
    step. cbn [debug emit]. step. unfold lift at 1, tf.Flatten. rewrite Hdims.
    cbn [rbind]. reflexivity.
  - reflexivity.
Qed.

Lemma reshape_wildcard_tail_flattens_witness :
  ∃ st',
    convert_reshape reshape_node "out" "reshape_1" flatten_state = (st', Ok tt)
    ∧ layers st'
      = <["out" := Symbolic (tf.node (KFlatten "reshape_1") [image_batch]
                               (Some [Some 2%nat; known_size [Some 3; Some 4]%nat]))]>
          (layers flatten_state).
Proof.
  apply (reshape_wildcard_tail_flattens flatten_state reshape_node "out" "reshape_1"
           "x" "shape" image_batch (Some 2%nat) [Some 3; Some 4]%nat (int_vector [6; -1])
           (SInt 6) (ABool false)); try reflexivity.
  left. discriminate.
Defined.

Lemma no_none_ints (t : list Z) : existsb is_none (map SInt t) = false.
Proof. by induction t. Qed.

Lemma int32_tail_fits (t0 : Z) (tail_ : list Z) :
  fits_int32 (t0 :: tail_) → int32_tail (map SInt (t0 :: tail_)) = Ok tail_.
Proof.
  intros Hfit. unfold int32_tail. cbn [map tail].
  rewrite int32_cells_id by (by inversion Hfit). cbn [rbind]. apply scalar_ints.
Qed.

Lemma not_wildcard_tail (tail_ : list Z) :
  tail_ ≠ [-1] →
  Nat.eqb (length tail_) 1 && bool_decide (tail_ !! 0%nat = Some (-1)) = false.
Proof.
  intros Hne. destruct tail_ as [|z [|? ?]]; try done.
  simpl. apply bool_decide_eq_false_2. intros [= ->]. done.
Qed.

(** With layout reordering disabled and a target of numbers that is not of
    the form [(c, -1)], a graph tensor is reshaped by one of two primitives:
    the batch-preserving Keras [Reshape] over the target without its first
    cell when that cell equals the batch dimension of the source, and the
    unconstrained [tf.reshape] over the whole target when it does not (in
    particular whenever the batch dimension of the source is unknown).  The
    entry written is the node of that primitive; when the primitive refuses
    the target, its error is raised and nothing is written. *)
Theorem reshape_batch_dispatch :
  ∀ st n node_name keras_name name0 name1 x d0 rest t0 tail_ co,
    input n !! 0%nat = Some name0 →
    input n !! 1%nat = Some name1 →
    layers st !! name0 = Some (Symbolic x) →
    t_shape x = Some (d0 :: rest) →
    layers st !! name1 = Some (Constant (int_vector (t0 :: tail_))) →
    fits_int32 (t0 :: tail_) →
    tail_ ≠ [-1] →
    params st !! "change_ordering" = Some co →
    attr_truth co = Ok false →
    ∃ st',
      match reshape_primitive x d0 t0 tail_ keras_name with
      | Ok r =>
          convert_reshape n node_name keras_name st = (st', Ok tt)
          ∧ layers st' = <[node_name := Symbolic r]> (layers st)
      | Raise e =>
          convert_reshape n node_name keras_name st = (st', Raise e)
          ∧ layers st' = layers st
      end.
Proof.
  intros st n node_name keras_name name0 name1 x d0 rest t0 tail_ co
    Hi0 Hi1 Hx Hs Ha Hfit Htail Hco Hf.
  assert (tf.dims x = Ok (d0 :: rest)) as Hdims by (unfold tf.dims; by rewrite Hs).
  destruct (argmin_total
              (array_eq (take (length (map SInt (t0 :: tail_))) (map dim_scalar (d0 :: rest)))
                 (map SInt (t0 :: tail_)))) as [k Hk].
  { apply array_eq_nonempty; done. }
  assert (∃ st1,
            convert_reshape n node_name keras_name st
            = (r ← lift (reshape_primitive x d0 t0 tail_ keras_name);
               set_layer node_name (Symbolic r)) st1
            ∧ layers st1 = layers st) as (st1 & -> & Hl).
  { eexists. split.
    - unfold convert_reshape. do 4 step. step. cbn [debug emit].
      step. step. unfold lift at 1. rewrite Hf.
      step. unfold ensure_tf_type.
      step. unfold lift at 1. rewrite Hdims.
      step. unfold lift at 1, vector, int_vector. cbn [nd_shape nd_data]. cbv beta iota.
      step. unfold lift at 1. rewrite Hk. cbv beta iota.
      rewrite no_none_ints. cbn [andb].
      step. unfold mret at 1, M_ret. cbv beta iota.
      step. cbn [debug emit]. step. cbn [debug emit].
      step. unfold lift at 1. rewrite (int32_tail_fits _ _ Hfit). cbv beta iota.
      step. cbn [emit]. rewrite (not_wildcard_tail _ Htail). cbv beta iota.
      step. unfold lift at 1. cbn [lookup list_lookup index_error]. cbv beta iota.
      step. unfold lift at 1. cbn [map lookup list_lookup index_error]. cbv beta iota.
      unfold reshape_primitive, int_vector.
      destruct (scalar_eqb (dim_scalar d0) (SInt t0)); reflexivity.
    - reflexivity. }
  rewrite bind_run. unfold lift at 1.
  destruct (reshape_primitive x d0 t0 tail_ keras_name) as [r|e].
  - eexists. split; [reflexivity|]. simpl. by rewrite Hl.
  - eexists. split; [reflexivity|]. done.
Qed.

Lemma reshape_batch_dispatch_witness :
  ∃ st',
    match reshape_primitive image_batch (Some 2%nat) 6 [4] "reshape_1" with
    | Ok r =>
        convert_reshape reshape_node "out" "reshape_1" rebatch_state = (st', Ok tt)
        ∧ layers st' = <["out" := Symbolic r]> (layers rebatch_state)
    | Raise e =>
        convert_reshape reshape_node "out" "reshape_1" rebatch_state = (st', Raise e)
        ∧ layers st' = layers rebatch_state
    end.
Proof.
  apply (reshape_batch_dispatch rebatch_state reshape_node "out" "reshape_1" "x" "shape"
           image_batch (Some 2%nat) [Some 3; Some 4]%nat 6 [4] (ABool false));
    try reflexivity.
  - repeat constructor; lia.
  - discriminate.
Defined.

(** On the tensor of shape [(2, 3, 4)] and the target [(6, 4)] the batch
    sizes differ, and the node is a [tf.reshape] to [(6, 4)]. *)
Example reshape_rebatch :
  emitted_prim
    <$> layers (fst (convert_reshape reshape_node "out" "reshape_1" rebatch_state)) !! "out"
  = Some (Some (TfReshape [6; 4] "reshape_1")).
Proof. reflexivity. Qed.


Lemma resolve_wildcard (s : list (option nat)) :
  tf.resolve_target s [-1] = Ok [known_size s].
Proof.
  unfold tf.resolve_target.
  change (existsb (fun d => d <? -1) [-1]) with false.
  change (length (filter (fun d => d = -1) [-1])) with 1%nat.
  change (fold_right Z.mul 1 (filter (fun d => d ≠ -1) [-1])) with 1.
  cbn [Nat.ltb Nat.leb Nat.eqb map]. cbv iota.
  destruct (known_size s) as [total|]; [|reflexivity].
  rewrite Z.mod_1_r, Z.div_1_r, Nat2Z.id. reflexivity.
Qed.

(** Under layout reordering, the target [(None, -1)] over a channel-last
    feature map [(b, h, w, c)] is lowered in two nodes: a Lambda that moves
    the channels first, recorded in [lambda_func] under the display name of
    the node, and a Keras [Reshape] to [(-1)] on top of it; the five
    warnings are logged.  The result has shape [(b, c*h*w)]. *)
Theorem reshape_reordered_flatten :
  ∀ st n node_name keras_name name0 name1 x b h w c a1 co,
    input n !! 0%nat = Some name0 →
    input n !! 1%nat = Some name1 →
    layers st !! name0 = Some (Symbolic x) →
    t_shape x = Some [b; h; w; c] →
    layers st !! name1 = Some (Constant a1) →
    nd_shape a1 = [2%nat] →
    nd_data a1 = [SNone; SInt (-1)] →
    params st !! "change_ordering" = Some co →
    attr_truth co = Ok true →
    ∃ st',
      convert_reshape n node_name keras_name st = (st', Ok tt)
      ∧ layers st'
        = <[node_name :=
              Symbolic (tf.node (KReshape [-1] keras_name)
                          [tf.node (KLambda TransposeToCHW (keras_name +:+ "_CHW")) [x]
                             (Some [b; c; h; w])]
                          (Some [b; known_size [c; h; w]]))]> (layers st)
      ∧ lambda_func st' = <[keras_name := TransposeToCHW]> (lambda_func st)
      ∧ log st'
        = log st
          ++ LogRecord "onnx2keras.reshape" DEBUG (Text "The second argument is numpy array.")
          :: reorder_warnings.
Proof.
  intros st n node_name keras_name name0 name1 x b h w c a1 co
    Hi0 Hi1 Hx Hs Ha Hsh Hd Hco Hf.
  assert (tf.dims x = Ok [b; h; w; c]) as Hdims by (unfold tf.dims; by rewrite Hs).
  eexists. split; [|split; [|split]].
  - unfold convert_reshape. do 4 step. step. cbn [debug emit].
    step. step. unfold lift at 1. rewrite Hf.
    step. unfold ensure_tf_type.
    step. unfold lift at 1, vector. rewrite Hsh, Hd. cbv beta iota.
    step. unfold lift at 1. cbn [lookup list_lookup index_error]. cbv beta iota.
    cbn [is_none].
    step. rewrite bind_run. unfold lift at 1. cbn [lookup list_lookup index_error].
    cbv beta iota. unfold mret at 1, M_ret. cbv beta iota.
    change (scalar_eqb (SInt (-1)) (SInt (-1))) with true. cbv iota.
    step.
    do 5 (rewrite bind_run; cbn [warning emit layers lambda_func params log]; cbv beta iota).
    rewrite bind_run. unfold lift at 1, tf.Lambda. rewrite Hdims.
    cbn [rbind length Nat.eqb negb map lookup list_lookup default]. cbv beta iota.
    rewrite bind_run. cbn [set_layer set_lambda layers lambda_func params log].
    cbv beta iota.
    step. unfold lift at 1.
    change (int32_tail [SNone; SInt (-1)]) with (Ok [-1] : result (list Z)). cbv beta iota.
    step. unfold get_layer at 1. cbn [layers]. rewrite lookup_insert_eq. cbv beta iota.
    step. unfold lift at 1, tf.Reshape, tf.convert_to_tensor, tf.dims.
    unfold tf.node. cbn [t_shape rbind id]. rewrite resolve_wildcard.
    cbn [rbind set_layer layers lambda_func params log]. reflexivity.
  - cbn [layers]. by rewrite insert_insert_eq.
  - reflexivity.
  - cbn [log]. unfold reorder_warnings. cbn [map].
    repeat rewrite <- app_assoc. reflexivity.
Qed.

Lemma reshape_reordered_flatten_witness :
  ∃ st',
    convert_reshape reshape_node "out" "reshape_1" reordered_flatten_state = (st', Ok tt)
    ∧ layers st'
      = <["out" :=
            Symbolic (tf.node (KReshape [-1] "reshape_1")
                        [tf.node (KLambda TransposeToCHW ("reshape_1" +:+ "_CHW"))
                           [channel_last_map] (Some [None; Some 3; Some 4; Some 4]%nat)]
                        (Some [None; known_size [Some 3; Some 4; Some 4]%nat]))]>
          (layers reordered_flatten_state)
    ∧ lambda_func st' = <["reshape_1" := TransposeToCHW]> (lambda_func reordered_flatten_state)
    ∧ log st'
      = log reordered_flatten_state
        ++ LogRecord "onnx2keras.reshape" DEBUG (Text "The second argument is numpy array.")
        :: reorder_warnings.
Proof.
  apply (reshape_reordered_flatten reordered_flatten_state reshape_node "out" "reshape_1"
           "x" "shape" channel_last_map None (Some 4%nat) (Some 4%nat) (Some 3%nat)
           flatten_target (ABool true)); reflexivity.
Defined.

Lemma int32_cells_none (l : list scalar) :
  SNone ∈ l →
  rmap np.int32_cell l = Raise (TypeError "int() argument must be a number, not 'NoneType'").
Proof.
  induction l as [|c l IH]; [by intros ?%elem_of_nil|].
  intros Hin. destruct c as [z|m e|]; try reflexivity;
    (apply elem_of_cons in Hin as [?|Hin]; [done|]); simpl; by rewrite IH.
Qed.

(** [convert_reshape] under layout reordering binds the node before it
    converts the target: when the target holds a [None] after its first
    cell, the routine raises [TypeError] and leaves the node bound to the
    tensor it was to reshape. *)
Theorem reshape_reordered_failure_binds_the_input :
  ∀ st n node_name keras_name name0 name1 x a1 c0 rest co,
    input n !! 0%nat = Some name0 →
    input n !! 1%nat = Some name1 →
    layers st !! name0 = Some (Symbolic x) →
    layers st !! name1 = Some (Constant a1) →
    nd_shape a1 = [length (c0 :: rest)] →
    nd_data a1 = c0 :: rest →
    c0 ≠ SNone →
    SNone ∈ rest →
    params st !! "change_ordering" = Some co →
    attr_truth co = Ok true →
    ∃ st',
      convert_reshape n node_name keras_name st
      = (st', Raise (TypeError "int() argument must be a number, not 'NoneType'"))
      ∧ layers st' = <[node_name := Symbolic x]> (layers st).
Proof.
  intros st n node_name keras_name name0 name1 x a1 c0 rest co
    Hi0 Hi1 Hx Ha Hsh Hd Hc0 Hnone Hco Hf.
  eexists. split.
  - unfold convert_reshape. do 4 step. step. cbn [debug emit].
    step. step. unfold lift at 1. rewrite Hf.
    step. unfold ensure_tf_type.
    step. unfold lift at 1, vector. rewrite Hsh, Hd. cbn [length]. cbv beta iota.
    step. unfold lift at 1. cbn [lookup list_lookup index_error]. cbv beta iota.
    replace (is_none c0) with false by (by destruct c0).
    step. unfold mret at 1, M_ret. cbv beta iota.
    step. cbn [set_layer]. cbv beta iota.
    rewrite bind_run. unfold lift at 1, int32_tail. cbn [tail].
    rewrite (int32_cells_none _ Hnone). reflexivity.
  - reflexivity.
Qed.

Lemma reshape_reordered_failure_binds_the_input_witness :
  ∃ st',
    convert_reshape reshape_node "out" "reshape_1" reordered_reshape_state
    = (st', Raise (TypeError "int() argument must be a number, not 'NoneType'"))
    ∧ layers st' = <["out" := Symbolic feature_map]> (layers reordered_reshape_state).
Proof.
  apply (reshape_reordered_failure_binds_the_input reordered_reshape_state reshape_node
           "out" "reshape_1" "x" "shape" feature_map
           (NDArray object_ [3%nat] [SInt 1; SNone; SInt 4]) (SInt 1) [SNone; SInt 4]
           (ABool true)); try reflexivity.
  - discriminate.
  - set_solver.
Defined.

(** ** Concat *)

Lemma get_layers_run st names vs :
  bound st names vs → get_layers names st = (st, Ok vs).
Proof.
  induction 1 as [|name v names vs Hv _ IH]; [reflexivity|].
  cbn [get_layers]. rewrite bind_run, (get_layer_run _ _ _ Hv).
  rewrite bind_run, IH. reflexivity.
Qed.







(** [convert_concat] of a single graph tensor binds the node to that very
    tensor: no node is added to the graph, and the attribute [axis] is not
    read (it may be missing). *)
Theorem concat_single_input_is_passed_on :
  ∀ st n node_name keras_name name0 x,
    input n = [name0] →
    layers st !! name0 = Some (Symbolic x) →
    ∃ st',
      convert_concat n node_name keras_name st = (st', Ok tt)
      ∧ layers st' = <[node_name := Symbolic x]> (layers st)
      ∧ log st' = log st ++ [LogRecord "onnx2keras.concat" DEBUG (Text "Concat Keras layers.")].
Proof.
  intros st n node_name keras_name name0 x Hin Hx.
  assert (bound st (input n) [Symbolic x]) as Hb.
  { rewrite Hin. by repeat constructor. }
  eexists. split; [|split].
  - unfold convert_concat. cbv zeta.
    rewrite bind_run, (get_layers_run _ _ _ Hb). cbv beta iota.
    rewrite bind_run, (get_layers_run _ _ _ Hb). cbv beta iota.
    cbn [forallb is_numpy andb].
    rewrite bind_run. cbn [debug emit layers lambda_func params log]. cbv beta iota.
    cbn [length Nat.ltb Nat.leb].
    rewrite bind_run. unfold lift at 1. cbn [lookup list_lookup index_error]. cbv beta iota.
    cbn [set_layer layers lambda_func params log]. reflexivity.
  - reflexivity.
  - reflexivity.
Qed.

Lemma concat_single_input_is_passed_on_witness :
  ∃ st',
    convert_concat (Node ["x"]) "out" "concat_1" shape_state = (st', Ok tt)
    ∧ layers st' = <["out" := Symbolic feature_map]> (layers shape_state)
    ∧ log st' = log shape_state
                ++ [LogRecord "onnx2keras.concat" DEBUG (Text "Concat Keras layers.")].
Proof.
  apply (concat_single_input_is_passed_on shape_state (Node ["x"]) "out" "concat_1" "x"
           feature_map); reflexivity.
Defined.

(** [convert_concat] of a node without inputs takes the array path
    ([all] of no flags holds) and fails in [np.concatenate]. *)
Theorem concat_without_inputs_raises :
  ∀ st n node_name keras_name axis,
    input n = [] →
    params st !! "axis" = Some (AInt axis) →
    ∃ st',
      convert_concat n node_name keras_name st
      = (st', Raise (ValueError "need at least one array to concatenate"))
      ∧ layers st' = layers st.
Proof.
  intros st n node_name keras_name axis Hin Hax.
  eexists. split.
  - unfold convert_concat. rewrite Hin. cbv zeta. cbn [get_layers].
    rewrite bind_run. unfold mret at 1, M_ret. cbv beta iota.
    rewrite bind_run. unfold mret at 1, M_ret. cbv beta iota.
    cbn [forallb].
    rewrite bind_run. cbn [debug emit layers lambda_func params log]. cbv beta iota.
    rewrite bind_run. unfold get_param at 1. cbn [params]. rewrite Hax. cbv beta iota.
    rewrite bind_run. unfold lift at 1. reflexivity.
  - reflexivity.
Qed.

Lemma concat_without_inputs_raises_witness :
  ∃ st',
    convert_concat (Node []) "out" "concat_1" concat_state
    = (st', Raise (ValueError "need at least one array to concatenate"))
    ∧ layers st' = layers concat_state.
Proof.
  apply (concat_without_inputs_raises concat_state (Node []) "out" "concat_1" 0);
    reflexivity.
Defined.

(** [convert_concat] of two or more values, one of them not an array: the
    values go to [tf.concat] unless every one of them is a Keras tensor, in
    which case they go to [keras.layers.concatenate]; the node is bound to
    what the primitive returns. *)
Theorem concat_dispatch :
  ∀ st n node_name keras_name vs axis r,
    bound st (input n) vs →
    (1 < length vs)%nat →
    Exists (fun v => is_numpy v = false) vs →
    params st !! "axis" = Some (AInt axis) →
    concat_primitive vs axis keras_name = Ok r →
    ∃ st',
      convert_concat n node_name keras_name st = (st', Ok tt)
      ∧ layers st' = <[node_name := Symbolic r]> (layers st).
Proof.
  intros st n node_name keras_name vs axis r Hb Hlen Hex Hax Hr.
  assert (forallb is_numpy vs = false) as Hflags.
  { apply not_true_is_false. intros Hall. rewrite forallb_forall in Hall.
    apply Exists_exists in Hex as (v & Hv & Hn). apply list_elem_of_In in Hv.
    by rewrite (Hall v Hv) in Hn. }
  apply Nat.ltb_lt in Hlen.
  eexists. split.
  - unfold convert_concat. cbv zeta.
    rewrite bind_run, (get_layers_run _ _ _ Hb). cbv beta iota.
    rewrite bind_run, (get_layers_run _ _ _ Hb). cbv beta iota.
    rewrite Hflags.
    rewrite bind_run. cbn [debug emit layers lambda_func params log]. cbv beta iota.
    rewrite Hlen. unfold concat_primitive in Hr.
    destruct (forallb is_keras_tensor vs); cbn [negb];
      rewrite bind_run; unfold get_param at 1; cbn [params]; rewrite Hax; cbv beta iota;
      rewrite bind_run; unfold lift at 1; cbn [attr_int rbind]; rewrite Hr; cbv beta iota;
      cbn [set_layer layers lambda_func params log]; reflexivity.
  - reflexivity.
Qed.

Lemma concat_dispatch_witness :
  ∃ st',
    convert_concat (Node ["a"; "t"]) "out" "concat_1" concat_state = (st', Ok tt)
    ∧ layers st'
      = <["out" := Symbolic (tf.node (TfConcat 0 "concat_1")
                               [tf.convert_to_tensor (Constant (int_vector [1; 2]));
                                graph_input "t" [Some 4%nat]]
                               (Some [Some 6%nat]))]> (layers concat_state).
Proof.
  apply (concat_dispatch concat_state (Node ["a"; "t"]) "out" "concat_1"
           [Constant (int_vector [1; 2]); Symbolic (graph_input "t" [Some 4%nat])] 0).
  - repeat constructor.
  - cbn [length]. lia.
  - right. left. reflexivity.
  - reflexivity.
  - reflexivity.
Defined.

(** ** Gather, the graph path *)

(** The embedding flag takes [convert_gather] off the constant fold even
    when both operands are arrays: a weight matrix [(rows, cols)] becomes a
    Keras [Embedding] of that size over the indices, and the attribute
    [axis] is not read. *)
Theorem gather_embedding_of_a_matrix :
  ∀ st n node_name keras_name name0 name1 d v1 flag rows cols,
    input n !! 0%nat = Some name0 →
    input n !! 1%nat = Some name1 →
    layers st !! name0 = Some (Constant d) →
    layers st !! name1 = Some v1 →
    params st !! "is_embedding" = Some flag →
    nd_shape d = [rows; cols] →
    (0 < rows)%nat →
    (0 < cols)%nat →
    ∃ st',
      convert_gather n node_name keras_name st = (st', Ok tt)
      ∧ layers st'
        = <[node_name :=
              Symbolic (tf.node (KEmbedding rows cols keras_name)
                          [tf.convert_to_tensor (Constant d); gather_indices v1]
                          ((fun s => s ++ [Some cols]) <$> t_shape (gather_indices v1)))]>
            (layers st)
      ∧ log st' = log st.
Proof.
  intros st n node_name keras_name name0 name1 d v1 flag rows cols
    Hi0 Hi1 Hd Hv1 He Hsh Hrows Hcols.
  assert (fold_flag :
            ((if is_numpy v1 then emb ← has_param "is_embedding"; mret (negb emb)
              else mret false) : M bool) st = (st, Ok false)).
  { destruct (is_numpy v1); [|reflexivity].
    rewrite bind_run, (has_param_run _ _ _ He). reflexivity. }
  eexists. split; [|split].
  - unfold convert_gather. do 2 step. rewrite bind_run. cbn [is_numpy]. cbv beta iota.
    do 2 step. rewrite fold_flag. cbv beta iota.
    do 2 step. rewrite bind_run, (has_param_run _ _ _ He). cbv beta iota.
    rewrite bind_run. unfold lift at 1. rewrite dims_ensure_tf_type. cbn [value_shape].
    rewrite Hsh. cbn [known map length Nat.eqb]. cbv beta iota.
    step. rewrite bind_run. unfold lift at 1.
    cbn [lookup list_lookup default tf.Embedding].
    destruct rows as [|rows]; [lia|]. destruct cols as [|cols]; [lia|].
    cbn [Nat.eqb orb]. cbv beta iota.
    cbn [set_layer layers lambda_func params log]. reflexivity.
  - reflexivity.
  - reflexivity.
Qed.

Lemma gather_embedding_of_a_matrix_witness :
  ∃ st',
    convert_gather gather_node "out" "gather_1" embedding_state = (st', Ok tt)
    ∧ layers st'
      = <["out" :=
            Symbolic (tf.node (KEmbedding 2 2 "gather_1")
                        [tf.convert_to_tensor (Constant matrix_2x2);
                         gather_indices (Constant (int_vector [0]))]
                        ((fun s => s ++ [Some 2%nat])
                           <$> t_shape (gather_indices (Constant (int_vector [0])))))]>
          (layers embedding_state)
    ∧ log st' = log embedding_state.
Proof.
  apply (gather_embedding_of_a_matrix embedding_state gather_node "out" "gather_1"
           "data" "indices" matrix_2x2 (Constant (int_vector [0])) (AInt 1) 2 2);
    try reflexivity; lia.
Defined.

(** With the embedding flag set, a data operand that is not of rank 2 makes
    [convert_gather] raise [AttributeError]; the Environment is not
    written. *)
Theorem gather_embedding_needs_a_matrix :
  ∀ st n node_name keras_name name0 name1 v0 v1 flag s,
    input n !! 0%nat = Some name0 →
    input n !! 1%nat = Some name1 →
    layers st !! name0 = Some v0 →
    layers st !! name1 = Some v1 →
    params st !! "is_embedding" = Some flag →
    value_shape v0 = Ok s →
    length s ≠ 2%nat →
    convert_gather n node_name keras_name st
    = (st, Raise (AttributeError "Cannot transform gather into embedding with non 2D array")).
Proof.
  intros st n node_name keras_name name0 name1 v0 v1 flag s Hi0 Hi1 Hv0 Hv1 He Hs Hlen.
  assert (fold_flag :
            ((if is_numpy v0 then
                name1 ← node_input n 1; v1 ← get_layer name1;
                if is_numpy v1 then emb ← has_param "is_embedding"; mret (negb emb)
                else mret false
              else mret false) : M bool) st = (st, Ok false)).
  { destruct (is_numpy v0); [|reflexivity]. do 2 step.
    destruct (is_numpy v1); [|reflexivity].
    rewrite bind_run, (has_param_run _ _ _ He). reflexivity. }
  unfold convert_gather. do 2 step. rewrite bind_run, fold_flag. cbv beta iota.
  do 2 step. rewrite bind_run, (has_param_run _ _ _ He). cbv beta iota.
  rewrite bind_run. unfold lift at 1. rewrite dims_ensure_tf_type, Hs. cbv beta iota.
  apply Nat.eqb_neq in Hlen. rewrite Hlen. reflexivity.
Qed.

Lemma gather_embedding_needs_a_matrix_witness :
  convert_gather gather_node "out" "gather_1" embedding_vector_state
  = (embedding_vector_state,
     Raise (AttributeError "Cannot transform gather into embedding with non 2D array")).
Proof.
  apply (gather_embedding_needs_a_matrix embedding_vector_state gather_node "out" "gather_1"
           "data" "indices" (Constant (int_vector [5; 6; 7])) (Constant (int_vector [0]))
           (AInt 1) [Some 3%nat]); try reflexivity.
  cbn [length]. lia.
Defined.

(** ** Shape followed by Gather *)

Lemma dim_scalars_not_float (s : list (option nat)) :
  existsb is_float (map dim_scalar s) = false.
Proof. induction s as [|[d|] s IH]; [done|..]; cbn [map existsb dim_scalar is_float orb]; done. Qed.

Lemma dim_scalar_lookup (s : list (option nat)) (k : nat) (d : option nat) :
  s !! k = Some d → map dim_scalar s !! k = Some (dim_scalar d).
Proof. intros H. by rewrite list_lookup_fmap, H. Qed.

(** A [Shape] node followed by a [Gather] of its result along axis 0 with a
    scalar index: the second node is bound to the dimension the index names,
    as a 0-dimensional array of 64-bit integers, when that dimension is known
    statically (and is below [2^63]).  This holds whether or not the shape
    has unknown dimensions elsewhere: the cell comes out of the array of
    objects as a Python integer, from which [np.array] makes an [int64]. *)
Theorem shape_then_gather_reads_a_dimension :
  ∀ st n1 n2 mid out kn1 kn2 name0 name_i x s idx i k d,
    input n1 !! 0%nat = Some name0 →
    layers st !! name0 = Some (Symbolic x) →
    t_shape x = Some s →
    input n2 !! 0%nat = Some mid →
    input n2 !! 1%nat = Some name_i →
    name_i ≠ mid →
    layers st !! name_i = Some (Constant idx) →
    dtype_is_int (nd_dtype idx) = true →
    nd_shape idx = [] →
    nd_data idx = [SInt i] →
    np.index_cell (length s) (SInt i) = Ok k →
    s !! k = Some (Some d) →
    Z.of_nat d < 2 ^ 63 →
    params st !! "is_embedding" = None →
    params st !! "axis" = Some (AInt 0) →
    ∃ st1 st2,
      convert_shape n1 mid kn1 st = (st1, Ok tt)
      ∧ convert_gather n2 out kn2 st1 = (st2, Ok tt)
      ∧ layers st2 !! out = Some (Constant (NDArray int64 [] [SInt (Z.of_nat d)])).
Proof.
  intros st n1 n2 mid out kn1 kn2 name0 name_i x s idx i k d
    Hi0 Hx Hs Hm Hn Hne Hidx Hdt Hsh Hdata Hk Hd Hfit He Hax.
  assert (map dim_scalar s !! k = Some (SInt (Z.of_nat d))) as Hcell
    by (by rewrite (dim_scalar_lookup _ _ _ Hd)).
  assert (∃ dt0, np.array (map dim_scalar s)
                 = NDArray dt0 [length s] (map dim_scalar s)
                 ∧ (dt0 = int64 ∨ dt0 = object_)) as (dt0 & Harr & Hdt0).
  { unfold np.array. rewrite length_map, dim_scalars_not_float.
    destruct (map dim_scalar s) as [|c l] eqn:E; [done|].
    destruct (existsb is_none (c :: l)); eexists; (split; [reflexivity|]); auto. }
  assert (np.pick (map dim_scalar s) (np.offsets (([k], np.size []) :: np.full_axes []))
          = [SInt (Z.of_nat d)]) as Hpick.
  { change (np.full_axes []) with ([] : list (list nat * nat)).
    cbn [np.offsets np.size fold_right flat_map map app np.pick].
    by rewrite Nat.mul_1_r, Nat.add_0_r, Hcell. }
  assert (np.array_of_indexed (NDArray dt0 [] [SInt (Z.of_nat d)])
          = Ok (NDArray int64 [] [SInt (Z.of_nat d)])) as Hitem.
  { destruct Hdt0 as [-> | ->]; [reflexivity|].
    unfold np.array_of_indexed. cbn [nd_dtype nd_shape nd_data].
    rewrite (proj2 (Z.leb_le _ _)), (proj2 (Z.ltb_lt _ _)) by lia. reflexivity. }
  eexists _, _. split; [|split].
  - unfold convert_shape. do 2 step. step. cbn [debug emit layers lambda_func params log].
    step. unfold lift at 1. rewrite dims_ensure_tf_type. cbn [value_shape].
    unfold tf.dims. rewrite Hs. cbv beta iota.
    step. cbn [emit set_layer layers lambda_func params log].
    rewrite shapes_loop, app_nil_l, Harr. reflexivity.
  - unfold convert_gather. step.
    rewrite bind_run. unfold get_layer at 1. cbn [layers]. rewrite lookup_insert_eq.
    cbv beta iota. rewrite bind_run. cbn [is_numpy]. cbv beta iota.
    step. rewrite bind_run. unfold get_layer at 1. cbn [layers].
    rewrite lookup_insert_ne by done. rewrite Hidx. cbv beta iota. cbn [is_numpy].
    rewrite bind_run. unfold has_param at 1. cbn [params]. rewrite He.
    rewrite bool_decide_eq_false_2 by (intros [? ?]; discriminate).
    cbv beta iota. unfold mret at 1, M_ret. cbn [negb]. cbv beta iota.
    rewrite bind_run. cbn [debug emit layers lambda_func params log]. cbv beta iota.
    rewrite bind_run. unfold get_param at 1. cbn [params]. rewrite Hax. cbv beta iota.
    rewrite bind_run. cbn [attr_eq_int Z.eqb]. cbv beta iota.
    rewrite bind_run. unfold get_layer at 1. cbn [layers]. rewrite lookup_insert_eq.
    cbv beta iota.
    step. rewrite bind_run. unfold get_layer at 1. cbn [layers].
    rewrite lookup_insert_ne by done. rewrite Hidx. cbv beta iota.
    unfold index_by, lift at 1, np.take0. rewrite Hdt. cbn [negb nd_shape nd_data nd_dtype].
    rewrite Hdata, Hsh. cbn [rmap]. rewrite Hk. cbn [rbind app]. rewrite Hpick.
    cbn [rbind]. rewrite Hitem. cbv beta iota.
    rewrite bind_run. cbn [nd_dtype dtype_is_object]. unfold mret at 1, M_ret. cbv beta iota.
    cbn [set_layer layers lambda_func params log]. reflexivity.
  - cbn [layers]. by rewrite lookup_insert_eq.
Qed.

Lemma shape_then_gather_reads_a_dimension_witness :
  ∃ st1 st2,
    convert_shape (Node ["x"]) "dims" "shape_1" shape_gather_state = (st1, Ok tt)
    ∧ convert_gather (Node ["dims"; "index"]) "out" "gather_1" st1 = (st2, Ok tt)
    ∧ layers st2 !! "out" = Some (Constant (NDArray int64 [] [SInt (Z.of_nat 4)])).
Proof.
  apply (shape_then_gather_reads_a_dimension shape_gather_state (Node ["x"])
           (Node ["dims"; "index"]) "dims" "out" "shape_1" "gather_1" "x" "index"
           feature_map [None; Some 3; Some 4; Some 4]%nat (scalar_index (-1)) (-1) 3%nat 4%nat);
    try reflexivity; try done.
Defined.

(** ** Flatten *)

Lemma chw_is_permutation : tf.is_permutation 1 [3; 1; 2] = true.
Proof. vm_compute. reflexivity. Qed.

(** [convert_flatten] of an input of rank 4, [(b, h, w, c)]: the channels
    are moved first by an unnamed [Permute((3, 1, 2))] and the result is
    flattened under the display name of the node, to [(b, c*h*w)]. *)
Theorem flatten_moves_channels_first :
  ∀ st n node_name keras_name name0 v0 b h w c,
    input n = [name0] →
    layers st !! name0 = Some v0 →
    value_shape v0 = Ok [b; h; w; c] →
    ∃ st',
      convert_flatten n node_name keras_name st = (st', Ok tt)
      ∧ layers st'
        = <[node_name :=
              Symbolic (tf.node (KFlatten keras_name)
                          [tf.node (KPermute [3; 1; 2] None)
                             [ensure_tf_type v0 (keras_name +:+ "_const")]
                             (Some [b; c; h; w])]
                          (Some [b; known_size [c; h; w]]))]> (layers st).
Proof.
  intros st n node_name keras_name name0 v0 b h w c Hin Hv Hs.
  assert (input n !! 0%nat = Some name0) as Hi0 by (by rewrite Hin).
  eexists. split.
  - unfold convert_flatten.
    replace (length (input n)) with 1%nat by (by rewrite Hin).
    cbn [Nat.eqb negb]. cbv beta iota zeta.
    rewrite bind_run. cbn [debug emit layers lambda_func params log]. cbv beta iota.
    step. rewrite bind_run. unfold get_layer at 1. cbn [layers]. rewrite Hv. cbv beta iota.
    rewrite bind_run. unfold lift at 1, tf.Permute. rewrite chw_is_permutation.
    cbn [negb]. rewrite dims_ensure_tf_type, Hs.
    cbn [rbind length Nat.eqb negb map lookup list_lookup default Z.to_nat Pos.to_nat
           Pos.iter_op Nat.add]. cbv beta iota.
    rewrite bind_run. unfold lift at 1, tf.Flatten, tf.dims. unfold tf.node at 1.
    cbn [t_shape rbind]. cbv beta iota.
    cbn [set_layer layers lambda_func params log]. reflexivity.
  - reflexivity.
Qed.

Lemma flatten_moves_channels_first_witness :
  ∃ st',
    convert_flatten (Node ["x"]) "out" "flatten_1" shape_state = (st', Ok tt)
    ∧ layers st'
      = <["out" :=
            Symbolic (tf.node (KFlatten "flatten_1")
                        [tf.node (KPermute [3; 1; 2] None)
                           [ensure_tf_type (Symbolic feature_map) ("flatten_1" +:+ "_const")]
                           (Some [None; Some 4; Some 3; Some 4]%nat)]
                        (Some [None; known_size [Some 4; Some 3; Some 4]%nat]))]>
          (layers shape_state).
Proof.
  apply (flatten_moves_channels_first shape_state (Node ["x"]) "out" "flatten_1" "x"
           (Symbolic feature_map) None (Some 3%nat) (Some 4%nat) (Some 4%nat)); reflexivity.
Defined.

(** [convert_flatten] of an input whose rank is not 4 fails in the
    [Permute] it puts first, and the Environment is not written. *)
Theorem flatten_needs_rank_4 :
  ∀ st n node_name keras_name name0 v0 s,
    input n = [name0] →
    layers st !! name0 = Some v0 →
    value_shape v0 = Ok s →
    length s ≠ 4%nat →
    ∃ st',
      convert_flatten n node_name keras_name st
      = (st', Raise (ValueError "Input is incompatible with layer permute: wrong ndim"))
      ∧ layers st' = layers st.
Proof.
  intros st n node_name keras_name name0 v0 s Hin Hv Hs Hlen.
  assert (input n !! 0%nat = Some name0) as Hi0 by (by rewrite Hin).
  eexists. split.
  - unfold convert_flatten.
    replace (length (input n)) with 1%nat by (by rewrite Hin).
    cbn [Nat.eqb negb]. cbv beta iota zeta.
    rewrite bind_run. cbn [debug emit layers lambda_func params log]. cbv beta iota.
    step. rewrite bind_run. unfold get_layer at 1. cbn [layers]. rewrite Hv. cbv beta iota.
    rewrite bind_run. unfold lift at 1, tf.Permute. rewrite chw_is_permutation.
    cbn [negb]. rewrite dims_ensure_tf_type, Hs. cbn [rbind length].
    apply Nat.eqb_neq in Hlen. rewrite Hlen. reflexivity.
  - reflexivity.
Qed.

Lemma flatten_needs_rank_4_witness :
  ∃ st',
    convert_flatten (Node ["x"]) "out" "flatten_1" squeeze_state
    = (st', Raise (ValueError "Input is incompatible with layer permute: wrong ndim"))
    ∧ layers st' = layers squeeze_state.
Proof.
  apply (flatten_needs_rank_4 squeeze_state (Node ["x"]) "out" "flatten_1" "x"
           (Symbolic (graph_input "x" [None; Some 1; Some 3]%nat))
           [None; Some 1; Some 3]%nat); try reflexivity.
  cbn [length]. lia.
Defined.

(** [convert_flatten] of a node with no input or with several raises
    [AttributeError] before anything is read, written or logged. *)
Theorem flatten_wrong_input_count :
  ∀ st n node_name keras_name,
    length (input n) ≠ 1%nat →
    convert_flatten n node_name keras_name st
    = (st, Raise (AttributeError "Number of inputs is not equal 1 for flatten layer")).
Proof.
  intros st n node_name keras_name Hlen.
  unfold convert_flatten. apply Nat.eqb_neq in Hlen. rewrite Hlen. reflexivity.
Qed.

Lemma flatten_wrong_input_count_witness :
  convert_flatten reshape_node "out" "flatten_1" reshape_state
  = (reshape_state, Raise (AttributeError "Number of inputs is not equal 1 for flatten layer")).
Proof.
  apply (flatten_wrong_input_count reshape_state reshape_node "out" "flatten_1").
  cbn [reshape_node input length]. lia.
Defined.

(** ** Squeeze *)

Lemma input_count_check_passes (count expected : nat) (e : exn) st :
  ((if negb (count =? expected)%nat then py_assert (exception_truth e) else mret tt) : M unit) st
  = (st, Ok tt).
Proof. by destruct (negb (count =? expected)%nat). Qed.

(** [convert_squeeze] squeezes the first axis of the attribute [axes] and
    no other: whatever follows it in the list, the node is bound to
    [tf.squeeze] of the input along that one axis, which has to be of
    length 1 (or unknown). *)
Theorem squeeze_uses_the_first_axis_only :
  ∀ st n node_name keras_name name0 v0 s ax others k,
    input n !! 0%nat = Some name0 →
    layers st !! name0 = Some v0 →
    value_shape v0 = Ok s →
    params st !! "axes" = Some (AInts (ax :: others)) →
    np.normalize_axis (length s) ax = Ok k →
    tf.dim_agree (default None (s !! k)) (Some 1%nat) = true →
    ∃ st',
      convert_squeeze n node_name keras_name st = (st', Ok tt)
      ∧ layers st'
        = <[node_name :=
              Symbolic (tf.node (TfSqueeze (Some ax))
                          [ensure_tf_type v0 (keras_name +:+ "_const")]
                          (Some (take k s ++ drop (S k) s)))]> (layers st).
Proof.
  intros st n node_name keras_name name0 v0 s ax others k Hi0 Hv Hs Hax Hk H1.
  eexists. split.
  - unfold convert_squeeze. rewrite bind_run, input_count_check_passes. cbv beta iota.
    do 2 step. rewrite bind_run, (has_param_run _ _ _ Hax). cbv beta iota.
    rewrite bind_run. step. unfold lift at 1. cbn [attr_ints rbind lookup list_lookup index_error].
    cbv beta iota.
    rewrite bind_run. unfold lift at 1, tf.squeeze. rewrite dims_ensure_tf_type, Hs.
    cbn [rbind]. rewrite Hk. cbn [rbind]. rewrite H1. cbn [negb]. cbv beta iota.
    cbn [set_layer layers lambda_func params log]. reflexivity.
  - reflexivity.
Qed.

Lemma squeeze_uses_the_first_axis_only_witness :
  ∃ st',
    convert_squeeze (Node ["x"]) "out" "squeeze_1" squeeze_axes_state = (st', Ok tt)
    ∧ layers st'
      = <["out" :=
            Symbolic (tf.node (TfSqueeze (Some 1))
                        [ensure_tf_type (Symbolic singleton_axes) ("squeeze_1" +:+ "_const")]
                        (Some (take 1 [None; Some 1; Some 1; Some 3]%nat
                               ++ drop 2 [None; Some 1; Some 1; Some 3]%nat)))]>
          (layers squeeze_axes_state).
Proof.
  apply (squeeze_uses_the_first_axis_only squeeze_axes_state (Node ["x"]) "out" "squeeze_1" "x"
           (Symbolic singleton_axes) [None; Some 1; Some 1; Some 3]%nat 1 [2] 1%nat);
    reflexivity.
Defined.

(** [convert_squeeze] with an empty attribute [axes] raises [IndexError]
    on [params['axes'][0]]; the Environment is not written. *)
Theorem squeeze_empty_axes_raises :
  ∀ st n node_name keras_name name0 v0,
    input n !! 0%nat = Some name0 →
    layers st !! name0 = Some v0 →
    params st !! "axes" = Some (AInts []) →
    convert_squeeze n node_name keras_name st = (st, Raise (IndexError "index out of range")).
Proof.
  intros st n node_name keras_name name0 v0 Hi0 Hv Hax.
  unfold convert_squeeze. rewrite bind_run, input_count_check_passes. cbv beta iota.
  do 2 step. rewrite bind_run, (has_param_run _ _ _ Hax). cbv beta iota.
  rewrite bind_run. step. reflexivity.
Qed.

Lemma squeeze_empty_axes_raises_witness :
  convert_squeeze (Node ["x"]) "out" "squeeze_1" squeeze_no_axis_state
  = (squeeze_no_axis_state, Raise (IndexError "index out of range")).
Proof.
  apply (squeeze_empty_axes_raises squeeze_no_axis_state (Node ["x"]) "out" "squeeze_1" "x"
           (Symbolic singleton_axes)); reflexivity.
Defined.

(** ** Expand *)

(** The check of the input count of [convert_expand] asserts an exception
    object, which is true: inputs after the second are ignored. *)
Theorem expand_extra_inputs_are_ignored :
  ∀ st name0 name1 others node_name keras_name,
    convert_expand (Node (name0 :: name1 :: others)) node_name keras_name st
    = convert_expand (Node [name0; name1]) node_name keras_name st.
Proof.
  intros st name0 name1 others node_name keras_name.
  unfold convert_expand. rewrite !bind_run, !input_count_check_passes. reflexivity.
Qed.

(** With a single input [convert_expand] passes its check all the same and
    fails with [IndexError] where it reads the second input. *)
Theorem expand_without_shape_raises_index_error :
  ∀ st name0 v0 node_name keras_name,
    layers st !! name0 = Some v0 →
    convert_expand (Node [name0]) node_name keras_name st
    = (st, Raise (IndexError "list index out of range")).
Proof.
  intros st name0 v0 node_name keras_name Hv.
  unfold convert_expand. rewrite bind_run, input_count_check_passes. cbv beta iota.
  rewrite bind_run. unfold node_input at 1. cbn [input lookup list_lookup].
  unfold mret at 1, M_ret. cbv beta iota.
  rewrite bind_run, (get_layer_run _ _ _ Hv). reflexivity.
Qed.

Lemma expand_without_shape_raises_index_error_witness :
  convert_expand (Node ["x"]) "out" "expand_1" shape_state
  = (shape_state, Raise (IndexError "list index out of range")).
Proof.
  apply (expand_without_shape_raises_index_error shape_state "x" (Symbolic feature_map)).
  reflexivity.
Defined.







(** ** Slice *)

(** Under layout reordering [convert_slice] raises [NotImplementedError]
    before it reads its inputs or any other attribute. *)
Theorem slice_under_reordering_is_not_implemented :
  ∀ st n node_name keras_name co,
    params st !! "change_ordering" = Some co →
    attr_truth co = Ok true →
    convert_slice n node_name keras_name st
    = (st, Raise (NotImplementedError "change_ordering for Slice is not implemented")).
Proof.
  intros st n node_name keras_name co Hco Ht.
  unfold convert_slice. step. step. unfold lift at 1. rewrite Ht. reflexivity.
Qed.

Lemma slice_under_reordering_is_not_implemented_witness :
  convert_slice (Node []) "out" "slice_1" reordered_reshape_state
  = (reordered_reshape_state,
     Raise (NotImplementedError "change_ordering for Slice is not implemented")).
Proof.
  apply (slice_under_reordering_is_not_implemented reordered_reshape_state (Node []) "out"
           "slice_1" (ABool true)); reflexivity.
Defined.

Lemma off_axis_positives (axs : list Z) :
  Forall (fun z => z ≠ 0 ∧ z ≠ -1) axs →
  ∃ l, rmap (axis_positive 1) (map SInt axs) = Ok l
       ∧ cell_index (SInt 0) l = None.
Proof.
  induction 1 as [|z axs [Hz0 Hz1] _ (l & Hl & Hnone)]; [by eexists|].
  cbn [map rmap]. rewrite Hl. unfold axis_positive at 1. cbn [scalar_ltb rbind].
  destruct (z <? 0) eqn:Hneg; eexists; (split; [reflexivity|]);
    cbn [cell_index scalar_eqb]; change (Z.of_nat 1) with 1.
  - rewrite (proj2 (Z.eqb_neq _ _)) by lia. by rewrite Hnone.
  - rewrite (proj2 (Z.eqb_neq _ _)) by lia. by rewrite Hnone.
Qed.

(** A shape array (a vector with a [None] cell) is sliced on the host with
    the loop variables [start], [end] and [step]; when the attribute [axes]
    does not name the only axis of the vector, the loop never binds them and
    [convert_slice] raises [UnboundLocalError], with the Environment as it
    was. *)
Theorem slice_of_shape_array_needs_its_axis :
  ∀ st n node_name keras_name name0 a co axs es ss,
    input n !! 0%nat = Some name0 →
    layers st !! name0 = Some (Constant a) →
    nd_shape a = [length (nd_data a)] →
    SNone ∈ nd_data a →
    params st !! "change_ordering" = Some co →
    attr_truth co = Ok false →
    params st !! "axes" = Some (AInts axs) →
    params st !! "ends" = Some (AInts es) →
    params st !! "starts" = Some (AInts ss) →
    params st !! "steps" = None →
    Forall (fun z => z ≠ 0 ∧ z ≠ -1) axs →
    convert_slice n node_name keras_name st = (st, Raise (UnboundLocalError "start")).
Proof.
  intros st n node_name keras_name name0 a co axs es ss
    Hi0 Ha Hsh Hin Hco Hf Hax Hen Hst Hsp Hoff.
  destruct (off_axis_positives axs Hoff) as (ap & Hap & Hnone).
  assert (existsb is_none (nd_data a) = true) as Hholes.
  { apply existsb_exists. exists SNone. split; [by apply list_elem_of_In|done]. }
  unfold convert_slice.
  step. step. unfold lift at 1. rewrite Hf.
  step. rewrite (has_param_run _ _ _ Hax).
  step. rewrite bind_run, (param_list_run _ _ _ Hax).
  rewrite bind_run, (param_list_run _ _ _ Hen).
  rewrite bind_run, (param_list_run _ _ _ Hst).
  rewrite bind_run, (param_steps_default_run _ _ Hsp).
  cbv beta iota. unfold mret at 1, M_ret. cbv beta iota.
  step. step. step. unfold lift at 1. cbn [value_shape]. rewrite Hsh.
  cbn [known map length]. step. unfold lift at 1. rewrite Hap. cbv beta iota.
  step. unfold lift at 1, slice_loop. cbn [seq rfold slice_step].
  change (Z.of_nat 0) with 0. rewrite Hnone.
  cbn [rbind app]. cbv beta iota.
  step. unfold lift at 1, any_is_none. rewrite Hsh, Hholes. cbv beta iota.
  unfold mret at 1, M_ret. cbv beta iota. unfold np.ndim. rewrite Hsh.
  cbn [length Nat.eqb andb]. cbv beta iota.
  reflexivity.
Qed.

Lemma slice_of_shape_array_needs_its_axis_witness :
  convert_slice (Node ["dims"]) "out" "slice_1" slice_shape_state
  = (slice_shape_state, Raise (UnboundLocalError "start")).
Proof.
  apply (slice_of_shape_array_needs_its_axis slice_shape_state (Node ["dims"]) "out" "slice_1"
           "dims" (NDArray object_ [3%nat] [SNone; SInt 3; SInt 4]) (ABool false) [] [] []);
    try reflexivity.
  - set_solver.
  - constructor.
Defined.

(** ** Unsqueeze *)

(** [convert_unsqueeze] of a graph tensor takes exactly one axis: with any
    other number of axes it raises [AttributeError] and writes nothing. *)
Theorem unsqueeze_tensor_needs_one_axis :
  ∀ st n node_name keras_name name0 x l,
    input n = [name0] →
    layers st !! name0 = Some (Symbolic x) →
    params st !! "axes" = Some (AInts l) →
    length l ≠ 1%nat →
    convert_unsqueeze n node_name keras_name st
    = (st, Raise (AttributeError "Number of axes is not equal 1. Cannot unsqueeze")).
Proof.
  intros st n node_name keras_name name0 x l Hin Hx Hax Hlen.
  assert (input n !! 0%nat = Some name0) as Hi0 by (by rewrite Hin).
  unfold convert_unsqueeze.
  replace (length (input n)) with 1%nat by (by rewrite Hin).
  cbn [Nat.eqb negb]. cbv beta iota zeta.
  rewrite bind_run. unfold mret at 1, M_ret. cbv beta iota.
  do 2 step. cbn [is_numpy]. cbv beta iota.
  step. step. unfold lift at 1. cbn [axes_cells]. rewrite length_map.
  apply Nat.eqb_neq in Hlen. rewrite Hlen. reflexivity.
Qed.

Lemma unsqueeze_tensor_needs_one_axis_witness :
  convert_unsqueeze (Node ["x"]) "out" "unsqueeze_1" squeeze_axes_state
  = (squeeze_axes_state,
     Raise (AttributeError "Number of axes is not equal 1. Cannot unsqueeze")).
Proof.
  apply (unsqueeze_tensor_needs_one_axis squeeze_axes_state (Node ["x"]) "out" "unsqueeze_1"
           "x" singleton_axes [1; 2]); try reflexivity.
  cbn [length]. lia.
Defined.





(** ** Resize *)

Lemma optional_layer_absent {A} (absent : A) (present : Value → A) st :
  optional_layer "" absent present st = (st, Ok absent).
Proof. reflexivity. Qed.

Lemma optional_layer_present {A} (name : string) (absent : A) (present : Value → A) st v :
  name ≠ "" →
  layers st !! name = Some v →
  optional_layer name absent present st = (st, Ok (present v)).
Proof.
  intros Hne Hv. unfold optional_layer. destruct name as [|c name]; [done|].
  cbn [String.length Nat.eqb]. by rewrite bind_run, (get_layer_run _ _ _ Hv).
Qed.

Lemma hwc_is_permutation : tf.is_permutation 1 [2; 3; 1] = true.
Proof. vm_compute. reflexivity. Qed.

(** A region of interest of two or more cells makes [convert_resize] fail
    on [if roi:] with the [ValueError] of NumPy for the truth value of an
    array, not with the message of the routine; nothing is written. *)
Theorem resize_roi_of_several_cells :
  ∀ st n node_name keras_name name0 name1 name2 x roi scales c0 c1 cells,
    input n = [name0; name1; name2] →
    name1 ≠ "" →
    name2 ≠ "" →
    layers st !! name0 = Some x →
    layers st !! name1 = Some (Constant roi) →
    layers st !! name2 = Some scales →
    nd_data roi = c0 :: c1 :: cells →
    convert_resize n node_name keras_name st
    = (st, Raise (ValueError
                    "The truth value of an array with more than one element is ambiguous.")).
Proof.
  intros st n node_name keras_name name0 name1 name2 x roi scales c0 c1 cells
    Hin Hn1 Hn2 Hx Hroi Hsc Hcells.
  assert (input n !! 0%nat = Some name0) as Hi0 by (by rewrite Hin).
  assert (input n !! 1%nat = Some name1) as Hi1 by (by rewrite Hin).
  assert (input n !! 2%nat = Some name2) as Hi2 by (by rewrite Hin).
  unfold convert_resize. do 2 step. step.
  rewrite bind_run, (optional_layer_present _ _ _ _ _ Hn1 Hroi). cbv beta iota.
  step. rewrite bind_run, (optional_layer_present _ _ _ _ _ Hn2 Hsc). cbv beta iota.
  replace (length (input n)) with 3%nat by (by rewrite Hin). cbn [Nat.eqb].
  rewrite bind_run. unfold mret at 1, M_ret. cbv beta iota.
  rewrite bind_run. unfold lift at 1. cbn [value_truth]. rewrite Hcells. reflexivity.
Qed.

Lemma resize_roi_of_several_cells_witness :
  convert_resize (Node ["x"; "roi"; "scales"]) "out" "resize_1" resize_state
  = (resize_state, Raise (ValueError
                            "The truth value of an array with more than one element is ambiguous.")).
Proof.
  apply (resize_roi_of_several_cells resize_state (Node ["x"; "roi"; "scales"]) "out" "resize_1"
           "x" "roi" "scales" (Symbolic image_nchw) (int_vector [0; 0; 0; 0; 1; 1; 1; 1])
           (Constant double_scales) (SInt 0) (SInt 0) (map SInt [0; 0; 1; 1; 1; 1]));
    try reflexivity; done.
Defined.

(** A mode other than [nearest], [cubic] and [linear] makes
    [convert_resize] raise before the input is permuted; nothing is
    written. *)
Theorem resize_unsupported_mode :
  ∀ st n node_name keras_name name0 name2 x scales mode,
    input n = [name0; ""; name2] →
    name2 ≠ "" →
    layers st !! name0 = Some x →
    layers st !! name2 = Some scales →
    params st !! "mode" = Some mode →
    mode ∉ [ABytes "nearest"; ABytes "cubic"; ABytes "linear"] →
    convert_resize n node_name keras_name st
    = (st, Raise (PyException "unsupported resize method")).
Proof.
  intros st n node_name keras_name name0 name2 x scales mode Hin Hn2 Hx Hsc Hmode Hnot.
  assert (input n !! 0%nat = Some name0) as Hi0 by (by rewrite Hin).
  assert (input n !! 1%nat = Some "") as Hi1 by (by rewrite Hin).
  assert (input n !! 2%nat = Some name2) as Hi2 by (by rewrite Hin).
  assert (∀ s, s ∈ ["nearest"; "cubic"; "linear"] → attr_eq_bytes mode s = false) as Hneq.
  { intros s Hs. destruct mode as [| |s'| |]; try reflexivity.
    cbn [attr_eq_bytes]. apply bool_decide_eq_false_2. intros ->.
    apply Hnot. repeat (apply elem_of_cons in Hs as [->|Hs]; [set_solver|]).
    by apply elem_of_nil in Hs. }
  unfold convert_resize. do 2 step. step.
  rewrite bind_run, optional_layer_absent. cbv beta iota.
  step. rewrite bind_run, (optional_layer_present _ _ _ _ _ Hn2 Hsc). cbv beta iota.
  replace (length (input n)) with 3%nat by (by rewrite Hin). cbn [Nat.eqb].
  rewrite bind_run. unfold mret at 1, M_ret. cbv beta iota.
  rewrite bind_run. unfold lift at 1. cbv beta iota.
  step. rewrite bind_run. rewrite (Hneq "nearest") by set_solver.
  step. rewrite (Hneq "cubic") by set_solver.
  step. rewrite (Hneq "linear") by set_solver.
  reflexivity.
Qed.

Lemma resize_unsupported_mode_witness :
  convert_resize (Node ["x"; ""; "scales"]) "out" "resize_1" resize_area_state
  = (resize_area_state, Raise (PyException "unsupported resize method")).
Proof.
  apply (resize_unsupported_mode resize_area_state (Node ["x"; ""; "scales"]) "out" "resize_1"
           "x" "scales" (Symbolic image_nchw) (Constant double_scales) (ABytes "area"));
    try reflexivity; try done.
  intros H. repeat (apply elem_of_cons in H as [H|H]; [discriminate|]).
  by apply elem_of_nil in H.
Defined.

(** [convert_resize] by scales [(1, 1, kh, kw)] of a channel-first image
    batch [(b, c, h, w)]: the image is permuted to channel-last, resized to
    [(kh*h, kw*w)] and permuted back, so that the node is bound to a tensor of
    shape [(b, c, kh*h, kw*w)]. *)
Theorem resize_by_scales :
  ∀ st n node_name keras_name name0 name2 x scales b c h w kh kw,
    input n = [name0; ""; name2] →
    name2 ≠ "" →
    layers st !! name0 = Some (Symbolic x) →
    t_shape x = Some [b; c; Some h; Some w] →
    layers st !! name2 = Some (Constant scales) →
    nd_shape scales = [4%nat] →
    nd_data scales = [SFloat 1 0; SFloat 1 0; SFloat kh 0; SFloat kw 0] →
    params st !! "mode" = Some (ABytes "nearest") →
    ∃ st',
      convert_resize n node_name keras_name st = (st', Ok tt)
      ∧ layers st'
        = <[node_name :=
              Symbolic
                (tf.node (KPermute [3; 1; 2] None)
                   [tf.node (TfImageResize [kh * Z.of_nat h; kw * Z.of_nat w] NEAREST_NEIGHBOR)
                      [tf.node (KPermute [2; 3; 1] None) [x] (Some [b; Some h; Some w; c])]
                      (Some [b; Some (Z.to_nat (kh * Z.of_nat h));
                             Some (Z.to_nat (kw * Z.of_nat w)); c])]
                   (Some [b; c; Some (Z.to_nat (kh * Z.of_nat h));
                          Some (Z.to_nat (kw * Z.of_nat w))]))]> (layers st).
Proof.
  intros st n node_name keras_name name0 name2 x scales b c h w kh kw
    Hin Hn2 Hx Hs Hsc Hsh Hcells Hmode.
  assert (input n !! 0%nat = Some name0) as Hi0 by (by rewrite Hin).
  assert (input n !! 1%nat = Some "") as Hi1 by (by rewrite Hin).
  assert (input n !! 2%nat = Some name2) as Hi2 by (by rewrite Hin).
  assert (tf.dims x = Ok [b; c; Some h; Some w]) as Hdims by (unfold tf.dims; by rewrite Hs).
  eexists. split.
  - unfold convert_resize. do 2 step. step.
    rewrite bind_run, optional_layer_absent. cbv beta iota.
    step. rewrite bind_run, (optional_layer_present _ _ _ _ _ Hn2 Hsc). cbv beta iota.
    replace (length (input n)) with 3%nat by (by rewrite Hin). cbn [Nat.eqb].
    rewrite bind_run. unfold mret at 1, M_ret. cbv beta iota.
    rewrite bind_run. unfold lift at 1. cbv beta iota.
    step. rewrite bind_run. cbn [attr_eq_bytes].
    rewrite bool_decide_eq_true_2 by done. unfold mret at 1, M_ret. cbv beta iota.
    rewrite bind_run. unfold lift at 1, tf.Permute. rewrite hwc_is_permutation.
    cbn [negb tf.convert_to_tensor]. rewrite Hdims.
    cbn [rbind length Nat.eqb negb map lookup list_lookup default Z.to_nat Pos.to_nat
           Pos.iter_op Nat.add]. cbv beta iota.
    rewrite bind_run. unfold lift at 1, value_cells. cbn [axes_cells]. unfold vector.
    rewrite Hsh, Hcells. cbv beta iota.
    rewrite bind_run. cbn [length Nat.ltb Nat.leb]. cbv beta iota.
    rewrite bind_run. unfold lift at 1. cbn [lookup list_lookup index_error]. cbv beta iota.
    change (scalar_eqb (SFloat 1 0) (SInt 1)) with true. cbn [negb]. cbv beta iota.
    rewrite bind_run. rewrite bind_run. unfold lift at 1.
    cbn [lookup list_lookup index_error]. cbv beta iota.
    unfold mret at 1, M_ret. cbv beta iota.
    change (scalar_eqb (SFloat 1 0) (SInt 1)) with true. cbn [negb]. cbv beta iota.
    unfold lift at 1, tf.dims at 1. unfold tf.node at 1. cbn [t_shape rbind].
    cbn [lookup list_lookup index_error rbind scalar_scale scalar_int Z.leb Z.compare].
    cbv beta iota.
    change (Z.to_nat 1) with 1%nat. change (Z.to_nat 2) with 2%nat.
    change (Z.to_nat 3) with 3%nat. change (2 ^ 0) with 1.
    cbn [lookup list_lookup default rbind id]. cbv beta iota. rewrite !Z.mul_1_r.
    rewrite bind_run. unfold lift at 1, tf.image_resize, tf.dims. unfold tf.node at 1.
    cbn [t_shape rbind]. cbv beta iota.
    rewrite bind_run. unfold lift at 1, tf.Permute. rewrite chw_is_permutation.
    cbn [negb]. unfold tf.dims, tf.node at 1. cbn [t_shape rbind].
    cbn [rbind length Nat.eqb negb map lookup list_lookup default Z.to_nat Pos.to_nat
           Pos.iter_op Nat.add]. cbv beta iota.
    cbn [set_layer layers lambda_func params log]. reflexivity.
  - reflexivity.
Qed.

Lemma resize_by_scales_witness :
  ∃ st',
    convert_resize (Node ["x"; ""; "scales"]) "out" "resize_1" resize_state = (st', Ok tt)
    ∧ layers st'
      = <["out" :=
            Symbolic
              (tf.node (KPermute [3; 1; 2] None)
                 [tf.node (TfImageResize [2 * Z.of_nat 4; 2 * Z.of_nat 5] NEAREST_NEIGHBOR)
                    [tf.node (KPermute [2; 3; 1] None) [image_nchw]
                       (Some [None; Some 4; Some 5; Some 3]%nat)]
                    (Some [None; Some (Z.to_nat (2 * Z.of_nat 4));
                           Some (Z.to_nat (2 * Z.of_nat 5)); Some 3%nat])]
                 (Some [None; Some 3%nat; Some (Z.to_nat (2 * Z.of_nat 4));
                        Some (Z.to_nat (2 * Z.of_nat 5))]))]> (layers resize_state).
Proof.
  apply (resize_by_scales resize_state (Node ["x"; ""; "scales"]) "out" "resize_1"
           "x" "scales" image_nchw double_scales None (Some 3%nat) 4%nat 5%nat 2 2);
    try reflexivity; done.
Defined.

(** [convert_resize] by sizes compares [sizes[0]] with the static batch
    dimension of the input: when that dimension is unknown the comparison
    of a number with [None] is never an equality, and the routine raises
    whatever the sizes are. *)
Theorem resize_by_sizes_needs_a_known_batch :
  ∀ st n node_name keras_name name0 name3 x sizes c h w z0 cells,
    input n = [name0; ""; ""; name3] →
    layers st !! name0 = Some (Symbolic x) →
    t_shape x = Some [None; c; h; w] →
    layers st !! name3 = Some (Constant sizes) →
    nd_shape sizes = [length (z0 :: cells)] →
    nd_data sizes = z0 :: cells →
    z0 ≠ SNone →
    params st !! "mode" = Some (ABytes "nearest") →
    convert_resize n node_name keras_name st
    = (st, Raise (PyException "Resize of channels or batch dim not suppported")).
Proof.
  intros st n node_name keras_name name0 name3 x sizes c h w z0 cells
    Hin Hx Hs Hsz Hsh Hcells Hz0 Hmode.
  assert (input n !! 0%nat = Some name0) as Hi0 by (by rewrite Hin).
  assert (input n !! 1%nat = Some "") as Hi1 by (by rewrite Hin).
  assert (input n !! 2%nat = Some "") as Hi2 by (by rewrite Hin).
  assert (input n !! 3%nat = Some name3) as Hi3 by (by rewrite Hin).
  assert (tf.dims x = Ok [None; c; h; w]) as Hdims by (unfold tf.dims; by rewrite Hs).
  unfold convert_resize. do 2 step. step.
  rewrite bind_run, optional_layer_absent. cbv beta iota.
  step. rewrite bind_run, optional_layer_absent. cbv beta iota.
  replace (length (input n)) with 4%nat by (by rewrite Hin). cbn [Nat.eqb].
  rewrite bind_run. do 2 step. unfold mret at 1, M_ret. cbv beta iota.
  rewrite bind_run. unfold lift at 1. cbv beta iota.
  step. rewrite bind_run. cbn [attr_eq_bytes].
  rewrite bool_decide_eq_true_2 by done. unfold mret at 1, M_ret. cbv beta iota.
  rewrite bind_run. unfold lift at 1, tf.Permute. rewrite hwc_is_permutation.
  cbn [negb tf.convert_to_tensor]. rewrite Hdims.
  cbn [rbind length Nat.eqb negb]. cbv beta iota.
  rewrite bind_run. unfold lift at 1. cbv beta iota.
  rewrite bind_run. cbn [length Nat.ltb Nat.leb]. cbv beta iota.
  rewrite bind_run. unfold lift at 1, value_cells. cbn [axes_cells]. unfold vector.
  rewrite Hsh, Hcells. cbv beta iota.
  rewrite bind_run. unfold lift at 1. cbn [value_shape]. rewrite Hdims. cbv beta iota.
  rewrite bind_run. unfold lift at 1. cbn [lookup list_lookup index_error]. cbv beta iota.
  rewrite bind_run. unfold lift at 1. cbn [lookup list_lookup index_error]. cbv beta iota.
  rewrite bind_run. cbn [dim_scalar].
  replace (scalar_eqb z0 SNone) with false by (by destruct z0).
  cbn [negb]. unfold mret at 1, M_ret. cbv beta iota.
  reflexivity.
Qed.

Lemma resize_by_sizes_needs_a_known_batch_witness :
  convert_resize (Node ["x"; ""; ""; "sizes"]) "out" "resize_1" resize_state
  = (resize_state, Raise (PyException "Resize of channels or batch dim not suppported")).
Proof.
  apply (resize_by_sizes_needs_a_known_batch resize_state (Node ["x"; ""; ""; "sizes"]) "out"
           "resize_1" "x" "sizes" image_nchw (int_vector [1; 3; 8; 10])
           (Some 3%nat) (Some 4%nat) (Some 5%nat) (SInt 1) (map SInt [3; 8; 10]));
    try reflexivity; done.
Defined.
